(** * M68HC05 on-chip peripherals: ports, timer, COP watchdogs, interrupts

    A shallow embedding of [src/devices/cpu/m6805/m68hc05.cpp].  Every
    member function of [m68hc05_device] that touches peripheral state is a
    Rocq function on an explicit device record; the external callbacks
    (port output, compare output, reset line, interrupt acknowledge) are
    recorded in a trace, and [throw emu_fatalerror] is the [Fatal] outcome. *)

From Stdlib Require Import ZArith Zdiv Lia Bool.
From stdpp Require Import base list strings.

Local Open Scope Z_scope.

(** ** Machine integers *)

Definition u8 (x : Z) : Z := x mod 2 ^ 8.
Definition u16 (x : Z) : Z := x mod 2 ^ 16.
Definition u32 (x : Z) : Z := x mod 2 ^ 32.
Definition u64 (x : Z) : Z := x mod 2 ^ 64.

(** [BIT(x, n)] of the emulator core: bit [n] of [x]. *)
Definition BIT (x n : Z) : bool := Z.testbit x n.

(** C arrays indexed by an in-range offset.  Parameters that the source
    declares [u8] ([data], the port masks) are bytes by type and are passed
    as they are; the wrap-around is written out where the source
    computes. *)
Definition arr_get {A} (dflt : A) (l : list A) (i : Z) : A :=
  default dflt (l !! Z.to_nat i).
Definition arr_set {A} (l : list A) (i : Z) (v : A) : list A :=
  <[Z.to_nat i := v]> l.

(** ** Outcomes and external effects *)

Inductive outcome (A : Type) : Type :=
| Done (a : A)
| Fatal (msg : string) (a : A).
Arguments Done {A} a.
Arguments Fatal {A} msg a.

Definition is_fatal {A} (o : outcome A) : bool :=
  match o with Done _ => false | Fatal _ _ => true end.
Definition final {A} (o : outcome A) : A :=
  match o with Done a => a | Fatal _ a => a end.

Inductive event : Type :=
| PortWrite (port value mem_mask : Z)   (* m_port_cb_w[port](space, 0, value, mem_mask) *)
| TcmpWrite (level : Z)                 (* m_tcmp_cb(level) *)
| ResetPulse                            (* set_input_line(INPUT_LINE_RESET, PULSE_LINE) *)
| IrqAck (line : Z).                    (* standard_irq_callback(line) *)

Global Instance event_eq_dec : EqDecision event.
Proof. solve_decision. Defined.

(** ** Device state *)

Record port_state : Type := mk_ports {
  m_port_bits : list Z;
  m_port_input : list Z;
  m_port_latch : list Z;
  m_port_ddr : list Z }.

Record timer_state : Type := mk_timer {
  m_tcap_state : bool;
  m_tcr : Z;
  m_tsr : Z;
  m_tsr_seen : Z;
  m_prescaler : Z;
  m_counter : Z;
  m_icr : Z;
  m_ocr : Z;
  m_inhibit_cap : bool;
  m_inhibit_cmp : bool;
  m_trl_buf : list Z;
  m_trl_latched : list bool }.

Record cop_state : Type := mk_cop {
  m_pcop_cnt : Z;
  m_ncop_cnt : Z;
  m_coprst : Z;
  m_copcr : Z;
  m_ncope : Z }.

(** The conversion of a byte into the value kept in [m_ncope]. *)
Record ncope_rule : Type := mk_ncope_rule { ncope_of : Z -> Z }.

(** Modelled from the spec: the processor registers of
    [m6805_base_device] (m6805.h, not among the sources) that this file
    reads or writes, the pending-interrupt mask, the line states, the cycle
    budget, and the program address space as a byte memory. *)
Record m6805_base : Type := mk_base {
  m_pc : Z;
  m_x : Z;
  m_a : Z;
  m_cc : Z;
  m_s : Z;
  m_pending_interrupts : Z;
  m_irq_state : list Z;
  m_icount : Z;
  m_program : Z -> Z }.

Record device : Type := mk_device {
  configured : bool;
  started : bool;
  ports : port_state;
  timer : timer_state;
  cop : cop_state;
  base : m6805_base;
  trace : list event }.

(** Field updates. *)

Definition set_port_bits_arr v p := mk_ports v (m_port_input p) (m_port_latch p) (m_port_ddr p).
Definition set_port_input v p := mk_ports (m_port_bits p) v (m_port_latch p) (m_port_ddr p).
Definition set_port_latch v p := mk_ports (m_port_bits p) (m_port_input p) v (m_port_ddr p).
Definition set_port_ddr v p := mk_ports (m_port_bits p) (m_port_input p) (m_port_latch p) v.

Definition set_tcap_state v t :=
  mk_timer v (m_tcr t) (m_tsr t) (m_tsr_seen t) (m_prescaler t) (m_counter t) (m_icr t)
    (m_ocr t) (m_inhibit_cap t) (m_inhibit_cmp t) (m_trl_buf t) (m_trl_latched t).
Definition set_tcr v t :=
  mk_timer (m_tcap_state t) v (m_tsr t) (m_tsr_seen t) (m_prescaler t) (m_counter t) (m_icr t)
    (m_ocr t) (m_inhibit_cap t) (m_inhibit_cmp t) (m_trl_buf t) (m_trl_latched t).
Definition set_tsr v t :=
  mk_timer (m_tcap_state t) (m_tcr t) v (m_tsr_seen t) (m_prescaler t) (m_counter t) (m_icr t)
    (m_ocr t) (m_inhibit_cap t) (m_inhibit_cmp t) (m_trl_buf t) (m_trl_latched t).
Definition set_tsr_seen v t :=
  mk_timer (m_tcap_state t) (m_tcr t) (m_tsr t) v (m_prescaler t) (m_counter t) (m_icr t)
    (m_ocr t) (m_inhibit_cap t) (m_inhibit_cmp t) (m_trl_buf t) (m_trl_latched t).
Definition set_prescaler v t :=
  mk_timer (m_tcap_state t) (m_tcr t) (m_tsr t) (m_tsr_seen t) v (m_counter t) (m_icr t)
    (m_ocr t) (m_inhibit_cap t) (m_inhibit_cmp t) (m_trl_buf t) (m_trl_latched t).
Definition set_counter v t :=
  mk_timer (m_tcap_state t) (m_tcr t) (m_tsr t) (m_tsr_seen t) (m_prescaler t) v (m_icr t)
    (m_ocr t) (m_inhibit_cap t) (m_inhibit_cmp t) (m_trl_buf t) (m_trl_latched t).
Definition set_icr v t :=
  mk_timer (m_tcap_state t) (m_tcr t) (m_tsr t) (m_tsr_seen t) (m_prescaler t) (m_counter t) v
    (m_ocr t) (m_inhibit_cap t) (m_inhibit_cmp t) (m_trl_buf t) (m_trl_latched t).
Definition set_ocr v t :=
  mk_timer (m_tcap_state t) (m_tcr t) (m_tsr t) (m_tsr_seen t) (m_prescaler t) (m_counter t) (m_icr t)
    v (m_inhibit_cap t) (m_inhibit_cmp t) (m_trl_buf t) (m_trl_latched t).
Definition set_inhibit_cap v t :=
  mk_timer (m_tcap_state t) (m_tcr t) (m_tsr t) (m_tsr_seen t) (m_prescaler t) (m_counter t) (m_icr t)
    (m_ocr t) v (m_inhibit_cmp t) (m_trl_buf t) (m_trl_latched t).
Definition set_inhibit_cmp v t :=
  mk_timer (m_tcap_state t) (m_tcr t) (m_tsr t) (m_tsr_seen t) (m_prescaler t) (m_counter t) (m_icr t)
    (m_ocr t) (m_inhibit_cap t) v (m_trl_buf t) (m_trl_latched t).
Definition set_trl_buf v t :=
  mk_timer (m_tcap_state t) (m_tcr t) (m_tsr t) (m_tsr_seen t) (m_prescaler t) (m_counter t) (m_icr t)
    (m_ocr t) (m_inhibit_cap t) (m_inhibit_cmp t) v (m_trl_latched t).
Definition set_trl_latched v t :=
  mk_timer (m_tcap_state t) (m_tcr t) (m_tsr t) (m_tsr_seen t) (m_prescaler t) (m_counter t) (m_icr t)
    (m_ocr t) (m_inhibit_cap t) (m_inhibit_cmp t) (m_trl_buf t) v.

Definition set_pcop_cnt v c := mk_cop v (m_ncop_cnt c) (m_coprst c) (m_copcr c) (m_ncope c).
Definition set_ncop_cnt v c := mk_cop (m_pcop_cnt c) v (m_coprst c) (m_copcr c) (m_ncope c).
Definition set_coprst v c := mk_cop (m_pcop_cnt c) (m_ncop_cnt c) v (m_copcr c) (m_ncope c).
Definition set_copcr v c := mk_cop (m_pcop_cnt c) (m_ncop_cnt c) (m_coprst c) v (m_ncope c).

Definition set_pc v b :=
  mk_base v (m_x b) (m_a b) (m_cc b) (m_s b) (m_pending_interrupts b) (m_irq_state b)
    (m_icount b) (m_program b).
Definition set_cc v b :=
  mk_base (m_pc b) (m_x b) (m_a b) v (m_s b) (m_pending_interrupts b) (m_irq_state b)
    (m_icount b) (m_program b).
Definition set_s v b :=
  mk_base (m_pc b) (m_x b) (m_a b) (m_cc b) v (m_pending_interrupts b) (m_irq_state b)
    (m_icount b) (m_program b).
Definition set_pending_interrupts v b :=
  mk_base (m_pc b) (m_x b) (m_a b) (m_cc b) (m_s b) v (m_irq_state b)
    (m_icount b) (m_program b).
Definition set_irq_state v b :=
  mk_base (m_pc b) (m_x b) (m_a b) (m_cc b) (m_s b) (m_pending_interrupts b) v
    (m_icount b) (m_program b).
Definition set_icount v b :=
  mk_base (m_pc b) (m_x b) (m_a b) (m_cc b) (m_s b) (m_pending_interrupts b) (m_irq_state b)
    v (m_program b).
Definition set_program v b :=
  mk_base (m_pc b) (m_x b) (m_a b) (m_cc b) (m_s b) (m_pending_interrupts b) (m_irq_state b)
    (m_icount b) v.

Definition upd_ports (f : port_state -> port_state) (d : device) : device :=
  mk_device (configured d) (started d) (f (ports d)) (timer d) (cop d) (base d) (trace d).
Definition upd_timer (f : timer_state -> timer_state) (d : device) : device :=
  mk_device (configured d) (started d) (ports d) (f (timer d)) (cop d) (base d) (trace d).
Definition upd_cop (f : cop_state -> cop_state) (d : device) : device :=
  mk_device (configured d) (started d) (ports d) (timer d) (f (cop d)) (base d) (trace d).
Definition upd_base (f : m6805_base -> m6805_base) (d : device) : device :=
  mk_device (configured d) (started d) (ports d) (timer d) (cop d) (f (base d)) (trace d).
Definition emit (e : event) (d : device) : device :=
  mk_device (configured d) (started d) (ports d) (timer d) (cop d) (base d) (trace d ++ [e]).

(** ** Digital I/O ports *)

(** Modelled from the spec: [PORT_COUNT] is a constant of the header
    m68hc05.h, which is not among the sources.  There are four ports, A to
    D, as many as the constructor initialises. *)
Definition PORT_COUNT : Z := 4.

(** Modelled from the spec: [port_value] is declared in the header
    m68hc05.h, which is not among the sources.  The visible value is
    (cached input AND bits set as input) OR (output latch AND bits set as
    output). *)
Definition port_value (offset : Z) (p : port_state) : Z :=
  Z.lor (Z.land (arr_get 0 (m_port_input p) offset) (Z.lnot (arr_get 0 (m_port_ddr p) offset)))
        (Z.land (arr_get 0 (m_port_latch p) offset) (arr_get 0 (m_port_ddr p) offset)).

Definition set_port_bits (a b c d : Z) (dev : device) : outcome device :=
  if configured dev || started dev
  then Fatal "Attempt to set physical port bits after configuration" dev
  else
    let dev := upd_ports (fun p => set_port_bits_arr (arr_set (m_port_bits p) 0 a) p) dev in
    let dev := upd_ports (fun p => set_port_bits_arr (arr_set (m_port_bits p) 1 b) p) dev in
    let dev := upd_ports (fun p => set_port_bits_arr (arr_set (m_port_bits p) 2 c) p) dev in
    let dev := upd_ports (fun p => set_port_bits_arr (arr_set (m_port_bits p) 3 d) p) dev in
    Done dev.

(** [cb] is the binding of [m_port_cb_r[offset]]: [None] when the callback
    is null, otherwise the board's answer for a given mask. *)
Definition port_r (cb : option (Z -> Z)) (offset : Z) (dev : device) : Z * device :=
  let offset := Z.land offset (PORT_COUNT - 1) in
  let dev :=
    match cb with
    | Some f =>
        let p := ports dev in
        let bits := arr_get 0 (m_port_bits p) offset in
        let ddr := arr_get 0 (m_port_ddr p) offset in
        let newval := Z.land (u8 (f (Z.land (Z.lnot ddr) bits))) bits in
        upd_ports (fun p => set_port_input (arr_set (m_port_input p) offset newval) p) dev
    | None => dev
    end in
  (port_value offset (ports dev), dev).

Definition port_latch_w (offset data : Z) (dev : device) : device :=
  let offset := Z.land offset (PORT_COUNT - 1) in
  let data := Z.land data (arr_get 0 (m_port_bits (ports dev)) offset) in
  let diff := Z.lxor (arr_get 0 (m_port_latch (ports dev)) offset) data in
  let dev := upd_ports (fun p => set_port_latch (arr_set (m_port_latch p) offset data) p) dev in
  if negb (Z.land diff (arr_get 0 (m_port_ddr (ports dev)) offset) =? 0)
  then emit (PortWrite offset (port_value offset (ports dev))
                       (arr_get 0 (m_port_ddr (ports dev)) offset)) dev
  else dev.

Definition port_ddr_r (offset : Z) (dev : device) : Z :=
  arr_get 0 (m_port_ddr (ports dev)) (Z.land offset (PORT_COUNT - 1)).

Definition port_ddr_w (offset data : Z) (dev : device) : device :=
  let offset := Z.land offset (PORT_COUNT - 1) in
  let data := Z.land data (arr_get 0 (m_port_bits (ports dev)) offset) in
  if negb (data =? arr_get 0 (m_port_ddr (ports dev)) offset)
  then
    let dev := upd_ports (fun p => set_port_ddr (arr_set (m_port_ddr p) offset data) p) dev in
    emit (PortWrite offset (port_value offset (ports dev))
                    (arr_get 0 (m_port_ddr (ports dev)) offset)) dev
  else dev.

(** ** The constructor

    The member initialisers of [m68hc05_device::m68hc05_device]; the base
    core starts with cleared registers, an empty stack at the top of its
    window, two interrupt lines and a zeroed memory. *)
Definition m68hc05_device_init : device :=
  mk_device false false
    (mk_ports [0xff; 0xff; 0xff; 0xff] [0xff; 0xff; 0xff; 0xff]
              [0xff; 0xff; 0xff; 0xff] [0x00; 0x00; 0x00; 0x00])
    (mk_timer false 0x00 0x00 0x00 0x00 0xfffc 0x0000 0x0000 false false
              [0xfc; 0xfc] [false; false])
    (mk_cop 0 0 0x00 0x00 0)
    (mk_base 0 0 0 0 0xff 0 [0; 0] 0 (fun _ => 0))
    [].

(** ** Constants of headers that are not among the sources *)

(** Modelled from the spec: the line states of the emulator core (emu.h,
    not among the sources), a released and an asserted level. *)
Definition CLEAR_LINE : Z := 0.
Definition ASSERT_LINE : Z := 1.

(** Modelled from the spec: the condition-code bits of m6805defs.h (not
    among the sources) are carry, zero, negative, interrupt mask and half
    carry, from bit 0 upwards. *)
Definition IFLAG : Z := 0x08.

Definition M68HC05_VECTOR_TIMER : Z := 0xfff8.
(** Commented out in the source, kept for comparison. *)
Definition M68HC05_VECTOR_INT : Z := 0xfffa.

(** Stack window given to the base core by the constructor:
    [{ s_hc_ops, s_hc_cycles, 13, 0x00ff, 0x00c0, M68HC05_VECTOR_SWI }]. *)
Definition SP_MASK : Z := 0x00ff.
Definition SP_LOW : Z := 0x00c0.
(** [ADDRESS_MAP_GLOBAL_MASK(0x1fff)] of the three address maps. *)
Definition GLOBAL_MASK : Z := 0x1fff.

(** Modelled from the spec: the inline accessors of m68hc05.h (not among
    the sources) for the edge and level bits of TCR and for the fired
    status, enable and timeout-select bits of COPCR.  The bit positions are
    the ones the source uses for the same fields: the log line of [tcr_w]
    (IEDG bit 1, OLVL bit 0), the log line of [copcr_w] (PCOPE bit 2, CM the
    low two bits), and COPF as bit 4 in [copcr_r] and [burn_cycles]. *)
Definition tcr_iedg (t : timer_state) : bool := BIT (m_tcr t) 1.
Definition tcr_olvl (t : timer_state) : bool := BIT (m_tcr t) 0.
Definition copcr_copf (c : cop_state) : bool := BIT (m_copcr c) 4.
Definition copcr_pcope (c : cop_state) : bool := BIT (m_copcr c) 2.
Definition copcr_cm (c : cop_state) : Z := Z.land (m_copcr c) 0x03.

(** ** Memory and stack helpers of the 6805 base core *)

(** Modelled from the spec: [rdmem] and [wrmem] are the 8-bit read and
    write of the bus interface (m6805.h, not among the sources), here on a
    byte memory behind the global address mask. *)
Definition rdmem (addr : Z) (b : m6805_base) : Z :=
  m_program b (Z.land addr GLOBAL_MASK).

Definition wrmem (addr value : Z) (b : m6805_base) : m6805_base :=
  set_program (fun a => if a =? Z.land addr GLOBAL_MASK then value else m_program b a) b.

(** Modelled from the spec: [pushbyte], [pushword] and [rm16] belong to
    m6805.cpp, which is not among the sources.  A push stores at the stack
    pointer and moves it down; the stack pointer stays within its window and
    wraps to the top when it would leave it.  A word is pushed low byte
    first, and a vector is read high byte first. *)
Definition pushbyte (v : Z) (b : m6805_base) : m6805_base :=
  let b := wrmem (m_s b) v b in
  let s := m_s b - 1 in
  set_s (if s <? SP_LOW then SP_MASK else s) b.

Definition pushword (w : Z) (b : m6805_base) : m6805_base :=
  let b := pushbyte (u8 w) b in
  pushbyte (u8 (Z.shiftr w 8)) b.

Definition rm16 (addr : Z) (b : m6805_base) : Z :=
  Z.lor (Z.shiftl (rdmem addr b) 8) (rdmem (addr + 1) b).

(** Modelled from the spec: [SEI] (m6805defs.h, not among the sources)
    sets the global interrupt-mask flag. *)
Definition SEI (b : m6805_base) : m6805_base := set_cc (Z.lor (m_cc b) IFLAG) b.

(** ** Sample devices

    The worked examples take the external interrupt on line 0 and the timer
    on line 1, with both in the interrupt mask, and a base core whose own
    reset leaves its registers alone. *)

Definition example_irq_line : Z := 0.
Definition example_tcap_line : Z := 1.
Definition example_int_mask : Z := 0x03.
Definition example_base_reset (b : m6805_base) : m6805_base := b.
(** A watchdog enable that takes bit 0 of the byte it is given. *)
Definition example_ncope_rule : ncope_rule := mk_ncope_rule (fun byte => Z.land byte 1).

(** A memory with the timer vector pointing to 0x1234 and the external
    interrupt vector to 0x5678. *)
Definition example_vectors (a : Z) : Z :=
  if a =? 0x1ff8 then 0x12
  else if a =? 0x1ff9 then 0x34
  else if a =? 0x1ffa then 0x56
  else if a =? 0x1ffb then 0x78
  else 0.

(** A device at PC 0x0123 with the overflow interrupt enabled, the overflow
    flag up and the given bits pending. *)
Definition example_pending (pending : Z) : device :=
  upd_base (fun b => set_pc 0x0123
                       (set_program example_vectors (set_pending_interrupts pending b)))
    (upd_timer (fun t => set_tsr 0x20 (set_tcr 0x20 t)) m68hc05_device_init).

Section M68HC05.

Set Default Proof Using "Type".

(** The interrupt line numbers and the interrupt mask are [#define]s of
    m68hc05.h, which is not among the sources: the device is modelled for
    every value of them. *)
Variable M68HC05_TCAP_LINE : Z.
Variable M68HC05_INT_MASK : Z.

(** [m6805_base_device::device_start] and [device_reset] (m6805.cpp). *)
Variable base_device_start : m6805_base -> m6805_base.
Variable base_device_reset : m6805_base -> m6805_base.

(** [set_ncope] is an inline member of m68hc05.h, which is not among the
    sources: what it makes of its argument, the byte of the option cell,
    before storing it in [m_ncope] is a parameter. *)
Variable set_ncope_rule : ncope_rule.

(** ** Timer/counter registers *)

(** [m_tcr & m_tsr & 0xe0]: some timer status flag has its interrupt enabled. *)
Definition timer_irq_enabled (t : timer_state) : bool :=
  negb (Z.land (Z.land (m_tcr t) (m_tsr t)) 0xe0 =? 0).

(** [m_pending_interrupts |= u16(1) << line] *)
Definition pending_set (line : Z) (b : m6805_base) : m6805_base :=
  set_pending_interrupts (u16 (Z.lor (m_pending_interrupts b) (Z.shiftl (u16 1) line))) b.

(** [m_pending_interrupts &= ~(u16(1) << line)] *)
Definition pending_clear (line : Z) (b : m6805_base) : m6805_base :=
  set_pending_interrupts
    (u16 (Z.land (m_pending_interrupts b) (Z.lnot (Z.shiftl (u16 1) line)))) b.

(** [if (!(m_tcr & m_tsr & 0xe0)) m_pending_interrupts &= ~(u16(1) << M68HC05_TCAP_LINE);] *)
Definition drop_timer_irq_if_idle (dev : device) : device :=
  if negb (timer_irq_enabled (timer dev))
  then upd_base (pending_clear M68HC05_TCAP_LINE) dev
  else dev.

(** [if (m_tcr & m_tsr & 0xe0) m_pending_interrupts |= u16(1) << M68HC05_TCAP_LINE;] *)
Definition raise_timer_irq_if_enabled (dev : device) : device :=
  if timer_irq_enabled (timer dev)
  then upd_base (pending_set M68HC05_TCAP_LINE) dev
  else dev.

Definition tcr_r (dev : device) : Z := m_tcr (timer dev).

Definition tcr_w (data : Z) (dev : device) : device :=
  let data := Z.land data 0xe3 in
  let dev := upd_timer (set_tcr data) dev in
  if timer_irq_enabled (timer dev)
  then upd_base (pending_set M68HC05_TCAP_LINE) dev
  else upd_base (pending_clear M68HC05_TCAP_LINE) dev.

Definition tsr_r (debugger_access : bool) (dev : device) : Z * device :=
  let dev :=
    if negb debugger_access
    then upd_timer (fun t => set_tsr_seen (m_tsr t) t) dev
    else dev in
  (m_tsr (timer dev), dev).

Definition icr_r (debugger_access : bool) (offset : Z) (dev : device) : Z * device :=
  let low := BIT offset 0 in
  let dev :=
    if negb debugger_access then
      if low then
        let dev :=
          if BIT (m_tsr_seen (timer dev)) 7 then
            let dev := upd_timer (fun t => set_tsr (Z.land (m_tsr t) 0x7f) t) dev in
            let dev := upd_timer (fun t => set_tsr_seen (Z.land (m_tsr_seen t) 0x7f) t) dev in
            drop_timer_irq_if_idle dev
          else dev in
        upd_timer (set_inhibit_cap false) dev
      else
        upd_timer (set_inhibit_cap true) dev
    else dev in
  (u8 (Z.shiftr (m_icr (timer dev)) (if low then 0 else 8)), dev).

Definition ocr_r (debugger_access : bool) (offset : Z) (dev : device) : Z * device :=
  let low := BIT offset 0 in
  let dev :=
    if negb debugger_access && low && BIT (m_tsr_seen (timer dev)) 6 then
      let dev := upd_timer (fun t => set_tsr (Z.land (m_tsr t) 0xbf) t) dev in
      let dev := upd_timer (fun t => set_tsr_seen (Z.land (m_tsr_seen t) 0xbf) t) dev in
      drop_timer_irq_if_idle dev
    else dev in
  (u8 (Z.shiftr (m_ocr (timer dev)) (if low then 0 else 8)), dev).

Definition ocr_w (debugger_access : bool) (offset data : Z) (dev : device) : device :=
  let low := BIT offset 0 in
  let dev :=
    if negb debugger_access then
      if low then
        let dev :=
          if BIT (m_tsr_seen (timer dev)) 6 then
            let dev := upd_timer (fun t => set_tsr (Z.land (m_tsr t) 0xbf) t) dev in
            let dev := upd_timer (fun t => set_tsr_seen (Z.land (m_tsr_seen t) 0xbf) t) dev in
            drop_timer_irq_if_idle dev
          else dev in
        upd_timer (set_inhibit_cmp false) dev
      else
        upd_timer (set_inhibit_cmp true) dev
    else dev in
  upd_timer
    (fun t => set_ocr (Z.lor (Z.land (m_ocr t) (if low then 0xff00 else 0x00ff))
                             (Z.shiftl (u16 data) (if low then 0 else 8))) t) dev.

Definition timer_r (debugger_access : bool) (offset : Z) (dev : device) : Z * device :=
  let low := BIT offset 0 in
  let alt := if BIT offset 1 then 1 else 0 in
  if low then
    let dev :=
      if negb debugger_access then
        let dev := upd_timer (fun t => set_trl_latched (arr_set (m_trl_latched t) alt false) t) dev in
        if negb (BIT offset 1) && BIT (m_tsr_seen (timer dev)) 5 then
          let dev := upd_timer (fun t => set_tsr (Z.land (m_tsr t) 0xdf) t) dev in
          let dev := upd_timer (fun t => set_tsr_seen (Z.land (m_tsr_seen t) 0xdf) t) dev in
          drop_timer_irq_if_idle dev
        else dev
      else dev in
    (arr_get 0 (m_trl_buf (timer dev)) alt, dev)
  else
    let dev :=
      if negb debugger_access && negb (arr_get false (m_trl_latched (timer dev)) alt) then
        let dev := upd_timer (fun t => set_trl_latched (arr_set (m_trl_latched t) alt true) t) dev in
        upd_timer (fun t => set_trl_buf (arr_set (m_trl_buf t) alt (u8 (m_counter t))) t) dev
      else dev in
    (u8 (Z.shiftr (m_counter (timer dev)) 8), dev).

(** ** COP watchdog registers *)

Definition coprst_w (data : Z) (dev : device) : device :=
  if data =? 0x55 then
    upd_cop (set_coprst data) dev
  else if data =? 0xaa then
    let dev :=
      if m_coprst (cop dev) =? 0x55
      then upd_cop (fun c => set_pcop_cnt (Z.land (m_pcop_cnt c) 0x00007fff) c) dev
      else dev in
    upd_cop (set_coprst data) dev
  else dev.

(** The handler has no [debugger_access] test: the flag of the access is
    taken and not consulted. *)
Definition copcr_r (debugger_access : bool) (dev : device) : Z * device :=
  let result := m_copcr (cop dev) in
  (result, upd_cop (fun c => set_copcr (Z.land (m_copcr c) 0xef) c) dev).

Definition copcr_w (data : Z) (dev : device) : device :=
  upd_cop (fun c => set_copcr (Z.lor (Z.land (m_copcr c) 0xf4) (Z.land data 0x0f)) c) dev.

Definition copr_w (data : Z) (dev : device) : device :=
  if negb (BIT data 0) then upd_cop (set_ncop_cnt 0) dev else dev.

(** ** Start and reset *)

Definition set_ncope v c := mk_cop (m_pcop_cnt c) (m_ncop_cnt c) (m_coprst c) (m_copcr c) v.

(** [std::fill(std::begin(a), std::end(a), v)] *)
Definition fill {A} (l : list A) (v : A) : list A := replicate (length l) v.

Definition device_start (dev : device) : device :=
  let dev := upd_base base_device_start dev in
  (* digital I/O state unaffected by reset *)
  let dev := upd_ports (fun p => set_port_input (fill (m_port_input p) 0xff) p) dev in
  let dev := upd_ports (fun p => set_port_latch (fill (m_port_latch p) 0xff) p) dev in
  (* timer state unaffected by reset *)
  let dev := upd_timer (set_tcap_state false) dev in
  let dev := upd_timer (set_tcr 0x00) dev in
  let dev := upd_timer (set_tsr 0x00) dev in
  let dev := upd_timer (set_icr 0x0000) dev in
  let dev := upd_timer (set_ocr 0x0000) dev in
  (* COP watchdog state unaffected by reset *)
  let dev := upd_cop (set_pcop_cnt 0) dev in
  let dev := upd_cop (set_coprst 0x00) dev in
  let dev := upd_cop (set_copcr 0x00) dev in
  upd_cop (set_ncope 0) dev.

Definition device_reset (dev : device) : device :=
  let dev := upd_base base_device_reset dev in
  (* digital I/O reset *)
  let dev := upd_ports (fun p => set_port_ddr (fill (m_port_ddr p) 0x00) p) dev in
  (* timer reset *)
  let dev := upd_timer (fun t => set_tcr (Z.land (m_tcr t) 0x02) t) dev in
  let dev := upd_timer (set_tsr_seen 0x00) dev in
  let dev := upd_timer (set_prescaler 0) dev in
  let dev := upd_timer (set_counter 0xfffc) dev in
  let dev := upd_timer (set_inhibit_cmp false) dev in
  let dev := upd_timer (set_inhibit_cap false) dev in
  let dev := upd_timer (fun t => set_trl_buf (arr_set (m_trl_buf t) 1 (u8 (m_counter t))) t) dev in
  let dev := upd_timer (fun t => set_trl_buf (arr_set (m_trl_buf t) 0 (u8 (m_counter t))) t) dev in
  let dev := upd_timer (fun t => set_trl_latched (arr_set (m_trl_latched t) 1 false) t) dev in
  let dev := upd_timer (fun t => set_trl_latched (arr_set (m_trl_latched t) 0 false) t) dev in
  (* COP watchdog reset *)
  let dev := upd_cop (set_ncop_cnt 0) dev in
  upd_cop (fun c => set_copcr (Z.land (m_copcr c) 0x10) c) dev.

(** ** Input lines *)

Definition execute_set_input (inputnum state : Z) (dev : device) : device :=
  if inputnum =? M68HC05_TCAP_LINE then
    let level := negb (state =? 0) in
    let dev :=
      if negb (eqb level (m_tcap_state (timer dev))) && eqb level (tcr_iedg (timer dev)) then
        if negb (m_inhibit_cap (timer dev)) then
          let dev := upd_timer (fun t => set_tsr (Z.lor (m_tsr t) 0x80) t) dev in
          let dev := upd_timer (fun t => set_icr (m_counter t) t) dev in
          raise_timer_irq_if_enabled dev
        else dev
      else dev in
    upd_timer (set_tcap_state level) dev
  else
    if negb (arr_get 0 (m_irq_state (base dev)) inputnum =? state) then
      let dev :=
        upd_base (fun b => set_irq_state
                    (arr_set (m_irq_state b) inputnum
                       (if state =? ASSERT_LINE then ASSERT_LINE else CLEAR_LINE)) b) dev in
      if negb (state =? CLEAR_LINE)
      then upd_base (pending_set inputnum) dev
      else dev
    else dev.

(** Both take and return [uint64_t]. *)
Definition execute_clocks_to_cycles (clocks : Z) : Z := u64 (clocks + 1) / 2.
Definition execute_cycles_to_clocks (cycles : Z) : Z := u64 (cycles * 2).

(** ** Cycle accounting: timer and watchdogs *)

Definition burn_cycles (count : Z) (dev : device) : device :=
  (* calculate new timer values *)
  let ps_opt := 4 in
  let ps_mask := Z.shiftl 1 ps_opt - 1 in
  let increments :=
    Z.shiftr (u32 (count + Z.land (m_prescaler (timer dev)) ps_mask)) ps_opt in
  let new_counter := u32 (m_counter (timer dev) + increments) in
  let timer_rollover :=
    (m_counter (timer dev) <? 0x010000) && (0x010000 <=? new_counter) in
  let output_compare_match :=
    (m_counter (timer dev) <? m_ocr (timer dev)) && (m_ocr (timer dev) <=? new_counter) in
  let dev := upd_timer (fun t => set_prescaler (Z.land (u32 (count + m_prescaler t)) ps_mask) t) dev in
  let dev := upd_timer (set_counter (u16 new_counter)) dev in
  let dev :=
    if timer_rollover
    then upd_timer (fun t => set_tsr (Z.lor (m_tsr t) 0x20) t) dev
    else dev in
  let dev :=
    if output_compare_match then
      if negb (m_inhibit_cmp (timer dev)) then
        let dev := upd_timer (fun t => set_tsr (Z.lor (m_tsr t) 0x40) t) dev in
        emit (TcmpWrite (if tcr_olvl (timer dev) then 1 else 0)) dev
      else dev
    else dev in
  let dev := raise_timer_irq_if_enabled dev in
  (* run programmable COP *)
  let pcop_timeout := u32 (Z.shiftl 1 (Z.shiftl (copcr_cm (cop dev)) 1 + 15)) in
  let dev :=
    if copcr_pcope (cop dev)
       && (pcop_timeout <=? u32 (Z.land (m_pcop_cnt (cop dev)) (pcop_timeout - 1) + count))
    then
      let dev := upd_cop (fun c => set_copcr (Z.lor (m_copcr c) 0x10) c) dev in
      emit ResetPulse dev
    else dev in
  let dev :=
    upd_cop (fun c => set_pcop_cnt (Z.land (u32 (m_pcop_cnt c + count)) (Z.shiftl 1 21 - 1)) c) dev in
  (* run non-programmable COP *)
  let dev := upd_cop (fun c => set_ncop_cnt (u32 (m_ncop_cnt c + count)) c) dev in
  let dev := if Z.shiftl 1 17 <=? m_ncop_cnt (cop dev) then emit ResetPulse dev else dev in
  upd_cop (fun c => set_ncop_cnt (Z.land (m_ncop_cnt c) (Z.shiftl 1 17 - 1)) c) dev.

(** ** Interrupt service *)

Definition interrupt (dev : device) : outcome device :=
  if negb (Z.land (m_pending_interrupts (base dev)) M68HC05_INT_MASK =? 0) then
    if Z.land (m_cc (base dev)) IFLAG =? 0 then
      let dev := upd_base (fun b => pushword (m_pc b) b) dev in
      let dev := upd_base (fun b => pushbyte (m_x b) b) dev in
      let dev := upd_base (fun b => pushbyte (m_a b) b) dev in
      let dev := upd_base (fun b => pushbyte (m_cc b) b) dev in
      let dev := upd_base SEI dev in
      let dev := emit (IrqAck 0) dev in
      if BIT (m_pending_interrupts (base dev)) M68HC05_TCAP_LINE then
        let dev := upd_base (fun b => set_pc (rm16 M68HC05_VECTOR_TIMER b) b) dev in
        let dev := upd_base (fun b => set_icount (m_icount b - 10) b) dev in
        Done (burn_cycles 10 dev)
      else
        Fatal "Unknown pending interrupt" dev
    else Done dev
  else Done dev.

(** ** The register bank as one access function

    The handlers reachable through the address maps ([c8a_map] has them
    all), each with the [debugger_access] flag of its address space. *)

Inductive access : Type :=
| Rd_port (cb : option (Z -> Z)) (offset : Z)
| Wr_port_latch (offset data : Z)
| Rd_port_ddr (offset : Z)
| Wr_port_ddr (offset data : Z)
| Rd_tcr
| Wr_tcr (data : Z)
| Rd_tsr
| Rd_icr (offset : Z)
| Rd_ocr (offset : Z)
| Wr_ocr (offset data : Z)
| Rd_timer (offset : Z)
| Wr_coprst (data : Z)
| Rd_copcr
| Wr_copcr (data : Z)
| Wr_copr (data : Z).

Definition perform (debugger_access : bool) (a : access) (dev : device) : Z * device :=
  match a with
  | Rd_port cb offset => port_r cb offset dev
  | Wr_port_latch offset data => (0, port_latch_w offset data dev)
  | Rd_port_ddr offset => (port_ddr_r offset dev, dev)
  | Wr_port_ddr offset data => (0, port_ddr_w offset data dev)
  | Rd_tcr => (tcr_r dev, dev)
  | Wr_tcr data => (0, tcr_w data dev)
  | Rd_tsr => tsr_r debugger_access dev
  | Rd_icr offset => icr_r debugger_access offset dev
  | Rd_ocr offset => ocr_r debugger_access offset dev
  | Wr_ocr offset data => (0, ocr_w debugger_access offset data dev)
  | Rd_timer offset => timer_r debugger_access offset dev
  | Wr_coprst data => (0, coprst_w data dev)
  | Rd_copcr => copcr_r debugger_access dev
  | Wr_copcr data => (0, copcr_w data dev)
  | Wr_copr data => (0, copr_w data dev)
  end.

(** ** Read-to-clear protocol, in the words of the register description

    The three status flags of TSR, the bit each occupies, and the low
    register whose access completes the clearing of each. *)

Inductive status_flag : Type := ICF | OCF | TOF.

Definition flag_bit (f : status_flag) : Z :=
  match f with ICF => 7 | OCF => 6 | TOF => 5 end.

(** ICRL is offset 1 of [icr_r], OCRL offset 1 of [ocr_r]/[ocr_w], TRL
    offset 1 of [timer_r] (offset 3 is ATRL). *)
Definition paired_low (f : status_flag) (a : access) : bool :=
  match f, a with
  | ICF, Rd_icr offset => BIT offset 0
  | OCF, Rd_ocr offset => BIT offset 0
  | OCF, Wr_ocr offset _ => BIT offset 0
  | TOF, Rd_timer offset => BIT offset 0 && negb (BIT offset 1)
  | _, _ => false
  end.

Definition flag_set (f : status_flag) (dev : device) : bool :=
  BIT (m_tsr (timer dev)) (flag_bit f).
Definition flag_seen (f : status_flag) (dev : device) : bool :=
  BIT (m_tsr_seen (timer dev)) (flag_bit f).

(** ** Derived notions

    Runs of operations, observations on the trace, the parts of
    [burn_cycles], and the port and stack descriptions used in the
    statements below. *)

(** What one access leaves in [m_tsr]. *)
Definition tsr_after (dbg : bool) (a : access) (t : timer_state) : Z :=
  match a with
  | Rd_icr offset =>
      if negb dbg && BIT offset 0 && BIT (m_tsr_seen t) 7
      then Z.land (m_tsr t) 0x7f else m_tsr t
  | Rd_ocr offset | Wr_ocr offset _ =>
      if negb dbg && BIT offset 0 && BIT (m_tsr_seen t) 6
      then Z.land (m_tsr t) 0xbf else m_tsr t
  | Rd_timer offset =>
      if negb dbg && BIT offset 0 && negb (BIT offset 1) && BIT (m_tsr_seen t) 5
      then Z.land (m_tsr t) 0xdf else m_tsr t
  | _ => m_tsr t
  end.

(** A run of writes to COPRST, oldest first. *)
Definition coprst_writes (bytes : list Z) (dev : device) : device :=
  foldl (fun d data => coprst_w data d) dev bytes.

Definition total (cs : list Z) : Z := foldr Z.add 0 cs.

Definition run_cycles (cs : list Z) (dev : device) : device :=
  foldl (fun d count => burn_cycles count d) dev cs.

Definition pcop_fires (count : Z) (c : cop_state) : bool :=
  copcr_pcope c
  && (2 ^ (15 + 2 * copcr_cm c) <=? m_pcop_cnt c mod 2 ^ (15 + 2 * copcr_cm c) + count).

Definition ncop_fires (count : Z) (c : cop_state) : bool :=
  2 ^ 17 <=? u32 (m_ncop_cnt c + count).

Definition reset_pulses (tr : list event) : nat :=
  length (filter (fun e => e = ResetPulse) tr).

(** The parts of [burn_cycles], as its comments divide it: the new timer
    values, the interrupt request, the two watchdogs. *)
Definition timer_stage (count : Z) (dev : device) : device :=
  let ps_opt := 4 in
  let ps_mask := Z.shiftl 1 ps_opt - 1 in
  let increments :=
    Z.shiftr (u32 (count + Z.land (m_prescaler (timer dev)) ps_mask)) ps_opt in
  let new_counter := u32 (m_counter (timer dev) + increments) in
  let timer_rollover :=
    (m_counter (timer dev) <? 0x010000) && (0x010000 <=? new_counter) in
  let output_compare_match :=
    (m_counter (timer dev) <? m_ocr (timer dev)) && (m_ocr (timer dev) <=? new_counter) in
  let dev := upd_timer (fun t => set_prescaler (Z.land (u32 (count + m_prescaler t)) ps_mask) t) dev in
  let dev := upd_timer (set_counter (u16 new_counter)) dev in
  let dev :=
    if timer_rollover
    then upd_timer (fun t => set_tsr (Z.lor (m_tsr t) 0x20) t) dev
    else dev in
  if output_compare_match then
    if negb (m_inhibit_cmp (timer dev)) then
      let dev := upd_timer (fun t => set_tsr (Z.lor (m_tsr t) 0x40) t) dev in
      emit (TcmpWrite (if tcr_olvl (timer dev) then 1 else 0)) dev
    else dev
  else dev.

Definition run_timer (count : Z) (dev : device) : device :=
  raise_timer_irq_if_enabled (timer_stage count dev).

Definition run_pcop (count : Z) (dev : device) : device :=
  let pcop_timeout := u32 (Z.shiftl 1 (Z.shiftl (copcr_cm (cop dev)) 1 + 15)) in
  let dev :=
    if copcr_pcope (cop dev)
       && (pcop_timeout <=? u32 (Z.land (m_pcop_cnt (cop dev)) (pcop_timeout - 1) + count))
    then
      let dev := upd_cop (fun c => set_copcr (Z.lor (m_copcr c) 0x10) c) dev in
      emit ResetPulse dev
    else dev in
  upd_cop (fun c => set_pcop_cnt (Z.land (u32 (m_pcop_cnt c + count)) (Z.shiftl 1 21 - 1)) c) dev.

Definition run_ncop (count : Z) (dev : device) : device :=
  let dev := upd_cop (fun c => set_ncop_cnt (u32 (m_ncop_cnt c + count)) c) dev in
  let dev := if Z.shiftl 1 17 <=? m_ncop_cnt (cop dev) then emit ResetPulse dev else dev in
  upd_cop (fun c => set_ncop_cnt (Z.land (m_ncop_cnt c) (Z.shiftl 1 17 - 1)) c) dev.

Inductive port_write : Type :=
| Latch_write (data : Z)
| Ddr_write (data : Z).

Definition port_write_apply (offset : Z) (w : port_write) (dev : device) : device :=
  match w with
  | Latch_write data => port_latch_w offset data dev
  | Ddr_write data => port_ddr_w offset data dev
  end.

Definition port_writes (offset : Z) (ws : list port_write) (dev : device) : device :=
  foldl (fun d w => port_write_apply offset w d) dev ws.

(** The pins of one port, as the port description has them. *)
Record pins : Type := mk_pins {
  pin_bits : Z;
  pin_input : Z;
  pin_latch : Z;
  pin_ddr : Z }.

Definition pins_of (offset : Z) (p : port_state) : pins :=
  mk_pins (arr_get 0 (m_port_bits p) offset) (arr_get 0 (m_port_input p) offset)
          (arr_get 0 (m_port_latch p) offset) (arr_get 0 (m_port_ddr p) offset).

Definition visible (p : pins) : Z :=
  Z.lor (Z.land (pin_input p) (Z.lnot (pin_ddr p))) (Z.land (pin_latch p) (pin_ddr p)).

Definition pins_write (w : port_write) (p : pins) : pins :=
  match w with
  | Latch_write data =>
      mk_pins (pin_bits p) (pin_input p) (Z.land data (pin_bits p)) (pin_ddr p)
  | Ddr_write data =>
      mk_pins (pin_bits p) (pin_input p) (pin_latch p) (Z.land data (pin_bits p))
  end.

(** A latch write is reported when it changes the visible value, a DDR
    write when it changes the DDR. *)
Definition callback_due (w : port_write) (p : pins) : bool :=
  match w with
  | Latch_write _ => negb (visible (pins_write w p) =? visible p)
  | Ddr_write _ => negb (pin_ddr (pins_write w p) =? pin_ddr p)
  end.

Fixpoint callbacks (offset : Z) (ws : list port_write) (p : pins) : list event :=
  match ws with
  | [] => []
  | w :: ws =>
      (if callback_due w p
       then [PortWrite offset (visible (pins_write w p)) (pin_ddr (pins_write w p))]
       else [])
      ++ callbacks offset ws (pins_write w p)
  end.

Definition wf_ports (p : port_state) : Prop :=
  length (m_port_bits p) = 4%nat /\ length (m_port_input p) = 4%nat
  /\ length (m_port_latch p) = 4%nat /\ length (m_port_ddr p) = 4%nat.

(** Where the stack pointer goes after one push. *)
Definition sp_dec (s : Z) : Z := if s - 1 <? SP_LOW then SP_MASK else s - 1.

Definition in_stack_window (s : Z) : Prop := SP_LOW <= s <= SP_MASK.

(** The stack frame of an interrupt, as [interrupt] pushes it. *)
Definition stack_frame (b : m6805_base) : m6805_base :=
  let b := pushword (m_pc b) b in
  let b := pushbyte (m_x b) b in
  let b := pushbyte (m_a b) b in
  pushbyte (m_cc b) b.

Definition timer_pending_sound (dev : device) : Prop :=
  BIT (m_pending_interrupts (base dev)) M68HC05_TCAP_LINE = true ->
  timer_irq_enabled (timer dev) = true.

(** The device on entry to the service routine: frame pushed, interrupts
    masked, acknowledge signalled. *)
Definition entered (dev : device) : device :=
  emit (IrqAck 0) (upd_base (fun b => SEI (stack_frame b)) dev).

(** ** Everything that happens to the device

    One step is a register access with its [debugger_access] flag, a call
    of the cycle accounting, a level delivered on an input line, the
    interrupt check at an instruction boundary, or a reset. *)

Inductive step : Type :=
| Access (debugger_access : bool) (a : access)
| Cycles (count : Z)
| Line (inputnum state : Z)
| Service
| Reset.

Definition step_apply (s : step) (dev : device) : device :=
  match s with
  | Access debugger_access a => snd (perform debugger_access a dev)
  | Cycles count => burn_cycles count dev
  | Line inputnum state => execute_set_input inputnum state dev
  | Service => final (interrupt dev)
  | Reset => device_reset dev
  end.

Definition run_steps (ss : list step) (dev : device) : device :=
  foldl (fun d s => step_apply s d) dev ss.

(** The levels driven on the compare output, oldest first. *)
Definition tcmp_writes (tr : list event) : list Z :=
  omap (fun e => match e with TcmpWrite level => Some level | _ => None end) tr.

(** Steps that leave the capture inhibit alone: everything but a program
    read of either half of ICR and a reset. *)
Definition leaves_capture_latch (s : step) : bool :=
  match s with
  | Access false (Rd_icr _) | Reset => false
  | _ => true
  end.

(** Steps that leave the compare inhibit alone: everything but a program
    write of either half of OCR and a reset. *)
Definition leaves_compare_latch (s : step) : bool :=
  match s with
  | Access false (Wr_ocr _ _) | Reset => false
  | _ => true
  end.

(** Steps that leave the low-byte buffer of one counter channel alone
    ([alt] selects ATRH/ATRL): everything but a program read of that
    channel and a reset. *)
Definition leaves_counter_latch (alt : bool) (s : step) : bool :=
  match s with
  | Access false (Rd_timer offset) => negb (eqb (BIT offset 1) alt)
  | Reset => false
  | _ => true
  end.

(** The compare test of [burn_cycles]: the compare register lies above the
    counter and at or below the counter advanced by this call, and compare
    is not inhibited. *)
Definition compare_hit (count : Z) (t : timer_state) : bool :=
  (m_counter t <? m_ocr t)
  && (m_ocr t <=? u32 (m_counter t + Z.shiftr (u32 (count + Z.land (m_prescaler t) 15)) 4))
  && negb (m_inhibit_cmp t).

(** The capture test of [execute_set_input]: the level delivered differs
    from the recorded one, it is the level selected by IEDG, and capture is
    not inhibited. *)
Definition capture_taken (state : Z) (t : timer_state) : bool :=
  let level := negb (state =? 0) in
  negb (eqb level (m_tcap_state t)) && eqb level (tcr_iedg t) && negb (m_inhibit_cap t).

(** Steps that mark no status flag as seen: everything but a program
    read of TSR. *)
Definition marks_nothing_seen (s : step) : bool :=
  match s with
  | Access false Rd_tsr => false
  | _ => true
  end.

(** Steps that leave TCR alone: everything but a write of TCR and a
    reset. *)
Definition leaves_tcr (s : step) : bool :=
  match s with
  | Access _ (Wr_tcr _) | Reset => false
  | _ => true
  end.

(** The peripheral state of a device: ports, timer and watchdogs. *)
Definition peripherals (dev : device) : port_state * timer_state * cop_state :=
  (ports dev, timer dev, cop dev).

(** Accesses that a debugger can make without a trace: the reads, other
    than those of a port with a read callback bound and of COPCR. *)
Definition debugger_transparent (a : access) : bool :=
  match a with
  | Rd_port None _ | Rd_port_ddr _ | Rd_tcr | Rd_tsr | Rd_icr _ | Rd_ocr _ | Rd_timer _ => true
  | _ => false
  end.

(** ** The address maps of the three variants

    [c4_map], [c8_map] and [c8a_map], entry by entry.  An entry gives a
    range of addresses a read handler, a write handler or both; ROM is
    memory that is read only, RAM memory that is read and written.  The
    handlers of this file are named, and ROM and RAM share [R_memory]. *)

Inductive read_handler : Type :=
| R_port | R_port_ddr | R_tcr | R_tsr | R_icr | R_ocr | R_timer | R_copcr | R_memory.

Inductive write_handler : Type :=
| W_port_latch | W_port_ddr | W_tcr | W_ocr | W_coprst | W_copcr | W_copr | W_memory.

Definition map_entry : Type := Z * Z * (option read_handler * option write_handler).

Definition AM_RANGE (first last : Z) (h : option read_handler * option write_handler)
  : map_entry := (first, last, h).
Definition AM_READWRITE (r : read_handler) (w : write_handler) := (Some r, Some w).
Definition AM_READ (r : read_handler) : option read_handler * option write_handler :=
  (Some r, None).
Definition AM_WRITE (w : write_handler) : option read_handler * option write_handler :=
  (None, Some w).
Definition AM_ROM : option read_handler * option write_handler := (Some R_memory, None).
Definition AM_RAM : option read_handler * option write_handler :=
  (Some R_memory, Some W_memory).

Definition c4_map : list map_entry :=
  [ AM_RANGE 0x0000 0x0003 (AM_READWRITE R_port W_port_latch);
    AM_RANGE 0x0004 0x0006 (AM_READWRITE R_port_ddr W_port_ddr);
    AM_RANGE 0x0012 0x0012 (AM_READWRITE R_tcr W_tcr);
    AM_RANGE 0x0013 0x0013 (AM_READ R_tsr);
    AM_RANGE 0x0014 0x0015 (AM_READ R_icr);
    AM_RANGE 0x0016 0x0017 (AM_READWRITE R_ocr W_ocr);
    AM_RANGE 0x0018 0x001b (AM_READ R_timer);
    AM_RANGE 0x0020 0x004f AM_ROM;
    AM_RANGE 0x0050 0x00ff AM_RAM;
    AM_RANGE 0x0100 0x10ff AM_ROM;
    AM_RANGE 0x1f00 0x1fef AM_ROM;
    AM_RANGE 0x1ff4 0x1fff AM_ROM ].

Definition c8_map : list map_entry :=
  [ AM_RANGE 0x0000 0x0003 (AM_READWRITE R_port W_port_latch);
    AM_RANGE 0x0004 0x0006 (AM_READWRITE R_port_ddr W_port_ddr);
    AM_RANGE 0x0012 0x0012 (AM_READWRITE R_tcr W_tcr);
    AM_RANGE 0x0013 0x0013 (AM_READ R_tsr);
    AM_RANGE 0x0014 0x0015 (AM_READ R_icr);
    AM_RANGE 0x0016 0x0017 (AM_READWRITE R_ocr W_ocr);
    AM_RANGE 0x0018 0x001b (AM_READ R_timer);
    AM_RANGE 0x0020 0x004f AM_ROM;
    AM_RANGE 0x0050 0x00ff AM_RAM;
    AM_RANGE 0x0100 0x1eff AM_ROM;
    AM_RANGE 0x1f00 0x1fef AM_ROM;
    AM_RANGE 0x1ff4 0x1fff AM_ROM ].

Definition c8a_map : list map_entry :=
  [ AM_RANGE 0x0000 0x0003 (AM_READWRITE R_port W_port_latch);
    AM_RANGE 0x0004 0x0006 (AM_READWRITE R_port_ddr W_port_ddr);
    AM_RANGE 0x0012 0x0012 (AM_READWRITE R_tcr W_tcr);
    AM_RANGE 0x0013 0x0013 (AM_READ R_tsr);
    AM_RANGE 0x0014 0x0015 (AM_READ R_icr);
    AM_RANGE 0x0016 0x0017 (AM_READWRITE R_ocr W_ocr);
    AM_RANGE 0x0018 0x001b (AM_READ R_timer);
    AM_RANGE 0x001d 0x001d (AM_WRITE W_coprst);
    AM_RANGE 0x001e 0x001e (AM_READWRITE R_copcr W_copcr);
    AM_RANGE 0x0020 0x004f AM_ROM;
    AM_RANGE 0x0050 0x00ff AM_RAM;
    AM_RANGE 0x0100 0x015f AM_ROM;
    AM_RANGE 0x0160 0x1eff AM_ROM;
    AM_RANGE 0x1f00 0x1fde AM_ROM;
    AM_RANGE 0x1fe0 0x1fef AM_ROM;
    AM_RANGE 0x1ff0 0x1ff0 (AM_WRITE W_copr);
    AM_RANGE 0x1ff0 0x1fff AM_ROM ].

Inductive variant : Type := M68HC05C4 | M68HC05C8 | M68HC705C8A.

Definition variant_map (v : variant) : list map_entry :=
  match v with
  | M68HC05C4 => c4_map
  | M68HC05C8 => c8_map
  | M68HC705C8A => c8a_map
  end.

(** Every variant's constructor is the common constructor followed by
    [set_port_bits(0xff, 0xff, 0xff, 0xbf)]. *)
Definition variant_init (v : variant) : outcome device :=
  set_port_bits 0xff 0xff 0xff 0xbf m68hc05_device_init.

(** [m68hc705c8a_device::device_reset]: the reset of the class it derives
    from, then [set_ncope(rdmem(0xfff1))].  The [m68hc705_device] in
    between defines no reset in this file, so that the reset it passes on
    is the common one.

    Modelled from the spec: [set_ncope] is declared in m68hc05.h, which is
    not among the sources.  The enable latch of the non-programmable
    watchdog is sampled from a fixed memory cell at reset: [set_ncope]
    stores in [m_ncope], and nowhere else, what [ncope_of set_ncope_rule]
    makes of the byte read. *)
Definition m68hc705c8a_device_reset (dev : device) : device :=
  let dev := device_reset dev in
  upd_cop (set_ncope (ncope_of set_ncope_rule (rdmem 0xfff1 (base dev)))) dev.

(** The reset of each variant: the MC68HC05C4 and MC68HC05C8 inherit the
    common one. *)
Definition variant_reset (v : variant) (dev : device) : device :=
  match v with
  | M68HC705C8A => m68hc705c8a_device_reset dev
  | _ => device_reset dev
  end.

(** Modelled from the spec: the dispatch of the emulator's memory system
    (emumem, not among the sources).  An address is masked with
    [ADDRESS_MAP_GLOBAL_MASK], the entry whose range holds it and that has
    a handler of the wanted kind is taken, and the handler gets the distance
    from the start of the range as its offset.  No two entries of a map
    give one address two handlers of the same kind, so that the choice among
    several entries never arises.  An unmapped read returns all ones
    ([ADDRESS_MAP_UNMAP_HIGH]), an unmapped write does nothing. *)
Fixpoint map_read (m : list map_entry) (addr : Z) : option (Z * read_handler) :=
  match m with
  | [] => None
  | (first, last, (Some h, _)) :: m' =>
      if (first <=? addr) && (addr <=? last) then Some (addr - first, h)
      else map_read m' addr
  | (_, _, (None, _)) :: m' => map_read m' addr
  end.

Fixpoint map_write (m : list map_entry) (addr : Z) : option (Z * write_handler) :=
  match m with
  | [] => None
  | (first, last, (_, Some h)) :: m' =>
      if (first <=? addr) && (addr <=? last) then Some (addr - first, h)
      else map_write m' addr
  | (_, _, (_, None)) :: m' => map_write m' addr
  end.

(** [cb_r] gives each port the binding of its read callback,
    [m_port_cb_r]. *)
Definition bus_read (m : list map_entry) (cb_r : Z -> option (Z -> Z))
    (debugger_access : bool) (addr : Z) (dev : device) : Z * device :=
  let addr := Z.land addr GLOBAL_MASK in
  match map_read m addr with
  | Some (offset, R_port) =>
      perform debugger_access (Rd_port (cb_r (Z.land offset (PORT_COUNT - 1))) offset) dev
  | Some (offset, R_port_ddr) => perform debugger_access (Rd_port_ddr offset) dev
  | Some (_, R_tcr) => perform debugger_access Rd_tcr dev
  | Some (_, R_tsr) => perform debugger_access Rd_tsr dev
  | Some (offset, R_icr) => perform debugger_access (Rd_icr offset) dev
  | Some (offset, R_ocr) => perform debugger_access (Rd_ocr offset) dev
  | Some (offset, R_timer) => perform debugger_access (Rd_timer offset) dev
  | Some (_, R_copcr) => perform debugger_access Rd_copcr dev
  | Some (_, R_memory) => (rdmem addr (base dev), dev)
  | None => (0xff, dev)
  end.

Definition bus_write (m : list map_entry) (debugger_access : bool) (addr data : Z)
    (dev : device) : device :=
  let addr := Z.land addr GLOBAL_MASK in
  match map_write m addr with
  | Some (offset, W_port_latch) => snd (perform debugger_access (Wr_port_latch offset data) dev)
  | Some (offset, W_port_ddr) => snd (perform debugger_access (Wr_port_ddr offset data) dev)
  | Some (_, W_tcr) => snd (perform debugger_access (Wr_tcr data) dev)
  | Some (offset, W_ocr) => snd (perform debugger_access (Wr_ocr offset data) dev)
  | Some (_, W_coprst) => snd (perform debugger_access (Wr_coprst data) dev)
  | Some (_, W_copcr) => snd (perform debugger_access (Wr_copcr data) dev)
  | Some (_, W_copr) => snd (perform debugger_access (Wr_copr data) dev)
  | Some (_, W_memory) => upd_base (wrmem addr data) dev
  | None => dev
  end.

(** What happens to a machine of one variant: bus reads and writes, and
    the steps that do not go through the bus. *)
Inductive machine_step : Type :=
| Bus_read (debugger_access : bool) (addr : Z)
| Bus_write (debugger_access : bool) (addr data : Z)
| Bus_idle (count : Z)
| Input_line (inputnum state : Z)
| Interrupt_check
| Device_reset.

Definition machine_apply (v : variant) (cb_r : Z -> option (Z -> Z))
    (s : machine_step) (dev : device) : device :=
  match s with
  | Bus_read debugger_access addr => snd (bus_read (variant_map v) cb_r debugger_access addr dev)
  | Bus_write debugger_access addr data => bus_write (variant_map v) debugger_access addr data dev
  | Bus_idle count => burn_cycles count dev
  | Input_line inputnum state => execute_set_input inputnum state dev
  | Interrupt_check => final (interrupt dev)
  | Device_reset => variant_reset v dev
  end.

Definition run_machine (v : variant) (cb_r : Z -> option (Z -> Z))
    (ss : list machine_step) (dev : device) : device :=
  foldl (fun d s => machine_apply v cb_r s d) dev ss.

(** The values driven on the pins of one port, oldest first. *)
Definition port_outputs (port : Z) (tr : list event) : list Z :=
  omap (fun e => match e with
                 | PortWrite p value _ => if p =? port then Some value else None
                 | _ => None
                 end) tr.

(** The steps of a machine that go through the bus. *)
Definition is_bus_access (s : machine_step) : bool :=
  match s with
  | Bus_read _ _ | Bus_write _ _ _ => true
  | _ => false
  end.

(** * Proofs *)

#[local] Arguments BIT : simpl never.
#[local] Arguments Z.testbit : simpl never.
#[local] Arguments Z.land : simpl never.
#[local] Arguments Z.lor : simpl never.
#[local] Arguments Z.lxor : simpl never.
#[local] Arguments Z.lnot : simpl never.
#[local] Arguments Z.shiftl : simpl never.
#[local] Arguments Z.shiftr : simpl never.
#[local] Arguments Z.modulo : simpl never.
#[local] Arguments Z.pow : simpl never.
#[local] Arguments u8 : simpl never.
#[local] Arguments u16 : simpl never.
#[local] Arguments u32 : simpl never.

Ltac split_ifs :=
  repeat match goal with
         | |- context [if ?b then _ else _] => destruct b eqn:?
         | |- context [match ?o with Some _ => _ | None => _ end] => destruct o eqn:?
         end.

(** ** Bits of masked bytes *)

Lemma land_clear_bit x m i :
  Z.testbit m i = false -> Z.testbit (Z.land x m) i = false.
Proof. intros H. rewrite Z.land_spec, H. apply andb_false_r. Qed.

Lemma land_keep_bit x m i :
  Z.testbit m i = true -> Z.testbit (Z.land x m) i = Z.testbit x i.
Proof. intros H. rewrite Z.land_spec, H. apply andb_true_r. Qed.

Lemma flag_masks (f : status_flag) x :
  (Z.testbit (Z.land x 0x7f) (flag_bit f) = if f is ICF then false else Z.testbit x (flag_bit f)) /\
  (Z.testbit (Z.land x 0xbf) (flag_bit f) = if f is OCF then false else Z.testbit x (flag_bit f)) /\
  (Z.testbit (Z.land x 0xdf) (flag_bit f) = if f is TOF then false else Z.testbit x (flag_bit f)).
Proof.
  destruct f; cbn [flag_bit]; repeat split;
    first [apply land_clear_bit; reflexivity | apply land_keep_bit; reflexivity].
Qed.

Lemma seen_bit_cleared x :
  BIT (Z.land x 0x7f) 7 = false /\ BIT (Z.land x 0xbf) 6 = false /\ BIT (Z.land x 0xdf) 5 = false.
Proof. unfold BIT. repeat split; apply land_clear_bit; reflexivity. Qed.

Lemma arr_set_twice {A} (l : list A) i v : arr_set (arr_set l i v) i v = arr_set l i v.
Proof. unfold arr_set. apply list_insert_insert_eq. Qed.

Lemma ocr_low_merge_twice x d :
  Z.lor (Z.land (Z.lor (Z.land x 0xff00) (Z.shiftl (u16 d) 0)) 0xff00) (Z.shiftl (u16 d) 0)
  = Z.lor (Z.land x 0xff00) (Z.shiftl (u16 d) 0).
Proof.
  apply Z.bits_inj'. intros n Hn.
  rewrite !Z.lor_spec, !Z.land_spec, !Z.lor_spec, !Z.land_spec.
  destruct (Z.testbit x n), (Z.testbit 65280 n), (Z.testbit (Z.shiftl (u16 d) 0) n); reflexivity.
Qed.

(** ** The status register under register accesses *)

Lemma drop_timer_irq_if_idle_timer dev :
  timer (drop_timer_irq_if_idle dev) = timer dev.
Proof. unfold drop_timer_irq_if_idle. split_ifs; reflexivity. Qed.

Lemma perform_tsr dbg a dev :
  m_tsr (timer (snd (perform dbg a dev))) = tsr_after dbg a (timer dev).
Proof.
  destruct a; simpl;
    unfold port_r, port_latch_w, port_ddr_w, tcr_w, tsr_r, icr_r, ocr_r, ocr_w,
      timer_r, coprst_w, copcr_r, copcr_w, copr_w; simpl.
  all: split_ifs; simpl in *; rewrite ?drop_timer_irq_if_idle_timer; simpl;
    try reflexivity; try discriminate.
  all: destruct dbg; simpl in *; congruence.
Qed.

Lemma tsr_after_monotone dbg a t i :
  BIT (tsr_after dbg a t) i = true -> BIT (m_tsr t) i = true.
Proof.
  unfold BIT. destruct a; simpl; split_ifs; rewrite ?Z.land_spec; intros H;
    try assumption; apply andb_prop in H; exact (proj1 H).
Qed.

Lemma flag_cleared_exactly f dbg a dev :
  (flag_set f dev = true /\ flag_set f (snd (perform dbg a dev)) = false)
  <-> (flag_set f dev = true /\ dbg = false /\ paired_low f a = true /\ flag_seen f dev = true).
Proof.
  unfold flag_set, flag_seen. rewrite perform_tsr.
  destruct (flag_masks f (m_tsr (timer dev))) as (M7 & M6 & M5).
  unfold BIT in *.
  destruct a; simpl;
    try (split; [intros [H1 H2]; congruence
                | intros (H1 & H2 & H3 & H4); destruct f; discriminate]).
  all: destruct f; cbn [flag_bit paired_low] in *; unfold BIT;
    destruct dbg; cbn [negb andb];
    destruct (Z.testbit offset 0) eqn:E0; destruct (Z.testbit offset 1) eqn:E1;
    destruct (Z.testbit (m_tsr_seen (timer dev)) 7) eqn:S7;
    destruct (Z.testbit (m_tsr_seen (timer dev)) 6) eqn:S6;
    destruct (Z.testbit (m_tsr_seen (timer dev)) 5) eqn:S5;
    cbn [negb andb]; rewrite ?M7, ?M6, ?M5; intuition congruence.
Qed.

Lemma paired_access_idempotent f a dev :
  paired_low f a = true ->
  snd (perform false a (snd (perform false a dev))) = snd (perform false a dev).
Proof.
  destruct (seen_bit_cleared (m_tsr_seen (timer dev))) as (C7 & C6 & C5).
  destruct f, a; cbn [paired_low]; try discriminate; intros Hlow;
    [ | | | apply andb_prop in Hlow; destruct Hlow as [Hlow Halt]; apply negb_true_iff in Halt ];
    simpl; unfold icr_r, ocr_r, ocr_w, timer_r; simpl; rewrite ?Hlow, ?Halt; simpl.
  all: match goal with
       | |- context [BIT (m_tsr_seen (timer ?d)) ?n] =>
           is_var d; destruct (BIT (m_tsr_seen (timer d)) n) eqn:Hseen
       end;
    simpl; rewrite ?drop_timer_irq_if_idle_timer; simpl;
    rewrite ?C7, ?C6, ?C5, ?Hseen; unfold upd_timer; simpl;
    rewrite ?drop_timer_irq_if_idle_timer; simpl;
    rewrite ?arr_set_twice, ?ocr_low_merge_twice; try reflexivity.
  unfold drop_timer_irq_if_idle; simpl.
  split_ifs; cbn; rewrite ?arr_set_twice; reflexivity.
Qed.

(** ** Debugger accesses *)

(** The timer handlers test [debugger_access]: a debugger read of TSR, of
    either half of ICR or OCR, or of any of the four counter bytes leaves
    the whole device as it was, and a debugger write of OCR changes the
    compare register only. *)
Lemma timer_debugger_read_frame a dev :
  match a with
  | Rd_tsr | Rd_icr _ | Rd_ocr _ | Rd_timer _ => snd (perform true a dev) = dev
  | Wr_ocr offset data =>
      snd (perform true a dev) =
      upd_timer (set_ocr (m_ocr (timer (snd (perform true a dev))))) dev
  | _ => True
  end.
Proof.
  destruct a; try exact I; simpl;
    unfold tsr_r, icr_r, ocr_r, ocr_w, timer_r; simpl; split_ifs; reflexivity.
Qed.

(** [copcr_r] does not: whatever the flag, the read returns COPCR and
    clears COPF. *)
Lemma copcr_r_any_access debugger_access dev :
  fst (copcr_r debugger_access dev) = m_copcr (cop dev)
  /\ copcr_copf (cop (snd (copcr_r debugger_access dev))) = false
  /\ copcr_r debugger_access dev = copcr_r false dev.
Proof.
  repeat split. unfold copcr_copf, copcr_r, BIT. simpl.
  apply land_clear_bit. reflexivity.
Qed.

(** C1.  The device right after a programmable-watchdog reset has COPF set
    (COPCR = 0x10).  A debugger read of COPCR returns 0x10 and clears COPF,
    so the program read that follows returns 0x00, where the program read
    alone returns 0x10; the debugger read of TSR on the same device changes
    nothing. *)
Theorem copcr_r_debugger_read_clears_copf :
  let dev := upd_cop (set_copcr 0x10) m68hc05_device_init in
  fst (copcr_r true dev) = 0x10
  /\ m_copcr (cop (snd (copcr_r true dev))) = 0x00
  /\ fst (copcr_r false (snd (copcr_r true dev))) = 0x00
  /\ fst (copcr_r false dev) = 0x10
  /\ snd (tsr_r true dev) = dev.
Proof. repeat split. Qed.

(** ** Watchdog arming *)

Lemma coprst_w_effect data dev :
  m_pcop_cnt (cop (coprst_w data dev)) =
    (if (data =? 0xaa) && (m_coprst (cop dev) =? 0x55)
     then Z.land (m_pcop_cnt (cop dev)) 0x7fff else m_pcop_cnt (cop dev))
  /\ m_coprst (cop (coprst_w data dev)) =
    (if (data =? 0x55) || (data =? 0xaa) then data else m_coprst (cop dev)).
Proof.
  unfold coprst_w.
  destruct (data =? 0x55) eqn:E55; [apply Z.eqb_eq in E55; subst; split; reflexivity | ].
  destruct (data =? 0xaa) eqn:Eaa; simpl; [ | split; reflexivity].
  destruct (m_coprst (cop dev) =? 0x55); split; reflexivity.
Qed.

Lemma coprst_w_other data dev :
  data <> 0x55 -> data <> 0xaa -> coprst_w data dev = dev.
Proof.
  intros H55 Haa. unfold coprst_w.
  apply Z.eqb_neq in H55, Haa. rewrite H55, Haa. reflexivity.
Qed.

Lemma coprst_writes_others others dev :
  Forall (fun data => data <> 0x55 /\ data <> 0xaa) others ->
  coprst_writes others dev = dev.
Proof.
  intros H. revert dev. induction H as [ | data others [H55 Haa] _ IH]; intros dev.
  - reflexivity.
  - simpl. rewrite coprst_w_other by assumption. apply IH.
Qed.

Lemma low15_bits x i :
  0 <= i -> Z.testbit (Z.land x 0x7fff) i = (i <? 15) && Z.testbit x i.
Proof.
  intros Hi. change 0x7fff with (Z.ones 15). rewrite Z.land_spec, andb_comm.
  destruct (i <? 15) eqn:E.
  - apply Z.ltb_lt in E. rewrite Z.ones_spec_low by lia. reflexivity.
  - apply Z.ltb_ge in E. rewrite Z.ones_spec_high by lia. reflexivity.
Qed.

(** A write to COPRST touches the counter and the byte held, and nothing
    else of the device. *)
Lemma coprst_w_frame data dev :
  coprst_w data dev
  = upd_cop (fun c => set_coprst (m_coprst (cop (coprst_w data dev)))
                        (set_pcop_cnt (m_pcop_cnt (cop (coprst_w data dev))) c)) dev.
Proof.
  destruct dev as [cf st p t c0 b0 tr]. destruct c0 as [pc nc cr cc ne].
  unfold coprst_w. cbn [cop m_coprst].
  destruct (data =? 0x55); [reflexivity | ].
  destruct (data =? 0xaa); [ | reflexivity].
  destruct (cr =? 0x55); reflexivity.
Qed.

(** C3, as the code has it.  A write to COPRST changes the counter only
    when the byte is 0xAA and the byte last stored by a 0x55 or 0xAA write
    is 0x55; bytes other than these two are ignored altogether, so they do
    not break the sequence.  When 0x55, any such other bytes and then 0xAA
    are written, the counter keeps its low 15 bits and loses every bit from
    bit 15 upwards.  A write of any byte but 0xAA leaves the counter as it
    was, and a second 0xAA in a row does too.  Every write of 0x55 or 0xAA
    stores the byte written as the byte held, a write of another byte leaves
    the byte held as it is, and no write changes anything but the counter
    and the byte held.  So after 0xAA the byte held is 0xAA, and a further
    0xAA leaves the counter alone whatever value it has taken meanwhile: a
    sequence arms once. *)
Theorem coprst_w_arming (data : Z) (others : list Z) (dev : device) :
  Forall (fun byte => byte <> 0x55 /\ byte <> 0xaa) others ->
  m_pcop_cnt (cop (coprst_w data dev)) =
    (if (data =? 0xaa) && (m_coprst (cop dev) =? 0x55)
     then Z.land (m_pcop_cnt (cop dev)) 0x7fff else m_pcop_cnt (cop dev))
  /\ (forall i, 0 <= i ->
        Z.testbit (m_pcop_cnt (cop (coprst_writes ([0x55] ++ others ++ [0xaa]) dev))) i
        = (i <? 15) && Z.testbit (m_pcop_cnt (cop dev)) i)
  /\ m_pcop_cnt (cop (coprst_w 0xaa (coprst_w 0xaa dev))) = m_pcop_cnt (cop (coprst_w 0xaa dev))
  /\ m_coprst (cop (coprst_w data dev)) =
      (if (data =? 0x55) || (data =? 0xaa) then data else m_coprst (cop dev))
  /\ coprst_w data dev
     = upd_cop (fun c => set_coprst (m_coprst (cop (coprst_w data dev)))
                           (set_pcop_cnt (m_pcop_cnt (cop (coprst_w data dev))) c)) dev
  /\ m_coprst (cop (coprst_writes ([0x55] ++ others ++ [0xaa]) dev)) = 0xaa
  /\ (forall x,
        m_pcop_cnt (cop (coprst_w 0xaa (upd_cop (set_pcop_cnt x) (coprst_w 0xaa dev)))) = x)
  /\ (forall x,
        m_pcop_cnt (cop (coprst_w 0xaa
                           (upd_cop (set_pcop_cnt x)
                              (coprst_writes ([0x55] ++ others ++ [0xaa]) dev)))) = x).
Proof.
  intros Hothers.
  assert (Hseq : coprst_writes ([0x55] ++ others ++ [0xaa]) dev
                 = coprst_w 0xaa (coprst_w 0x55 dev)).
  { unfold coprst_writes. rewrite !foldl_app. cbn [foldl app].
    fold (coprst_writes others (coprst_w 0x55 dev)).
    rewrite coprst_writes_others by assumption. reflexivity. }
  assert (Hheld : forall d, m_coprst (cop (coprst_w 0xaa d)) = 0xaa)
    by (intros d; apply (proj2 (coprst_w_effect 0xaa d))).
  assert (Hagain : forall d x, m_coprst (cop d) = 0xaa ->
            m_pcop_cnt (cop (coprst_w 0xaa (upd_cop (set_pcop_cnt x) d))) = x).
  { intros d x Hd. rewrite (proj1 (coprst_w_effect 0xaa _)).
    cbn [cop upd_cop m_coprst m_pcop_cnt set_pcop_cnt]. rewrite Hd. reflexivity. }
  repeat apply conj.
  - apply coprst_w_effect.
  - intros i Hi. rewrite Hseq.
    rewrite (proj1 (coprst_w_effect 0xaa _)), (proj2 (coprst_w_effect 0x55 _)).
    rewrite (proj1 (coprst_w_effect 0x55 _)). simpl. apply low15_bits, Hi.
  - rewrite (proj1 (coprst_w_effect 0xaa (coprst_w 0xaa dev))).
    rewrite (proj2 (coprst_w_effect 0xaa dev)). reflexivity.
  - apply coprst_w_effect.
  - apply coprst_w_frame.
  - rewrite Hseq. apply Hheld.
  - intros x. apply Hagain, Hheld.
  - intros x. apply Hagain. rewrite Hseq. apply Hheld.
Qed.

Lemma coprst_w_arming_witness :
  m_pcop_cnt (cop (coprst_writes ([0x55] ++ [0x00; 0x12] ++ [0xaa])
                     (upd_cop (set_pcop_cnt 0x1fffff) m68hc05_device_init))) = 0x7fff.
Proof.
  apply Z.bits_inj'. intros i Hi.
  rewrite (proj1 (proj2 (coprst_w_arming 0 [0x00; 0x12]
                           (upd_cop (set_pcop_cnt 0x1fffff) m68hc05_device_init)
                           ltac:(repeat constructor; lia))) i Hi).
  rewrite <- low15_bits by exact Hi. reflexivity.
Defined.

(** C3 as stated fails twice.  With the counter at 0x7fff the sequence
    0x55, 0xAA leaves all fifteen low bits set; and a write of 0x00 between
    0x55 and 0xAA does not stop the sequence from changing the counter. *)
Lemma coprst_w_low_bits_survive :
  Z.land (m_pcop_cnt (cop (coprst_writes [0x55; 0xaa]
            (upd_cop (set_pcop_cnt 0x7fff) m68hc05_device_init)))) 0x7fff <> 0
  /\ m_pcop_cnt (cop (coprst_writes [0x55; 0x00; 0xaa]
            (upd_cop (set_pcop_cnt 0x1fffff) m68hc05_device_init))) <> 0x1fffff.
Proof. split; intros H; vm_compute in H; discriminate H. Qed.

(** ** Port configuration *)

(** C9.  [set_port_bits] ends in the fatal error exactly when the device
    is configured or started, and then the device, its four port masks
    included, is as before; otherwise it returns normally with the four
    given masks stored for ports A to D and nothing else changed. *)
Theorem set_port_bits_guard (a b c d : Z) (dev : device) :
  length (m_port_bits (ports dev)) = 4%nat ->
  is_fatal (set_port_bits a b c d dev) = configured dev || started dev
  /\ (if configured dev || started dev
      then final (set_port_bits a b c d dev) = dev
      else final (set_port_bits a b c d dev)
           = upd_ports (set_port_bits_arr [a; b; c; d]) dev).
Proof.
  intros Hlen. unfold set_port_bits.
  destruct (configured dev || started dev); split; try reflexivity.
  destruct dev as [cf st p t c0 b0 tr]. destruct p as [bits inp lat ddr].
  simpl in Hlen.
  destruct bits as [ | b1 [ | b2 [ | b3 [ | b4 [ | ? ?]]]]]; try discriminate Hlen.
  reflexivity.
Qed.

Lemma set_port_bits_guard_witness :
  final (set_port_bits 0xff 0xff 0xff 0xbf m68hc05_device_init)
  = upd_ports (set_port_bits_arr [0xff; 0xff; 0xff; 0xbf]) m68hc05_device_init.
Proof.
  exact (proj2 (set_port_bits_guard 0xff 0xff 0xff 0xbf m68hc05_device_init eq_refl)).
Defined.

(** ** Reset *)

(** C10, as the code has it.  Besides what the base core's own reset does
    to the base registers, the family's common reset, [device_reset],
    zeroes the four DDRs, keeps only the edge-polarity bit of TCR, zeroes
    the seen shadow and the prescaler, sets the counter to 0xFFFC, clears
    both inhibit flags, reloads both low-byte buffers with 0xFC and clears
    both latch-pending flags, zeroes the non-programmable watchdog counter
    and keeps only COPF of COPCR.  Every other field is as before: port
    masks, input and output latches, capture line state, TSR, ICR, OCR, the
    programmable watchdog counter, the arming byte and, in the common
    reset, the NCOP enable.  The reset of the MC68HC705C8A is the common
    reset followed by one more assignment: the NCOP enable is set from the
    byte the reset core reads at 0xFFF1.  The MC68HC05C4 and the MC68HC05C8
    reset by the common reset alone. *)
Theorem device_reset_effect (dev : device) :
  length (m_port_ddr (ports dev)) = 4%nat ->
  length (m_trl_buf (timer dev)) = 2%nat ->
  length (m_trl_latched (timer dev)) = 2%nat ->
  device_reset dev =
  mk_device (configured dev) (started dev)
    (mk_ports (m_port_bits (ports dev)) (m_port_input (ports dev))
              (m_port_latch (ports dev)) [0x00; 0x00; 0x00; 0x00])
    (mk_timer (m_tcap_state (timer dev)) (Z.land (m_tcr (timer dev)) 0x02)
              (m_tsr (timer dev)) 0x00 0 0xfffc
              (m_icr (timer dev)) (m_ocr (timer dev)) false false
              [0xfc; 0xfc] [false; false])
    (mk_cop (m_pcop_cnt (cop dev)) 0 (m_coprst (cop dev))
            (Z.land (m_copcr (cop dev)) 0x10) (m_ncope (cop dev)))
    (base_device_reset (base dev))
    (trace dev)
  /\ m68hc705c8a_device_reset dev =
     mk_device (configured dev) (started dev)
       (mk_ports (m_port_bits (ports dev)) (m_port_input (ports dev))
                 (m_port_latch (ports dev)) [0x00; 0x00; 0x00; 0x00])
       (mk_timer (m_tcap_state (timer dev)) (Z.land (m_tcr (timer dev)) 0x02)
                 (m_tsr (timer dev)) 0x00 0 0xfffc
                 (m_icr (timer dev)) (m_ocr (timer dev)) false false
                 [0xfc; 0xfc] [false; false])
       (mk_cop (m_pcop_cnt (cop dev)) 0 (m_coprst (cop dev))
               (Z.land (m_copcr (cop dev)) 0x10)
               (ncope_of set_ncope_rule (rdmem 0xfff1 (base_device_reset (base dev)))))
       (base_device_reset (base dev))
       (trace dev)
  /\ variant_reset M68HC05C4 dev = device_reset dev
  /\ variant_reset M68HC05C8 dev = device_reset dev
  /\ variant_reset M68HC705C8A dev = m68hc705c8a_device_reset dev.
Proof.
  intros Hddr Hbuf Hlatched.
  destruct dev as [cf st p t c0 b0 tr].
  destruct p as [bits inp lat ddr]. destruct t. simpl in Hddr, Hbuf, Hlatched.
  destruct ddr as [ | d1 [ | d2 [ | d3 [ | d4 [ | ? ?]]]]]; try discriminate Hddr.
  destruct m_trl_buf0 as [ | t1 [ | t2 [ | ? ?]]]; try discriminate Hbuf.
  destruct m_trl_latched0 as [ | l1 [ | l2 [ | ? ?]]]; try discriminate Hlatched.
  repeat apply conj; reflexivity.
Qed.

(** ** Cycle accounting *)

Lemma burn_cycles_parts count dev :
  burn_cycles count dev = run_ncop count (run_pcop count (run_timer count dev)).
Proof. reflexivity. Qed.

Lemma run_timer_frame count dev :
  cop (run_timer count dev) = cop dev
  /\ reset_pulses (trace (run_timer count dev)) = reset_pulses (trace dev).
Proof.
  unfold run_timer, timer_stage, raise_timer_irq_if_enabled, reset_pulses. cbv zeta.
  split; split_ifs; simpl; rewrite ?filter_app, ?length_app; simpl; try reflexivity; lia.
Qed.

Lemma run_cop_frame count dev :
  timer (run_ncop count (run_pcop count dev)) = timer dev
  /\ base (run_ncop count (run_pcop count dev)) = base dev
  /\ ports (run_ncop count (run_pcop count dev)) = ports dev.
Proof. unfold run_ncop, run_pcop. cbv zeta. repeat split; split_ifs; reflexivity. Qed.

Lemma run_timer_timer count dev :
  m_prescaler (timer (run_timer count dev))
    = Z.land (u32 (count + m_prescaler (timer dev))) 15
  /\ m_counter (timer (run_timer count dev))
    = u16 (u32 (m_counter (timer dev)
                + Z.shiftr (u32 (count + Z.land (m_prescaler (timer dev)) 15)) 4))
  /\ BIT (m_tsr (timer (run_timer count dev))) 5
    = BIT (m_tsr (timer dev)) 5
      || ((m_counter (timer dev) <? 0x010000)
          && (0x010000 <=? u32 (m_counter (timer dev)
                + Z.shiftr (u32 (count + Z.land (m_prescaler (timer dev)) 15)) 4)))
  /\ m_tcr (timer (run_timer count dev)) = m_tcr (timer dev).
Proof.
  unfold run_timer, timer_stage, raise_timer_irq_if_enabled. cbv zeta. simpl.
  repeat split.
  - split_ifs; reflexivity.
  - split_ifs; reflexivity.
  - unfold BIT.
    destruct ((m_counter (timer dev) <? 65536) && _); simpl;
    split_ifs; simpl; rewrite ?Z.lor_spec;
      change (Z.testbit 32 5) with true; change (Z.testbit 64 5) with false;
      rewrite ?orb_false_r, ?orb_true_r; reflexivity.
  - split_ifs; reflexivity.
Qed.

Lemma run_cop_cop count dev :
  let timeout := u32 (Z.shiftl 1 (Z.shiftl (copcr_cm (cop dev)) 1 + 15)) in
  let fires :=
    copcr_pcope (cop dev)
    && (timeout <=? u32 (Z.land (m_pcop_cnt (cop dev)) (timeout - 1) + count)) in
  cop (run_ncop count (run_pcop count dev)) =
    mk_cop (Z.land (u32 (m_pcop_cnt (cop dev) + count)) (Z.shiftl 1 21 - 1))
           (Z.land (u32 (m_ncop_cnt (cop dev) + count)) (Z.shiftl 1 17 - 1))
           (m_coprst (cop dev))
           (if fires then Z.lor (m_copcr (cop dev)) 0x10 else m_copcr (cop dev))
           (m_ncope (cop dev))
  /\ reset_pulses (trace (run_ncop count (run_pcop count dev))) =
      (reset_pulses (trace dev) + (if fires then 1 else 0)
       + (if (Z.shiftl 1 17 <=? u32 (m_ncop_cnt (cop dev) + count))%Z then 1 else 0))%nat.
Proof.
  unfold run_ncop, run_pcop, reset_pulses. cbv zeta.
  destruct (copcr_pcope (cop dev) && _); simpl;
    destruct (Z.shiftl 1 17 <=? _); simpl;
    rewrite ?filter_app, ?length_app; simpl; split; try reflexivity; try lia.
Qed.

Lemma cm_cases c : copcr_cm c = 0 \/ copcr_cm c = 1 \/ copcr_cm c = 2 \/ copcr_cm c = 3.
Proof.
  unfold copcr_cm.
  change (Z.land (m_copcr c) 3) with (Z.land (m_copcr c) (Z.ones 2)).
  rewrite Z.land_ones by lia. change (2 ^ 2) with 4.
  assert (H : 0 <= m_copcr c mod 4 < 4) by (apply Z.mod_pos_bound; lia).
  lia.
Qed.

Lemma pcop_timeout_pow2 c :
  u32 (Z.shiftl 1 (Z.shiftl (copcr_cm c) 1 + 15)) = 2 ^ (15 + 2 * copcr_cm c).
Proof. destruct (cm_cases c) as [E | [E | [E | E]]]; rewrite E; reflexivity. Qed.

Lemma land_pcop_timeout c x :
  Z.land x (2 ^ (15 + 2 * copcr_cm c) - 1) = x mod 2 ^ (15 + 2 * copcr_cm c).
Proof.
  rewrite <- Z.land_ones by (destruct (cm_cases c) as [E | [E | [E | E]]]; rewrite E; lia).
  rewrite Z.ones_equiv, Z.sub_1_r. reflexivity.
Qed.

Lemma burn_cycles_pcop count dev :
  0 <= count < 2 ^ 31 ->
  m_copcr (cop (burn_cycles count dev)) =
    (if pcop_fires count (cop dev) then Z.lor (m_copcr (cop dev)) 0x10 else m_copcr (cop dev))
  /\ m_pcop_cnt (cop (burn_cycles count dev)) = (m_pcop_cnt (cop dev) + count) mod 2 ^ 21
  /\ m_ncop_cnt (cop (burn_cycles count dev)) = (m_ncop_cnt (cop dev) + count) mod 2 ^ 17
  /\ reset_pulses (trace (burn_cycles count dev)) =
      (reset_pulses (trace dev) + (if pcop_fires count (cop dev) then 1 else 0)
       + (if ncop_fires count (cop dev) then 1 else 0))%nat.
Proof.
  intros Hc.
  rewrite burn_cycles_parts.
  destruct (run_cop_cop count (run_timer count dev)) as [Hcop Htr].
  destruct (run_timer_frame count dev) as [Fcop Ftr].
  cbv zeta in *. rewrite Fcop, Ftr in *.
  rewrite pcop_timeout_pow2, land_pcop_timeout in *.
  assert (Hu : u32 (m_pcop_cnt (cop dev) mod 2 ^ (15 + 2 * copcr_cm (cop dev)) + count)
               = m_pcop_cnt (cop dev) mod 2 ^ (15 + 2 * copcr_cm (cop dev)) + count).
  { unfold u32. apply Z.mod_small.
    destruct (cm_cases (cop dev)) as [E | [E | [E | E]]]; rewrite E; simpl;
      match goal with |- context [?x mod ?m] =>
        assert (0 <= x mod m < m) by (apply Z.mod_pos_bound; lia) end; lia. }
  rewrite Hu in *. fold (pcop_fires count (cop dev)) in *.
  rewrite Hcop, Htr. simpl. repeat split.
  - change (Z.shiftl 1 21 - 1) with (Z.ones 21). rewrite Z.land_ones by lia.
    unfold u32. apply Z.mod_mod_divide. exists (2 ^ 11). reflexivity.
  - change (Z.shiftl 1 17 - 1) with (Z.ones 17). rewrite Z.land_ones by lia.
    unfold u32. apply Z.mod_mod_divide. exists (2 ^ 15). reflexivity.
Qed.

Lemma total_nonneg (P : Z -> Prop) cs :
  (forall c, P c -> 0 <= c) -> Forall P cs -> 0 <= total cs.
Proof.
  intros HP H. induction H as [ | c cs Hc _ IH]; simpl; [lia | ].
  specialize (HP c Hc). lia.
Qed.

Lemma burn_cycles_tick count dev :
  0 <= count < 2 ^ 32 - 16 ->
  0 <= m_prescaler (timer dev) < 16 ->
  0 <= m_counter (timer dev) < 2 ^ 16 ->
  let ticks := (m_prescaler (timer dev) + count) / 16 in
  m_prescaler (timer (burn_cycles count dev)) = (m_prescaler (timer dev) + count) mod 16
  /\ m_counter (timer (burn_cycles count dev)) = (m_counter (timer dev) + ticks) mod 2 ^ 16
  /\ flag_set TOF (burn_cycles count dev)
     = flag_set TOF dev || (2 ^ 16 <=? m_counter (timer dev) + ticks).
Proof.
  intros Hc Hp Hn ticks. unfold flag_set. cbn [flag_bit].
  rewrite burn_cycles_parts. rewrite (proj1 (run_cop_frame count (run_timer count dev))).
  destruct (run_timer_timer count dev) as (Ep & En & Et & _).
  rewrite Ep, En, Et. clear Ep En Et.
  change 15 with (Z.ones 4). rewrite !Z.land_ones by lia.
  rewrite (Z.mod_small (m_prescaler (timer dev)) (2 ^ 4)) by lia.
  rewrite Z.shiftr_div_pow2 by lia. unfold u32, u16.
  rewrite (Z.add_comm count).
  rewrite (Z.mod_small (m_prescaler (timer dev) + count) (2 ^ 32)) by lia.
  change (2 ^ 4) with 16. fold ticks.
  assert (Ht : 0 <= ticks < 2 ^ 28).
  { subst ticks. split; [apply Z.div_pos; lia | apply Z.div_lt_upper_bound; lia]. }
  rewrite (Z.mod_small (m_counter (timer dev) + ticks) (2 ^ 32)) by lia.
  repeat split. f_equal.
  destruct (m_counter (timer dev) <? 65536) eqn:E; [reflexivity | ].
  apply Z.ltb_ge in E. lia.
Qed.

Lemma run_cycles_ticks cs : forall dev,
  Forall (fun c => 0 <= c < 2 ^ 32 - 16) cs ->
  0 <= m_prescaler (timer dev) < 16 ->
  0 <= m_counter (timer dev) < 2 ^ 16 ->
  let ticks := (m_prescaler (timer dev) + total cs) / 16 in
  m_prescaler (timer (run_cycles cs dev)) = (m_prescaler (timer dev) + total cs) mod 16
  /\ m_counter (timer (run_cycles cs dev)) = (m_counter (timer dev) + ticks) mod 2 ^ 16
  /\ flag_set TOF (run_cycles cs dev)
     = flag_set TOF dev || (2 ^ 16 <=? m_counter (timer dev) + ticks).
Proof.
  induction cs as [ | c cs IH]; intros dev Hcs Hp Hn ticks.
  - subst ticks. simpl. rewrite Z.add_0_r, Z.div_small, Z.mod_small, Z.add_0_r by lia.
    rewrite (Z.mod_small _ (2 ^ 16)) by lia.
    replace (2 ^ 16 <=? m_counter (timer dev)) with false by (symmetry; apply Z.leb_gt; lia).
    rewrite orb_false_r. repeat split.
  - inversion Hcs as [ | c' cs' Hc Hcs']; subst.
    destruct (burn_cycles_tick c dev Hc Hp Hn) as (Ep & En & Et). cbv zeta in *.
    assert (Htot := total_nonneg _ cs (fun c H => proj1 H) Hcs').
    assert (Hp1 : 0 <= m_prescaler (timer (burn_cycles c dev)) < 16)
      by (rewrite Ep; apply Z.mod_pos_bound; lia).
    assert (Hn1 : 0 <= m_counter (timer (burn_cycles c dev)) < 2 ^ 16)
      by (rewrite En; apply Z.mod_pos_bound; lia).
    destruct (IH (burn_cycles c dev) Hcs' Hp1 Hn1) as (Ep' & En' & Et').
    cbv zeta in *. simpl run_cycles. change (foldl _ ?d cs) with (run_cycles cs d).
    rewrite Ep', En', Et', Ep, En, Et. clear Ep' En' Et' Ep En Et IH.
    subst ticks. simpl total.
    set (p := m_prescaler (timer dev)) in *. set (n := m_counter (timer dev)) in *.
    set (s := total cs) in *.
    assert (Hq : (p + (c + s)) / 16 = (p + c) / 16 + ((p + c) mod 16 + s) / 16).
    { clear. Z.div_mod_to_equations. lia. }
    assert (Hq1 : 0 <= (p + c) / 16) by (apply Z.div_pos; lia).
    assert (Hq2 : 0 <= ((p + c) mod 16 + s) / 16).
    { apply Z.div_pos; [ | lia].
      assert (0 <= (p + c) mod 16 < 16) by (apply Z.mod_pos_bound; lia). lia. }
    repeat split.
    + rewrite Z.add_mod_idemp_l by lia. f_equal. lia.
    + rewrite Z.add_mod_idemp_l by lia. f_equal. lia.
    + rewrite <- orb_assoc. f_equal. rewrite Hq.
      destruct (2 ^ 16 <=? n + (p + c) / 16) eqn:E.
      * apply Z.leb_le in E. simpl. symmetry. apply Z.leb_le. lia.
      * apply Z.leb_gt in E. simpl. rewrite (Z.mod_small (n + (p + c) / 16)) by lia.
        f_equal. lia.
Qed.

Lemma copcr_fired_fields x :
  Z.land (Z.lor x 0x10) 0x03 = Z.land x 0x03
  /\ BIT (Z.lor x 0x10) 2 = BIT x 2
  /\ BIT (Z.lor x 0x10) 4 = true.
Proof.
  unfold BIT. repeat split.
  - rewrite Z.land_lor_distr_l. change (Z.land 16 3) with 0. apply Z.lor_0_r.
  - rewrite Z.lor_spec. change (Z.testbit 16 2) with false. apply orb_false_r.
  - rewrite Z.lor_spec. change (Z.testbit 16 4) with true. apply orb_true_r.
Qed.

Lemma burn_cycles_pcop_step count dev :
  0 <= count < 2 ^ 31 ->
  copcr_copf (cop (burn_cycles count dev)) = copcr_copf (cop dev) || pcop_fires count (cop dev)
  /\ copcr_pcope (cop (burn_cycles count dev)) = copcr_pcope (cop dev)
  /\ copcr_cm (cop (burn_cycles count dev)) = copcr_cm (cop dev).
Proof.
  intros Hc. destruct (burn_cycles_pcop count dev Hc) as (E & _).
  unfold copcr_copf, copcr_pcope, copcr_cm. rewrite E.
  destruct (copcr_fired_fields (m_copcr (cop dev))) as (F1 & F2 & F3).
  destruct (pcop_fires count (cop dev)); rewrite ?F1, ?F2, ?F3, ?orb_true_r, ?orb_false_r;
    repeat split.
Qed.

Lemma pcop_timeout_pos c : 0 < 2 ^ (15 + 2 * copcr_cm c) /\ (2 ^ (15 + 2 * copcr_cm c) | 2 ^ 21).
Proof.
  destruct (cm_cases c) as [E | [E | [E | E]]]; rewrite E; split; try lia.
  - exists (2 ^ 6); reflexivity.
  - exists (2 ^ 4); reflexivity.
  - exists (2 ^ 2); reflexivity.
  - exists 1; reflexivity.
Qed.

Lemma run_cycles_pcop cs : forall dev,
  Forall (fun c => 0 <= c < 2 ^ 31) cs ->
  0 <= m_pcop_cnt (cop dev) < 2 ^ 21 ->
  0 <= m_ncop_cnt (cop dev) < 2 ^ 17 ->
  copcr_copf (cop (run_cycles cs dev)) = copcr_copf (cop dev) || pcop_fires (total cs) (cop dev)
  /\ copcr_pcope (cop (run_cycles cs dev)) = copcr_pcope (cop dev)
  /\ copcr_cm (cop (run_cycles cs dev)) = copcr_cm (cop dev)
  /\ m_pcop_cnt (cop (run_cycles cs dev)) = (m_pcop_cnt (cop dev) + total cs) mod 2 ^ 21
  /\ m_ncop_cnt (cop (run_cycles cs dev)) = (m_ncop_cnt (cop dev) + total cs) mod 2 ^ 17.
Proof.
  induction cs as [ | c cs IH]; intros dev Hcs Hp Hn.
  - simpl. unfold pcop_fires. rewrite !Z.add_0_r.
    destruct (pcop_timeout_pos (cop dev)) as [Hpos _].
    assert (Hlt : (2 ^ (15 + 2 * copcr_cm (cop dev))
                   <=? m_pcop_cnt (cop dev) mod 2 ^ (15 + 2 * copcr_cm (cop dev))) = false)
      by (apply Z.leb_gt, Z.mod_pos_bound, Hpos).
    rewrite Hlt, andb_false_r, orb_false_r, !Z.mod_small by lia. repeat split.
  - inversion Hcs as [ | c' cs' Hc Hcs']; subst.
    destruct (burn_cycles_pcop_step c dev Hc) as (Ef & Ee & Em).
    destruct (burn_cycles_pcop c dev Hc) as (_ & Ep & En & _).
    assert (Htot := total_nonneg _ cs (fun c H => proj1 H) Hcs').
    assert (Hp1 : 0 <= m_pcop_cnt (cop (burn_cycles c dev)) < 2 ^ 21)
      by (rewrite Ep; apply Z.mod_pos_bound; lia).
    assert (Hn1 : 0 <= m_ncop_cnt (cop (burn_cycles c dev)) < 2 ^ 17)
      by (rewrite En; apply Z.mod_pos_bound; lia).
    destruct (IH (burn_cycles c dev) Hcs' Hp1 Hn1) as (Ef' & Ee' & Em' & Ep' & En').
    simpl run_cycles. change (foldl _ ?d cs) with (run_cycles cs d).
    rewrite Ef', Ee', Em', Ep', En', Ef, Ee, Em, Ep, En. clear Ef' Ee' Em' Ep' En' IH.
    simpl total. repeat split.
    + rewrite <- orb_assoc. f_equal. unfold pcop_fires. rewrite Ee, Em, Ep.
      destruct (copcr_pcope (cop dev)); [simpl | reflexivity].
      destruct (pcop_timeout_pos (cop dev)) as [Hpos Hdiv].
      set (T := 2 ^ (15 + 2 * copcr_cm (cop dev))) in *.
      rewrite (Z.mod_mod_divide _ _ _ Hdiv), <- (Z.add_mod_idemp_l (m_pcop_cnt (cop dev))) by lia.
      assert (Hk : 0 <= m_pcop_cnt (cop dev) mod T < T) by (apply Z.mod_pos_bound, Hpos).
      set (k := m_pcop_cnt (cop dev) mod T) in *.
      destruct (T <=? k + c) eqn:E.
      * apply Z.leb_le in E. simpl. symmetry. apply Z.leb_le. lia.
      * apply Z.leb_gt in E. simpl. rewrite (Z.mod_small (k + c)) by lia. f_equal. lia.
    + rewrite Z.add_mod_idemp_l by lia. f_equal. lia.
    + rewrite Z.add_mod_idemp_l by lia. f_equal. lia.
Qed.

Lemma run_cycles_quiet cs : forall dev,
  Forall (fun c => 0 <= c < 2 ^ 31) cs ->
  0 <= m_pcop_cnt (cop dev) < 2 ^ 21 ->
  0 <= m_ncop_cnt (cop dev) ->
  pcop_fires (total cs) (cop dev) = false ->
  m_ncop_cnt (cop dev) + total cs < 2 ^ 17 ->
  reset_pulses (trace (run_cycles cs dev)) = reset_pulses (trace dev).
Proof.
  induction cs as [ | c cs IH]; intros dev Hcs Hp Hn Hquiet Hncop; [reflexivity | ].
  inversion Hcs as [ | c' cs' Hc Hcs']; subst.
  assert (Htot := total_nonneg _ cs (fun c H => proj1 H) Hcs').
  simpl total in *.
  destruct (burn_cycles_pcop_step c dev Hc) as (_ & Ee & Em).
  destruct (burn_cycles_pcop c dev Hc) as (_ & Ep & En & Er).
  destruct (pcop_timeout_pos (cop dev)) as [Hpos Hdiv].
  assert (Hk : 0 <= m_pcop_cnt (cop dev) mod 2 ^ (15 + 2 * copcr_cm (cop dev))
               < 2 ^ (15 + 2 * copcr_cm (cop dev))) by (apply Z.mod_pos_bound, Hpos).
  assert (Hfirst : pcop_fires c (cop dev) = false).
  { unfold pcop_fires in *. destruct (copcr_pcope (cop dev)); [simpl in * | reflexivity].
    apply Z.leb_gt in Hquiet. apply Z.leb_gt. lia. }
  assert (Hnfirst : ncop_fires c (cop dev) = false).
  { unfold ncop_fires, u32. rewrite Z.mod_small by lia. apply Z.leb_gt. lia. }
  simpl run_cycles. change (foldl _ ?d cs) with (run_cycles cs d).
  rewrite IH; try assumption.
  - rewrite Er, Hfirst, Hnfirst. lia.
  - rewrite Ep. apply Z.mod_pos_bound. lia.
  - rewrite En. apply Z.mod_pos_bound. lia.
  - unfold pcop_fires in *. rewrite Ee, Em, Ep.
    destruct (copcr_pcope (cop dev)); [simpl in * | reflexivity].
    apply Z.leb_gt in Hquiet, Hfirst. apply Z.leb_gt.
    rewrite (Z.mod_mod_divide _ _ _ Hdiv), <- (Z.add_mod_idemp_l (m_pcop_cnt (cop dev))) by lia.
    rewrite (Z.mod_small (_ + c)) by lia. lia.
  - rewrite En, Z.mod_small by lia. lia.
Qed.

(** X24.  Over any run of [burn_cycles] calls the prescaler holds the
    accounted cycles modulo 16, carried from call to call, the counter
    advances by one for every 16 accounted cycles, modulo 0x10000, and the
    overflow flag is set exactly when the counter has passed 0x10000. *)
Theorem timer_counts_every_16_cycles (cs : list Z) (dev : device) :
  Forall (fun c => 0 <= c < 2 ^ 32 - 16) cs ->
  0 <= m_prescaler (timer dev) < 16 ->
  0 <= m_counter (timer dev) < 2 ^ 16 ->
  let ticks := (m_prescaler (timer dev) + total cs) / 16 in
  m_prescaler (timer (run_cycles cs dev)) = (m_prescaler (timer dev) + total cs) mod 16
  /\ m_counter (timer (run_cycles cs dev)) = (m_counter (timer dev) + ticks) mod 2 ^ 16
  /\ flag_set TOF (run_cycles cs dev)
     = flag_set TOF dev || (2 ^ 16 <=? m_counter (timer dev) + ticks).
Proof. intros Hcs Hp Hn. exact (run_cycles_ticks cs dev Hcs Hp Hn). Qed.

(** C4, as the code has it.  One call of [burn_cycles] sets COPF and
    pulses the reset line for the programmable watchdog exactly when PCOPE
    is set and the cycles accounted, added to the low N bits of the counter
    (N = 15 + 2 CM), reach 2^N; over a run of calls COPF ends up set exactly
    when it was set before or PCOPE is set and the cycles of the whole run
    do so.  Only the counter's low N bits enter the test, and the 0x55/0xAA
    sequence does not touch the low 15 bits, so nothing is promised about a
    clear sequence in between.  With timeout field 0, PCOPE set, COPF clear
    and both counters cleared, any run of calls accounting 2^15 - 1 cycles
    leaves COPF clear and pulses no reset, and one more cycle sets COPF and
    pulses reset once. *)
Theorem pcop_fires_at_threshold (cs : list Z) (count : Z) (dev : device) :
  Forall (fun c => 0 <= c < 2 ^ 31) cs ->
  0 <= count < 2 ^ 31 ->
  0 <= m_pcop_cnt (cop dev) < 2 ^ 21 ->
  0 <= m_ncop_cnt (cop dev) < 2 ^ 17 ->
  (copcr_copf (cop (burn_cycles count dev))
     = copcr_copf (cop dev) || pcop_fires count (cop dev)
   /\ reset_pulses (trace (burn_cycles count dev))
     = (reset_pulses (trace dev) + (if pcop_fires count (cop dev) then 1 else 0)
        + (if ncop_fires count (cop dev) then 1 else 0))%nat)
  /\ copcr_copf (cop (run_cycles cs dev))
     = copcr_copf (cop dev) || pcop_fires (total cs) (cop dev)
  /\ (copcr_cm (cop dev) = 0 -> copcr_pcope (cop dev) = true ->
      copcr_copf (cop dev) = false ->
      m_pcop_cnt (cop dev) = 0 -> m_ncop_cnt (cop dev) = 0 ->
      total cs = 2 ^ 15 - 1 ->
      copcr_copf (cop (run_cycles cs dev)) = false
      /\ reset_pulses (trace (run_cycles cs dev)) = reset_pulses (trace dev)
      /\ copcr_copf (cop (burn_cycles 1 (run_cycles cs dev))) = true
      /\ reset_pulses (trace (burn_cycles 1 (run_cycles cs dev)))
         = S (reset_pulses (trace dev))).
Proof.
  intros Hcs Hc Hp Hn.
  destruct (run_cycles_pcop cs dev Hcs Hp Hn) as (Rf & Re & Rm & Rp & Rn).
  split; [split | split].
  - apply burn_cycles_pcop_step, Hc.
  - apply burn_cycles_pcop, Hc.
  - exact Rf.
  - intros Hcm Hpcope Hcopf Hcnt Hncop Htot.
    assert (Hquiet : pcop_fires (total cs) (cop dev) = false).
    { unfold pcop_fires. rewrite Hcm, Hcnt, Htot, Hpcope. reflexivity. }
    assert (Hpulses : reset_pulses (trace (run_cycles cs dev)) = reset_pulses (trace dev)).
    { apply run_cycles_quiet; try assumption; try lia. }
    assert (H1 : 0 <= 1 < 2 ^ 31) by lia.
    destruct (burn_cycles_pcop_step 1 (run_cycles cs dev) H1) as (Sf & _).
    destruct (burn_cycles_pcop 1 (run_cycles cs dev) H1) as (_ & _ & _ & Sr).
    assert (Hfire : pcop_fires 1 (cop (run_cycles cs dev)) = true).
    { unfold pcop_fires. rewrite Re, Rm, Rp, Hcm, Hcnt, Htot, Hpcope. reflexivity. }
    assert (Hnfire : ncop_fires 1 (cop (run_cycles cs dev)) = false).
    { unfold ncop_fires. rewrite Rn, Hncop, Htot. reflexivity. }
    rewrite Rf, Hcopf, Hquiet, Sf, Sr, Hfire, Hnfire, Hpulses, orb_true_r.
    repeat split. lia.
Qed.

(** ** Port writes *)

Lemma latch_change_visible input latch latch' ddr :
  (Z.land (Z.lxor latch latch') ddr =? 0)
  = (Z.lor (Z.land input (Z.lnot ddr)) (Z.land latch' ddr)
     =? Z.lor (Z.land input (Z.lnot ddr)) (Z.land latch ddr)).
Proof.
  apply eq_true_iff_eq. rewrite !Z.eqb_eq. split; intros H; apply Z.bits_inj'; intros n Hn.
  - apply (f_equal (fun x => Z.testbit x n)) in H.
    rewrite Z.land_spec, Z.lxor_spec, Z.bits_0 in H.
    rewrite !Z.lor_spec, !Z.land_spec, Z.lnot_spec by exact Hn.
    destruct (Z.testbit input n), (Z.testbit ddr n), (Z.testbit latch n), (Z.testbit latch' n);
      simpl in *; congruence.
  - apply (f_equal (fun x => Z.testbit x n)) in H.
    rewrite !Z.lor_spec, !Z.land_spec, Z.lnot_spec in H by exact Hn.
    rewrite Z.land_spec, Z.lxor_spec, Z.bits_0.
    destruct (Z.testbit input n), (Z.testbit ddr n), (Z.testbit latch n), (Z.testbit latch' n);
      simpl in *; congruence.
Qed.

Lemma arr_get_set {A} (dflt : A) l i v :
  (0 <= i < Z.of_nat (length l)) -> arr_get dflt (arr_set l i v) i = v.
Proof.
  intros Hi. unfold arr_get, arr_set. rewrite list_lookup_insert_eq by lia. reflexivity.
Qed.

Lemma arr_set_length {A} (l : list A) i v : length (arr_set l i v) = length l.
Proof. apply length_insert. Qed.

Lemma port_write_step offset w dev :
  0 <= offset < 4 -> wf_ports (ports dev) ->
  wf_ports (ports (port_write_apply offset w dev))
  /\ pins_of offset (ports (port_write_apply offset w dev)) = pins_write w (pins_of offset (ports dev))
  /\ trace (port_write_apply offset w dev)
     = trace dev ++ (if callback_due w (pins_of offset (ports dev))
                     then [PortWrite offset (visible (pins_write w (pins_of offset (ports dev))))
                                     (pin_ddr (pins_write w (pins_of offset (ports dev))))]
                     else []).
Proof.
  intros Ho (Hb & Hi & Hl & Hd).
  assert (Hmask : Z.land offset (PORT_COUNT - 1) = offset).
  { change (PORT_COUNT - 1) with (Z.ones 2). rewrite Z.land_ones by lia.
    apply Z.mod_small. lia. }
  destruct w as [data | data]; simpl; unfold port_latch_w, port_ddr_w; rewrite Hmask; cbv zeta.
  - simpl.
    rewrite (latch_change_visible (arr_get 0 (m_port_input (ports dev)) offset)).
    unfold callback_due, visible, pins_write, pins_of, wf_ports, port_value. simpl.
    destruct (negb _); simpl; rewrite ?arr_set_length, ?arr_get_set by lia;
      rewrite ?app_nil_r; repeat split; assumption.
  - simpl. unfold callback_due, visible, pins_write, pins_of, wf_ports, port_value. simpl.
    destruct (negb _) eqn:E; simpl; rewrite ?arr_set_length, ?arr_get_set by lia;
      rewrite ?app_nil_r; repeat split; try assumption.
    apply negb_false_iff, Z.eqb_eq in E. rewrite E. reflexivity.
Qed.

Lemma port_writes_refine offset ws : forall dev,
  0 <= offset < 4 -> wf_ports (ports dev) ->
  wf_ports (ports (port_writes offset ws dev))
  /\ pins_of offset (ports (port_writes offset ws dev))
     = foldl (fun p w => pins_write w p) (pins_of offset (ports dev)) ws
  /\ trace (port_writes offset ws dev)
     = trace dev ++ callbacks offset ws (pins_of offset (ports dev)).
Proof.
  induction ws as [ | w ws IH]; intros dev Ho Hwf.
  - destruct Hwf as (? & ? & ? & ?). simpl. rewrite app_nil_r.
    repeat split; assumption.
  - destruct (port_write_step offset w dev Ho Hwf) as (Hwf1 & Hp1 & Ht1).
    destruct (IH (port_write_apply offset w dev) Ho Hwf1) as (Hwf' & Hp' & Ht').
    simpl port_writes. change (foldl _ ?d ws) with (port_writes offset ws d).
    cbn [foldl callbacks]. rewrite Hp', Ht', Hp1, Ht1, <- app_assoc.
    split; [exact Hwf' | split; reflexivity].
Qed.

(** C8, as the code has it.  After any run of latch and DDR writes to one
    port, each value masked to the port's physical bits, the visible value
    of the port is (cached input AND NOT DDR) OR (latch AND DDR), the cached
    input being untouched by writes.  The output callback is invoked once
    for every latch write that changes the visible value, which is exactly
    when a changed latch bit is configured as output, and once for every
    DDR write that changes the DDR, whether or not the visible value
    changes; each invocation carries the new visible value and the new
    DDR, and no other write invokes it. *)
Theorem port_writes_visible_and_callbacks
    (offset : Z) (ws : list port_write) (dev : device) :
  0 <= offset < 4 ->
  wf_ports (ports dev) ->
  let p := foldl (fun p w => pins_write w p) (pins_of offset (ports dev)) ws in
  pins_of offset (ports (port_writes offset ws dev)) = p
  /\ pin_input p = pin_input (pins_of offset (ports dev))
  /\ port_value offset (ports (port_writes offset ws dev))
     = Z.lor (Z.land (pin_input p) (Z.lnot (pin_ddr p))) (Z.land (pin_latch p) (pin_ddr p))
  /\ trace (port_writes offset ws dev)
     = trace dev ++ callbacks offset ws (pins_of offset (ports dev))
  /\ (forall data q,
        callback_due (Latch_write data) q
        = negb (Z.land (Z.lxor (pin_latch q) (Z.land data (pin_bits q))) (pin_ddr q) =? 0)).
Proof.
  intros Ho Hwf p.
  destruct (port_writes_refine offset ws dev Ho Hwf) as (_ & Hp & Ht).
  repeat apply conj.
  - exact Hp.
  - subst p. generalize (pins_of offset (ports dev)). clear.
    induction ws as [ | w ws IH]; intros q; [reflexivity | ].
    cbn [foldl]. rewrite IH. destruct w; reflexivity.
  - change (port_value offset (ports (port_writes offset ws dev)))
      with (visible (pins_of offset (ports (port_writes offset ws dev)))).
    rewrite Hp. reflexivity.
  - exact Ht.
  - intros data q. unfold callback_due, visible, pins_write. cbn.
    rewrite (latch_change_visible (pin_input q)). reflexivity.
Qed.

Lemma port_writes_visible_and_callbacks_witness :
  trace (port_writes 0 [Ddr_write 0x0f; Latch_write 0xf5; Latch_write 0x05; Ddr_write 0x0f]
           m68hc05_device_init)
  = [PortWrite 0 0xff 0x0f; PortWrite 0 0xf5 0x0f].
Proof.
  exact (proj1 (proj2 (proj2 (proj2
    (port_writes_visible_and_callbacks 0
       [Ddr_write 0x0f; Latch_write 0xf5; Latch_write 0x05; Ddr_write 0x0f]
       m68hc05_device_init ltac:(lia) ltac:(repeat split)))))).
Defined.

(** C8 as stated fails on a DDR write: port A has input and latch 0xFF,
    so turning bit 0 into an output leaves the visible value at 0xFF, and
    the callback is invoked all the same. *)
Lemma port_ddr_w_reports_without_change :
  port_value 0 (ports (port_ddr_w 0 0x01 m68hc05_device_init))
    = port_value 0 (ports m68hc05_device_init)
  /\ trace (port_ddr_w 0 0x01 m68hc05_device_init) = [PortWrite 0 0xff 0x01].
Proof. split; reflexivity. Qed.

(** ** Interrupts *)

Lemma sp_dec_window s : in_stack_window s -> in_stack_window (sp_dec s).
Proof.
  unfold in_stack_window, sp_dec, SP_LOW, SP_MASK. intros H.
  destruct (s - 1 <? 192) eqn:E; [lia | apply Z.ltb_ge in E; lia].
Qed.

Lemma land_global_mask a : 0 <= a < 0x2000 -> Z.land a GLOBAL_MASK = a.
Proof.
  intros H. change GLOBAL_MASK with (Z.ones 13). rewrite Z.land_ones by lia.
  apply Z.mod_small. exact H.
Qed.

Lemma pushbyte_spec v b :
  in_stack_window (m_s b) ->
  m_s (pushbyte v b) = sp_dec (m_s b)
  /\ (forall a, rdmem a (pushbyte v b)
                = if Z.land a GLOBAL_MASK =? m_s b then v else rdmem a b)
  /\ m_pc (pushbyte v b) = m_pc b /\ m_x (pushbyte v b) = m_x b
  /\ m_a (pushbyte v b) = m_a b /\ m_cc (pushbyte v b) = m_cc b
  /\ m_pending_interrupts (pushbyte v b) = m_pending_interrupts b
  /\ m_icount (pushbyte v b) = m_icount b.
Proof.
  intros Hs. unfold in_stack_window, SP_LOW, SP_MASK in Hs.
  repeat apply conj; try reflexivity.
  intros a. unfold pushbyte, wrmem, rdmem.
  simpl. rewrite (land_global_mask (m_s b)) by lia. reflexivity.
Qed.

Lemma stack_frame_spec b :
  in_stack_window (m_s b) ->
  let s0 := m_s b in
  let s1 := sp_dec s0 in
  let s2 := sp_dec s1 in
  let s3 := sp_dec s2 in
  let s4 := sp_dec s3 in
  rdmem s0 (stack_frame b) = u8 (m_pc b)
  /\ rdmem s1 (stack_frame b) = u8 (Z.shiftr (m_pc b) 8)
  /\ rdmem s2 (stack_frame b) = m_x b
  /\ rdmem s3 (stack_frame b) = m_a b
  /\ rdmem s4 (stack_frame b) = m_cc b
  /\ m_s (stack_frame b) = sp_dec s4
  /\ (forall a, ~ in_stack_window (Z.land a GLOBAL_MASK) ->
        rdmem a (stack_frame b) = rdmem a b)
  /\ m_pc (stack_frame b) = m_pc b
  /\ m_cc (stack_frame b) = m_cc b
  /\ m_pending_interrupts (stack_frame b) = m_pending_interrupts b
  /\ m_icount (stack_frame b) = m_icount b.
Proof.
  intros H0 s0 s1 s2 s3 s4.
  assert (H1 : in_stack_window s1) by (apply sp_dec_window, H0).
  assert (H2 : in_stack_window s2) by (apply sp_dec_window, H1).
  assert (H3 : in_stack_window s3) by (apply sp_dec_window, H2).
  assert (H4 : in_stack_window s4) by (apply sp_dec_window, H3).
  unfold stack_frame, pushword. cbv zeta.
  set (b1 := pushbyte (u8 (m_pc b)) b).
  destruct (pushbyte_spec (u8 (m_pc b)) b H0) as (S1 & M1 & P1 & X1 & A1 & C1 & I1 & N1).
  fold b1 in S1, M1, P1, X1, A1, C1, I1, N1. fold s0 s1 in S1.
  set (b2 := pushbyte (u8 (Z.shiftr (m_pc b) 8)) b1).
  destruct (pushbyte_spec (u8 (Z.shiftr (m_pc b) 8)) b1 ltac:(rewrite S1; exact H1))
    as (S2 & M2 & P2 & X2 & A2 & C2 & I2 & N2).
  fold b2 in S2, M2, P2, X2, A2, C2, I2, N2. rewrite S1 in S2, M2. fold s2 in S2.
  set (b3 := pushbyte (m_x b2) b2).
  destruct (pushbyte_spec (m_x b2) b2 ltac:(rewrite S2; exact H2))
    as (S3 & M3 & P3 & X3 & A3 & C3 & I3 & N3).
  fold b3 in S3, M3, P3, X3, A3, C3, I3, N3. rewrite S2 in S3, M3. fold s3 in S3.
  set (b4 := pushbyte (m_a b3) b3).
  destruct (pushbyte_spec (m_a b3) b3 ltac:(rewrite S3; exact H3))
    as (S4 & M4 & P4 & X4 & A4 & C4 & I4 & N4).
  fold b4 in S4, M4, P4, X4, A4, C4, I4, N4. rewrite S3 in S4, M4. fold s4 in S4.
  destruct (pushbyte_spec (m_cc b4) b4 ltac:(rewrite S4; exact H4))
    as (S5 & M5 & P5 & X5 & A5 & C5 & I5 & N5).
  rewrite S4 in S5, M5.
  assert (Hdistinct : s1 <> s0 /\ s2 <> s0 /\ s3 <> s0 /\ s4 <> s0
                      /\ s2 <> s1 /\ s3 <> s1 /\ s4 <> s1
                      /\ s3 <> s2 /\ s4 <> s2 /\ s4 <> s3).
  { clear - H0. subst s1 s2 s3 s4. unfold sp_dec, in_stack_window, SP_LOW, SP_MASK in *.
    repeat match goal with |- context [?x <? ?y] => destruct (Z.ltb_spec x y) end; lia. }
  destruct Hdistinct as (D10 & D20 & D30 & D40 & D21 & D31 & D41 & D32 & D42 & D43).
  assert (R : forall s, in_stack_window s -> Z.land s GLOBAL_MASK = s).
  { unfold in_stack_window, SP_LOW, SP_MASK. intros. apply land_global_mask. lia. }
  assert (E : forall x y : Z, x <> y -> (y =? x) = false) by (intros; apply Z.eqb_neq; congruence).
  repeat apply conj.
  - rewrite M5, M4, M3, M2, M1, (R s0 H0).
    rewrite (E _ _ D40), (E _ _ D30), (E _ _ D20), (E _ _ D10), Z.eqb_refl. reflexivity.
  - rewrite M5, M4, M3, M2, (R s1 H1).
    rewrite (E _ _ D41), (E _ _ D31), (E _ _ D21), Z.eqb_refl. reflexivity.
  - rewrite M5, M4, M3, (R s2 H2).
    rewrite (E _ _ D42), (E _ _ D32), Z.eqb_refl. congruence.
  - rewrite M5, M4, (R s3 H3).
    rewrite (E _ _ D43), Z.eqb_refl. congruence.
  - rewrite M5, (R s4 H4). rewrite Z.eqb_refl. congruence.
  - exact S5.
  - intros a Hout.
    rewrite M5, M4, M3, M2, M1.
    repeat match goal with |- context [?x =? ?s] =>
      destruct (Z.eqb_spec x s) as [Heq | _]; [rewrite Heq in Hout; contradiction | ] end.
    reflexivity.
  - congruence.
  - congruence.
  - congruence.
  - congruence.
Qed.

Lemma testbit_one k : Z.testbit 1 k = (k =? 0).
Proof.
  destruct (Z.eqb_spec k 0) as [-> | Hk]; [reflexivity | ].
  destruct (Z.lt_ge_cases k 0) as [Hneg | Hpos].
  - apply Z.testbit_neg_r, Hneg.
  - apply Z.bits_above_log2; simpl; lia.
Qed.

Lemma testbit_line line n :
  0 <= n -> Z.testbit (Z.shiftl (u16 1) line) n = (n =? line).
Proof.
  intros Hn. change (u16 1) with 1. rewrite Z.shiftl_spec by exact Hn.
  rewrite testbit_one. destruct (Z.eqb_spec (n - line) 0), (Z.eqb_spec n line); try reflexivity; lia.
Qed.

Lemma testbit_u16 x n : Z.testbit (u16 x) n = (n <? 16) && Z.testbit x n.
Proof. unfold u16. apply Z.testbit_mod_pow2. lia. Qed.

Lemma pending_set_bit line b n :
  0 <= n ->
  BIT (m_pending_interrupts (pending_set line b)) n
  = (n <? 16) && (BIT (m_pending_interrupts b) n || (n =? line)).
Proof.
  intros Hn. unfold pending_set, BIT. simpl.
  rewrite testbit_u16, Z.lor_spec, testbit_line by exact Hn. reflexivity.
Qed.

Lemma pending_clear_bit line b n :
  0 <= n ->
  BIT (m_pending_interrupts (pending_clear line b)) n
  = (n <? 16) && (BIT (m_pending_interrupts b) n && negb (n =? line)).
Proof.
  intros Hn. unfold pending_clear, BIT. simpl.
  rewrite testbit_u16, Z.land_spec, Z.lnot_spec, testbit_line by exact Hn. reflexivity.
Qed.

Lemma pending_clear_own_bit line b :
  BIT (m_pending_interrupts (pending_clear line b)) line = false.
Proof.
  destruct (Z.lt_ge_cases line 0) as [Hneg | Hpos].
  - apply Z.testbit_neg_r, Hneg.
  - rewrite pending_clear_bit, Z.eqb_refl by exact Hpos. simpl.
    rewrite andb_false_r. apply andb_false_r.
Qed.

Lemma pending_set_other_bit line b n :
  n <> line ->
  BIT (m_pending_interrupts (pending_set line b)) n = true ->
  BIT (m_pending_interrupts b) n = true.
Proof.
  intros Hne. destruct (Z.lt_ge_cases n 0) as [Hneg | Hpos].
  - unfold BIT. rewrite !Z.testbit_neg_r by exact Hneg. discriminate.
  - rewrite pending_set_bit by exact Hpos.
    destruct (Z.eqb_spec n line); [contradiction | ].
    rewrite orb_false_r. intros H. apply andb_prop in H. exact (proj2 H).
Qed.

(** Setting status flags cannot take the enabling condition away. *)
Lemma timer_irq_enabled_lor t m :
  timer_irq_enabled t = true ->
  timer_irq_enabled (set_tsr (Z.lor (m_tsr t) m) t) = true.
Proof.
  unfold timer_irq_enabled. simpl. rewrite !negb_true_iff, !Z.eqb_neq.
  intros H Hz. apply H. apply Z.bits_inj'. intros n Hn.
  apply (f_equal (fun x => Z.testbit x n)) in Hz.
  rewrite Z.bits_0 in *. rewrite !Z.land_spec, Z.lor_spec in Hz.
  rewrite !Z.land_spec.
  destruct (Z.testbit (m_tcr t) n), (Z.testbit (m_tsr t) n), (Z.testbit 224 n);
    simpl in *; congruence.
Qed.

Lemma cleared_bit p line :
  BIT (u16 (Z.land p (Z.lnot (Z.shiftl (u16 1) line)))) line = false.
Proof.
  destruct (Z.lt_ge_cases line 0) as [Hneg | Hpos].
  - apply Z.testbit_neg_r, Hneg.
  - unfold BIT. rewrite testbit_u16, Z.land_spec, Z.lnot_spec, testbit_line, Z.eqb_refl by exact Hpos.
    simpl. rewrite andb_false_r. apply andb_false_r.
Qed.

Lemma perform_sound dbg a dev :
  timer_pending_sound dev -> timer_pending_sound (snd (perform dbg a dev)).
Proof.
  unfold timer_pending_sound. intros Hs.
  destruct a; simpl;
    unfold port_r, port_latch_w, port_ddr_w, tcr_w, tsr_r, icr_r, ocr_r, ocr_w,
      timer_r, coprst_w, copcr_r, copcr_w, copr_w, drop_timer_irq_if_idle; simpl;
    split_ifs; simpl; try exact Hs.
  all: try (intros Hbit; rewrite cleared_bit in Hbit; discriminate Hbit).
  all: try (intros _; match goal with H : negb _ = false |- _ => apply negb_false_iff in H; exact H end).
  all: try (intros _; assumption).
Qed.

Lemma timer_stage_upd_base count f dev :
  timer_stage count (upd_base f dev) = upd_base f (timer_stage count dev).
Proof.
  unfold timer_stage. cbv zeta. simpl.
  destruct ((m_counter (timer dev) <? 65536) && _);
    destruct ((m_counter (timer dev) <? m_ocr (timer dev)) && _); simpl;
    try reflexivity;
    destruct (m_inhibit_cmp (timer dev)); reflexivity.
Qed.

Lemma timer_stage_frame count dev :
  base (timer_stage count dev) = base dev
  /\ cop (timer_stage count dev) = cop dev
  /\ ports (timer_stage count dev) = ports dev.
Proof.
  unfold timer_stage. cbv zeta.
  destruct ((m_counter (timer dev) <? 65536) && _);
    destruct ((m_counter (timer dev) <? m_ocr (timer dev)) && _); simpl;
    try (repeat split; fail);
    destruct (m_inhibit_cmp (timer dev)); repeat split.
Qed.

Lemma run_cop_upd_base count f dev :
  run_ncop count (run_pcop count (upd_base f dev))
  = upd_base f (run_ncop count (run_pcop count dev)).
Proof.
  unfold run_ncop, run_pcop. cbv zeta. simpl.
  destruct (copcr_pcope (cop dev) && _); simpl;
    destruct (Z.shiftl 1 17 <=? _); reflexivity.
Qed.

Lemma burn_cycles_timer_stage count dev :
  timer (burn_cycles count dev) = timer (timer_stage count dev).
Proof.
  rewrite burn_cycles_parts, (proj1 (run_cop_frame _ _)).
  unfold run_timer, raise_timer_irq_if_enabled.
  destruct (timer_irq_enabled _); reflexivity.
Qed.

(** What [burn_cycles] does to the base core: it requests the timer
    interrupt when an enabled status flag is up after the update. *)
Lemma burn_cycles_base count dev :
  base (burn_cycles count dev)
  = if timer_irq_enabled (timer (burn_cycles count dev))
    then pending_set M68HC05_TCAP_LINE (base dev) else base dev.
Proof.
  rewrite burn_cycles_timer_stage.
  rewrite burn_cycles_parts, (proj1 (proj2 (run_cop_frame _ _))).
  unfold run_timer, raise_timer_irq_if_enabled.
  destruct (timer_irq_enabled _); simpl;
    rewrite (proj1 (timer_stage_frame count dev)); reflexivity.
Qed.

Lemma raise_upd_base f dev :
  raise_timer_irq_if_enabled (upd_base f dev)
  = upd_base (fun b => if timer_irq_enabled (timer dev) then pending_set M68HC05_TCAP_LINE (f b) else f b) dev.
Proof.
  unfold raise_timer_irq_if_enabled.
  change (timer (upd_base f dev)) with (timer dev).
  destruct (timer_irq_enabled (timer dev)); reflexivity.
Qed.

(** A change confined to the base core passes through [burn_cycles]. *)
Lemma burn_cycles_upd_base count f dev :
  timer (burn_cycles count (upd_base f dev)) = timer (burn_cycles count dev)
  /\ cop (burn_cycles count (upd_base f dev)) = cop (burn_cycles count dev)
  /\ trace (burn_cycles count (upd_base f dev)) = trace (burn_cycles count dev)
  /\ base (burn_cycles count (upd_base f dev))
     = if timer_irq_enabled (timer (burn_cycles count dev))
       then pending_set M68HC05_TCAP_LINE (f (base dev)) else f (base dev).
Proof.
  assert (E : forall g, burn_cycles count (upd_base g dev)
              = upd_base (fun b => if timer_irq_enabled (timer (timer_stage count dev))
                                   then pending_set M68HC05_TCAP_LINE (g b) else g b)
                  (run_ncop count (run_pcop count (timer_stage count dev)))).
  { intros g. rewrite burn_cycles_parts. unfold run_timer.
    rewrite timer_stage_upd_base, raise_upd_base, run_cop_upd_base. reflexivity. }
  assert (E0 : burn_cycles count dev
               = upd_base (fun b => if timer_irq_enabled (timer (timer_stage count dev))
                                    then pending_set M68HC05_TCAP_LINE b else b)
                   (run_ncop count (run_pcop count (timer_stage count dev)))).
  { rewrite <- (E (fun b => b)). destruct dev; reflexivity. }
  rewrite E, E0.
  repeat apply conj; try reflexivity.
  cbn [base timer upd_base].
  rewrite (proj1 (proj2 (run_cop_frame _ _))), (proj1 (run_cop_frame _ _)),
    (proj1 (timer_stage_frame count dev)).
  reflexivity.
Qed.

Lemma burn_cycles_enabled_mono count dev :
  timer_irq_enabled (timer dev) = true ->
  timer_irq_enabled (timer (burn_cycles count dev)) = true.
Proof.
  intros H. rewrite burn_cycles_timer_stage. unfold timer_stage. cbv zeta.
  assert (H1 : forall g m, m_tcr (g (timer dev)) = m_tcr (timer dev) ->
             m_tsr (g (timer dev)) = Z.lor (m_tsr (timer dev)) m ->
             timer_irq_enabled (g (timer dev)) = true).
  { intros g m Hc Hs. pose proof (timer_irq_enabled_lor (timer dev) m H) as H'.
    unfold timer_irq_enabled in *. simpl in H'. rewrite Hc, Hs. exact H'. }
  destruct ((m_counter (timer dev) <? 65536) && _);
    destruct ((m_counter (timer dev) <? m_ocr (timer dev)) && _); cbn [timer upd_timer];
    try destruct (negb (m_inhibit_cmp _)); cbn [timer upd_timer emit].
  all: first
    [ apply (H1 (fun t => _) (Z.lor 0x20 0x40));
        [reflexivity | simpl; rewrite Z.lor_assoc; reflexivity]
    | apply (H1 (fun t => _) 0x20); reflexivity
    | apply (H1 (fun t => _) 0x40); reflexivity
    | apply (H1 (fun t => _) 0); [reflexivity | simpl; rewrite Z.lor_0_r; reflexivity] ].
Qed.

Lemma burn_cycles_sound count dev :
  timer_pending_sound dev -> timer_pending_sound (burn_cycles count dev).
Proof.
  unfold timer_pending_sound. intros Hs. rewrite burn_cycles_base.
  destruct (timer_irq_enabled (timer (burn_cycles count dev))) eqn:E; [reflexivity | ].
  intros Hbit. rewrite <- E. apply burn_cycles_enabled_mono, Hs, Hbit.
Qed.

Lemma execute_set_input_sound inputnum state dev :
  timer_pending_sound dev -> timer_pending_sound (execute_set_input inputnum state dev).
Proof.
  unfold timer_pending_sound, execute_set_input, raise_timer_irq_if_enabled. intros Hs.
  destruct (Z.eqb_spec inputnum M68HC05_TCAP_LINE) as [-> | Hne].
  - destruct (negb (eqb _ _) && _); [ | exact Hs].
    destruct (negb (m_inhibit_cap (timer dev))); [ | exact Hs].
    cbn [timer upd_timer base].
    match goal with |- context [if ?b then _ else _] => destruct b eqn:E end;
      cbn [timer upd_timer upd_base base].
    + intros _. exact E.
    + intros Hbit. specialize (Hs Hbit).
      pose proof (timer_irq_enabled_lor (timer dev) 0x80 Hs) as H'.
      unfold timer_irq_enabled in *. simpl in *. congruence.
  - destruct (negb (_ =? state)); [ | exact Hs].
    destruct (negb (state =? CLEAR_LINE)); cbn [timer upd_base base];
      intros Hbit; apply Hs; [ | exact Hbit].
    apply (pending_set_other_bit inputnum _ M68HC05_TCAP_LINE) in Hbit; [exact Hbit | congruence].
Qed.

Lemma kept_bit_set p line n :
  0 <= n < 16 -> BIT p n = true ->
  BIT (u16 (Z.lor p (Z.shiftl (u16 1) line))) n = true.
Proof.
  intros Hn Hp. unfold BIT in *. rewrite testbit_u16, Z.lor_spec, Hp.
  apply andb_true_intro. split; [apply Z.ltb_lt; lia | reflexivity].
Qed.

Lemma kept_bit_clear p line n :
  0 <= n < 16 -> n <> line -> BIT p n = true ->
  BIT (u16 (Z.land p (Z.lnot (Z.shiftl (u16 1) line)))) n = true.
Proof.
  intros Hn Hne Hp. unfold BIT in *.
  rewrite testbit_u16, Z.land_spec, Z.lnot_spec, testbit_line, Hp by lia.
  destruct (Z.eqb_spec n line); [contradiction | ].
  apply andb_true_intro. split; [apply Z.ltb_lt; lia | reflexivity].
Qed.

Lemma perform_keeps_bit n dbg a dev :
  0 <= n < 16 -> n <> M68HC05_TCAP_LINE ->
  BIT (m_pending_interrupts (base dev)) n = true ->
  BIT (m_pending_interrupts (base (snd (perform dbg a dev)))) n = true.
Proof.
  intros Hn Hne Hbit.
  destruct a; simpl;
    unfold port_r, port_latch_w, port_ddr_w, tcr_w, tsr_r, icr_r, ocr_r, ocr_w,
      timer_r, coprst_w, copcr_r, copcr_w, copr_w, drop_timer_irq_if_idle; simpl;
    split_ifs; simpl; try exact Hbit;
    first [apply kept_bit_clear; assumption | apply kept_bit_set; assumption].
Qed.

Lemma burn_cycles_keeps_bit n count dev :
  0 <= n < 16 ->
  BIT (m_pending_interrupts (base dev)) n = true ->
  BIT (m_pending_interrupts (base (burn_cycles count dev))) n = true.
Proof.
  intros Hn Hbit. rewrite burn_cycles_base.
  destruct (timer_irq_enabled _); [ | exact Hbit].
  apply kept_bit_set; assumption.
Qed.

Lemma execute_set_input_keeps_bit n inputnum state dev :
  0 <= n < 16 ->
  BIT (m_pending_interrupts (base dev)) n = true ->
  BIT (m_pending_interrupts (base (execute_set_input inputnum state dev))) n = true.
Proof.
  intros Hn Hbit. unfold execute_set_input, raise_timer_irq_if_enabled.
  split_ifs; simpl; try exact Hbit; apply kept_bit_set; assumption.
Qed.

(** [interrupt], case by case. *)
Lemma interrupt_cases dev :
  interrupt dev =
    if (Z.land (m_pending_interrupts (base dev)) M68HC05_INT_MASK =? 0)
       || negb (Z.land (m_cc (base dev)) IFLAG =? 0)
    then Done dev
    else
      if BIT (m_pending_interrupts (base dev)) M68HC05_TCAP_LINE
      then Done (burn_cycles 10
                   (upd_base (fun b => set_icount (m_icount b - 10) b)
                      (upd_base (fun b => set_pc (rm16 M68HC05_VECTOR_TIMER b) b)
                         (entered dev))))
      else Fatal "Unknown pending interrupt" (entered dev).
Proof.
  unfold interrupt.
  destruct (Z.land (m_pending_interrupts (base dev)) M68HC05_INT_MASK =? 0); [reflexivity | ].
  destruct (Z.land (m_cc (base dev)) IFLAG =? 0); [ | reflexivity].
  cbv zeta. cbn [negb orb].
  match goal with |- context [Fatal _ ?e] => set (E := e) end.
  assert (HE : E = entered dev) by reflexivity.
  assert (HP : m_pending_interrupts (base E) = m_pending_interrupts (base dev)) by reflexivity.
  clearbody E. rewrite HP. subst E. reflexivity.
Qed.

Lemma burn_cycles_trace_extends count dev :
  exists evs, trace (burn_cycles count dev) = trace dev ++ evs.
Proof.
  assert (Ht : exists evs, trace (timer_stage count dev) = trace dev ++ evs).
  { unfold timer_stage. cbv zeta.
    destruct ((m_counter (timer dev) <? 65536) && _);
      destruct ((m_counter (timer dev) <? m_ocr (timer dev)) && _);
      try (exists []; rewrite app_nil_r; reflexivity);
      destruct (negb (m_inhibit_cmp _));
      first [exists []; rewrite app_nil_r; reflexivity | eexists; reflexivity]. }
  assert (Hr : forall d, trace (raise_timer_irq_if_enabled d) = trace d).
  { intros d. unfold raise_timer_irq_if_enabled. destruct (timer_irq_enabled _); reflexivity. }
  assert (Hp : forall d, exists evs, trace (run_pcop count d) = trace d ++ evs).
  { intros d. unfold run_pcop. cbv zeta.
    destruct (copcr_pcope (cop d) && _);
      first [exists []; rewrite app_nil_r; reflexivity | eexists; reflexivity]. }
  assert (Hn : forall d, exists evs, trace (run_ncop count d) = trace d ++ evs).
  { intros d. unfold run_ncop. cbv zeta.
    destruct (Z.shiftl 1 17 <=? _);
      first [exists []; rewrite app_nil_r; reflexivity | eexists; reflexivity]. }
  rewrite burn_cycles_parts. unfold run_timer.
  destruct Ht as [e1 E1].
  destruct (Hp (raise_timer_irq_if_enabled (timer_stage count dev))) as [e2 E2].
  destruct (Hn (run_pcop count (raise_timer_irq_if_enabled (timer_stage count dev)))) as [e3 E3].
  exists (e1 ++ e2 ++ e3). rewrite E3, E2, Hr, E1, <- !app_assoc. reflexivity.
Qed.

Lemma rm16_stack_frame b :
  in_stack_window (m_s b) ->
  rm16 M68HC05_VECTOR_TIMER (stack_frame b) = rm16 M68HC05_VECTOR_TIMER b.
Proof.
  intros Hwin. destruct (stack_frame_spec b Hwin) as (_ & _ & _ & _ & _ & _ & Hout & _).
  unfold rm16. rewrite !Hout; [reflexivity | | ];
    unfold in_stack_window, SP_LOW, SP_MASK; vm_compute; intros [H1 H2];
    first [apply H1; reflexivity | apply H2; reflexivity].
Qed.

Lemma base_upd_base f dev : base (upd_base f dev) = f (base dev).
Proof. reflexivity. Qed.

Lemma entered_parts dev :
  base (entered dev) = SEI (stack_frame (base dev))
  /\ timer (entered dev) = timer dev
  /\ cop (entered dev) = cop dev
  /\ trace (entered dev) = trace dev ++ [IrqAck 0].
Proof. repeat split. Qed.

Lemma entered_alt dev :
  entered dev = upd_base (fun b => SEI (stack_frame b)) (emit (IrqAck 0) dev).
Proof. reflexivity. Qed.

(** The stack frame, the flag and the acknowledge on entry. *)
Lemma entered_frame dev :
  in_stack_window (m_s (base dev)) ->
  let b := base dev in
  let s0 := m_s b in
  let s1 := sp_dec s0 in
  let s2 := sp_dec s1 in
  let s3 := sp_dec s2 in
  let s4 := sp_dec s3 in
  (rdmem s0 (base (entered dev)) = u8 (m_pc b)
   /\ rdmem s1 (base (entered dev)) = u8 (Z.shiftr (m_pc b) 8)
   /\ rdmem s2 (base (entered dev)) = m_x b
   /\ rdmem s3 (base (entered dev)) = m_a b
   /\ rdmem s4 (base (entered dev)) = m_cc b
   /\ m_s (base (entered dev)) = sp_dec s4)
  /\ m_cc (base (entered dev)) = Z.lor (m_cc b) IFLAG
  /\ rm16 M68HC05_VECTOR_TIMER (base (entered dev)) = rm16 M68HC05_VECTOR_TIMER b
  /\ m_icount (base (entered dev)) = m_icount b.
Proof.
  intros Hwin b s0 s1 s2 s3 s4.
  destruct (stack_frame_spec b Hwin) as (R0 & R1 & R2 & R3 & R4 & RS & _ & RP & RC & RI & RN).
  pose proof (rm16_stack_frame b Hwin) as RV.
  rewrite (proj1 (entered_parts dev)). fold b.
  revert R0 R1 R2 R3 R4 RS RP RC RI RN RV. cbv zeta. fold s0 s1 s2 s3 s4.
  generalize (stack_frame b). intros X R0 R1 R2 R3 R4 RS RP RC RI RN RV.
  assert (Hsei : (forall a, rdmem a (SEI X) = rdmem a X)
                 /\ m_s (SEI X) = m_s X /\ m_cc (SEI X) = Z.lor (m_cc X) IFLAG
                 /\ rm16 M68HC05_VECTOR_TIMER (SEI X) = rm16 M68HC05_VECTOR_TIMER X
                 /\ m_icount (SEI X) = m_icount X)
    by (repeat split).
  destruct Hsei as (HM & HS & HC & HV & HN).
  rewrite !HM, HS, HC, HV, HN, RC, RV, RN.
  repeat apply conj; assumption || reflexivity.
Qed.

(** The base core after a serviced interrupt, relative to its entry. *)
Lemma serviced_base dev :
  let dev' := burn_cycles 10
                (upd_base (fun b => set_icount (m_icount b - 10) b)
                   (upd_base (fun b => set_pc (rm16 M68HC05_VECTOR_TIMER b) b) (entered dev))) in
  (forall a, rdmem a (base dev') = rdmem a (base (entered dev)))
  /\ m_s (base dev') = m_s (base (entered dev))
  /\ m_cc (base dev') = m_cc (base (entered dev))
  /\ m_pc (base dev') = rm16 M68HC05_VECTOR_TIMER (base (entered dev))
  /\ m_icount (base dev') = m_icount (base (entered dev)) - 10
  /\ timer dev' = timer (burn_cycles 10 (emit (IrqAck 0) dev))
  /\ cop dev' = cop (burn_cycles 10 (emit (IrqAck 0) dev))
  /\ trace dev' = trace (burn_cycles 10 (emit (IrqAck 0) dev)).
Proof.
  cbv zeta.
  set (f1 := fun b0 => set_pc (rm16 M68HC05_VECTOR_TIMER b0) b0).
  set (f2 := fun b0 => set_icount (m_icount b0 - 10) b0).
  destruct (burn_cycles_upd_base 10 f2 (upd_base f1 (entered dev)))
    as (T2 & C2 & E2 & B2).
  destruct (burn_cycles_upd_base 10 f1 (entered dev)) as (T1 & C1 & E1 & _).
  destruct (burn_cycles_upd_base 10 (fun b0 => SEI (stack_frame b0))
              (emit (IrqAck 0) dev)) as (T0 & C0 & E0 & _).
  rewrite <- (entered_alt dev) in T0, C0, E0.
  rewrite T2, C2, E2, T1, C1, E1, T0, C0, E0, B2, base_upd_base.
  generalize (base (entered dev)). intros X.
  destruct (timer_irq_enabled _); repeat split.
Qed.
(** C6, as the code has it.  Nothing happens unless a pending bit within
    the interrupt mask is set and the interrupt-mask flag is clear.
    Otherwise PC low, PC high, X, A and CC are pushed in that order, the
    interrupt-mask flag is set and the acknowledge callback is notified.
    There is one vector only: when the timer bit is pending, whatever else
    is pending, PC is loaded from the timer vector, ten cycles are taken
    from the cycle budget and accounted to timer and watchdogs by
    [burn_cycles]; when it is not, the fatal error is raised.  No external
    interrupt line is vectored. *)
Theorem interrupt_service (dev : device) :
  in_stack_window (m_s (base dev)) ->
  let b := base dev in
  let s0 := m_s b in
  let s1 := sp_dec s0 in
  let s2 := sp_dec s1 in
  let s3 := sp_dec s2 in
  let s4 := sp_dec s3 in
  let dev' := final (interrupt dev) in
  if (Z.land (m_pending_interrupts b) M68HC05_INT_MASK =? 0)
     || negb (Z.land (m_cc b) IFLAG =? 0)
  then interrupt dev = Done dev
  else
    (rdmem s0 (base dev') = u8 (m_pc b)
     /\ rdmem s1 (base dev') = u8 (Z.shiftr (m_pc b) 8)
     /\ rdmem s2 (base dev') = m_x b
     /\ rdmem s3 (base dev') = m_a b
     /\ rdmem s4 (base dev') = m_cc b
     /\ m_s (base dev') = sp_dec s4)
    /\ m_cc (base dev') = Z.lor (m_cc b) IFLAG
    /\ (exists evs, trace dev' = trace dev ++ IrqAck 0 :: evs)
    /\ is_fatal (interrupt dev) = negb (BIT (m_pending_interrupts b) M68HC05_TCAP_LINE)
    /\ (if BIT (m_pending_interrupts b) M68HC05_TCAP_LINE
        then m_pc (base dev') = rm16 M68HC05_VECTOR_TIMER b
             /\ m_icount (base dev') = m_icount b - 10
             /\ timer dev' = timer (burn_cycles 10 (emit (IrqAck 0) dev))
             /\ cop dev' = cop (burn_cycles 10 (emit (IrqAck 0) dev))
             /\ trace dev' = trace (burn_cycles 10 (emit (IrqAck 0) dev))
        else interrupt dev = Fatal "Unknown pending interrupt" dev'
             /\ timer dev' = timer dev /\ cop dev' = cop dev
             /\ trace dev' = trace dev ++ [IrqAck 0]).
Proof.
  intros Hwin b s0 s1 s2 s3 s4 dev'. subst dev'.
  pose proof (interrupt_cases dev) as HI. fold b in HI.
  destruct ((Z.land (m_pending_interrupts b) M68HC05_INT_MASK =? 0) || _); [exact HI | ].
  pose proof (entered_frame dev Hwin) as HE. cbv zeta in HE.
  fold b in HE. fold s0 in HE. fold s1 in HE. fold s2 in HE. fold s3 in HE. fold s4 in HE.
  destruct HE as ((R0 & R1 & R2 & R3 & R4 & RS) & RC & RV & RN).
  destruct (entered_parts dev) as (_ & ET & EC & EE).
  destruct (BIT (m_pending_interrupts b) M68HC05_TCAP_LINE); rewrite HI; cbn [final is_fatal negb].
  - pose proof (serviced_base dev) as HS. cbv zeta in HS.
    destruct HS as (HM & HS & HC & HP & HN & HT & HCo & HTr).
    destruct (burn_cycles_trace_extends 10 (emit (IrqAck 0) dev)) as [evs Hevs].
    rewrite !HM, HS, HC, HP, HN, HT, HCo, HTr, RV, RN.
    repeat apply conj; try assumption; try reflexivity.
    exists evs. rewrite Hevs. cbn [trace emit]. rewrite <- app_assoc. reflexivity.
  - rewrite ET, EC, EE.
    repeat apply conj; try assumption; try reflexivity.
    exists []. reflexivity.
Qed.

Lemma interrupt_entry_frame dev :
  let d := upd_base (fun b => set_icount (m_icount b - 10) b)
             (upd_base (fun b => set_pc (rm16 M68HC05_VECTOR_TIMER b) b) (entered dev)) in
  m_pending_interrupts (base (entered dev)) = m_pending_interrupts (base dev)
  /\ m_pending_interrupts (base d) = m_pending_interrupts (base dev)
  /\ timer d = timer dev.
Proof. repeat split. Qed.

Lemma interrupt_sound dev :
  timer_pending_sound dev ->
  timer_pending_sound (final (interrupt dev)).
Proof.
  intros Hs. rewrite interrupt_cases.
  destruct (interrupt_entry_frame dev) as (P1 & P2 & T2). cbv zeta in *.
  destruct (_ || _); [exact Hs | ].
  destruct (BIT _ _); cbn [final].
  - apply burn_cycles_sound. unfold timer_pending_sound in *. rewrite P2, T2. exact Hs.
  - unfold timer_pending_sound in *. rewrite P1. exact Hs.
Qed.

Lemma interrupt_keeps_bit n dev :
  0 <= n < 16 ->
  BIT (m_pending_interrupts (base dev)) n = true ->
  BIT (m_pending_interrupts
         (base (final (interrupt dev)))) n = true.
Proof.
  intros Hn Hbit. rewrite interrupt_cases.
  destruct (interrupt_entry_frame dev) as (P1 & P2 & T2). cbv zeta in *.
  destruct (_ || _); [exact Hbit | ].
  destruct (BIT _ M68HC05_TCAP_LINE); cbn [final].
  - apply burn_cycles_keeps_bit; [exact Hn | ]. rewrite P2. exact Hbit.
  - rewrite P1. exact Hbit.
Qed.

(** C7, as the code has it.  The timer bit of the pending mask is set
    only while an enabled timer status flag is up, and no register access,
    cycle accounting, input line change or interrupt service leaves it set
    without one: the accesses that take the condition away clear the bit.
    Servicing itself clears no pending bit, the timer's included, and a bit
    set by an external line is cleared neither by service, nor by the line
    being released, nor by anything else the device does. *)
Theorem pending_bits_lifecycle (dev : device) :
  timer_pending_sound dev ->
  ((forall debugger_access a,
      timer_pending_sound (snd (perform debugger_access a dev)))
   /\ (forall count, timer_pending_sound (burn_cycles count dev))
   /\ (forall inputnum state,
         timer_pending_sound
           (execute_set_input inputnum state dev))
   /\ timer_pending_sound
        (final (interrupt dev)))
  /\ (forall n, 0 <= n < 16 ->
        BIT (m_pending_interrupts (base dev)) n = true ->
        BIT (m_pending_interrupts
               (base (final (interrupt dev)))) n = true
        /\ (forall count,
              BIT (m_pending_interrupts (base (burn_cycles count dev))) n = true)
        /\ (forall inputnum state,
              BIT (m_pending_interrupts
                     (base (execute_set_input inputnum state dev))) n = true)
        /\ (n <> M68HC05_TCAP_LINE ->
            forall debugger_access a,
              BIT (m_pending_interrupts
                     (base (snd (perform debugger_access a dev)))) n = true)).
Proof.
  intros Hs. split; [repeat apply conj | ].
  - intros dbg a. apply perform_sound, Hs.
  - intros count. apply burn_cycles_sound, Hs.
  - intros inputnum state. apply execute_set_input_sound, Hs.
  - apply interrupt_sound, Hs.
  - intros n Hn Hbit. repeat apply conj.
    + apply interrupt_keeps_bit; assumption.
    + intros count. apply burn_cycles_keeps_bit; assumption.
    + intros inputnum state. apply execute_set_input_keeps_bit; assumption.
    + intros Hne dbg a. apply perform_keeps_bit; assumption.
Qed.

(** ** Status flags under the other operations *)

Lemma lor_keeps_bit x m i : Z.testbit x i = true -> Z.testbit (Z.lor x m) i = true.
Proof. intros H. rewrite Z.lor_spec, H. reflexivity. Qed.

Lemma burn_cycles_keeps_flag i count dev :
  BIT (m_tsr (timer dev)) i = true ->
  BIT (m_tsr (timer (burn_cycles count dev))) i = true.
Proof.
  unfold BIT. intros H. rewrite burn_cycles_timer_stage. unfold timer_stage. cbv zeta.
  destruct ((m_counter (timer dev) <? 65536) && _);
    destruct ((m_counter (timer dev) <? m_ocr (timer dev)) && _); cbn [timer upd_timer];
    try destruct (negb (m_inhibit_cmp _)); cbn [timer upd_timer emit m_tsr set_tsr
      set_counter set_prescaler];
    repeat apply lor_keeps_bit; exact H.
Qed.

Lemma flags_survive f dev :
  flag_set f dev = true ->
  (forall count, flag_set f (burn_cycles count dev) = true)
  /\ (forall inputnum state, flag_set f (execute_set_input inputnum state dev) = true)
  /\ flag_set f (final (interrupt dev)) = true
  /\ flag_set f (device_reset dev) = true.
Proof.
  unfold flag_set. intros H. repeat apply conj.
  - intros count. apply burn_cycles_keeps_flag, H.
  - intros inputnum state. unfold execute_set_input, raise_timer_irq_if_enabled.
    destruct (inputnum =? M68HC05_TCAP_LINE).
    + destruct (negb (eqb _ _) && _); [ | exact H].
      destruct (negb (m_inhibit_cap (timer dev))); [ | exact H].
      destruct (timer_irq_enabled _); unfold BIT; cbn; apply lor_keeps_bit, H.
    + destruct (negb (_ =? state)); [ | exact H].
      destruct (negb (state =? CLEAR_LINE)); exact H.
  - rewrite interrupt_cases.
    destruct (interrupt_entry_frame dev) as (_ & _ & T2). cbv zeta in T2.
    destruct (_ || _); [exact H | ].
    destruct (BIT _ M68HC05_TCAP_LINE); cbn [final]; [ | exact H].
    apply burn_cycles_keeps_flag. rewrite T2. exact H.
  - exact H.
Qed.


(** ** What a step leaves alone *)

Ltac unfold_handlers :=
  unfold port_r, port_latch_w, port_ddr_w, tcr_w, tsr_r, icr_r, ocr_r, ocr_w,
    timer_r, coprst_w, copcr_r, copcr_w, copr_w.

Lemma arr_get_set_other {A} (dflt : A) l i j v :
  Z.to_nat i <> Z.to_nat j -> arr_get dflt (arr_set l j v) i = arr_get dflt l i.
Proof.
  intros H. unfold arr_get, arr_set.
  rewrite list_lookup_insert_ne by congruence. reflexivity.
Qed.

(** No register access moves the counter, the prescaler, the capture
    register or the recorded level of the capture line. *)
Lemma perform_timer_values dbg a dev :
  m_tcap_state (timer (snd (perform dbg a dev))) = m_tcap_state (timer dev)
  /\ m_icr (timer (snd (perform dbg a dev))) = m_icr (timer dev)
  /\ m_counter (timer (snd (perform dbg a dev))) = m_counter (timer dev)
  /\ m_prescaler (timer (snd (perform dbg a dev))) = m_prescaler (timer dev).
Proof.
  destruct a; simpl; unfold_handlers; simpl;
    split_ifs; simpl; rewrite ?drop_timer_irq_if_idle_timer; simpl; repeat split.
Qed.

Lemma perform_tcr dbg a dev :
  match a with
  | Wr_tcr data => m_tcr (timer (snd (perform dbg a dev))) = Z.land data 0xe3
  | _ => m_tcr (timer (snd (perform dbg a dev))) = m_tcr (timer dev)
  end.
Proof.
  destruct a; simpl; unfold_handlers; simpl;
    split_ifs; simpl; rewrite ?drop_timer_irq_if_idle_timer; simpl; reflexivity.
Qed.

Lemma perform_inhibit_cap dbg a dev :
  leaves_capture_latch (Access dbg a) = true ->
  m_inhibit_cap (timer (snd (perform dbg a dev))) = m_inhibit_cap (timer dev).
Proof.
  destruct a, dbg; simpl; try discriminate; intros _; unfold_handlers; simpl;
    split_ifs; simpl; rewrite ?drop_timer_irq_if_idle_timer; simpl; reflexivity.
Qed.

Lemma perform_inhibit_cmp dbg a dev :
  leaves_compare_latch (Access dbg a) = true ->
  m_inhibit_cmp (timer (snd (perform dbg a dev))) = m_inhibit_cmp (timer dev).
Proof.
  destruct a, dbg; simpl; try discriminate; intros _; unfold_handlers; simpl;
    split_ifs; simpl; rewrite ?drop_timer_irq_if_idle_timer; simpl; reflexivity.
Qed.

Lemma perform_counter_latch (alt : bool) dbg a dev :
  leaves_counter_latch alt (Access dbg a) = true ->
  let i := if alt then 1 else 0 in
  arr_get 0 (m_trl_buf (timer (snd (perform dbg a dev)))) i
    = arr_get 0 (m_trl_buf (timer dev)) i
  /\ arr_get false (m_trl_latched (timer (snd (perform dbg a dev)))) i
    = arr_get false (m_trl_latched (timer dev)) i.
Proof.
  destruct a, dbg; simpl; try discriminate; intros H; unfold_handlers; simpl;
    try (split_ifs; simpl; rewrite ?drop_timer_irq_if_idle_timer; simpl; repeat split; fail).
  apply negb_true_iff in H.
  destruct (BIT offset 1), alt; try discriminate H;
    split_ifs; simpl; rewrite ?drop_timer_irq_if_idle_timer; simpl;
    rewrite ?arr_get_set_other by (simpl; lia); repeat split.
Qed.

Lemma perform_latch_lengths dbg a dev :
  length (m_trl_buf (timer (snd (perform dbg a dev)))) = length (m_trl_buf (timer dev))
  /\ length (m_trl_latched (timer (snd (perform dbg a dev))))
     = length (m_trl_latched (timer dev)).
Proof.
  destruct a; simpl; unfold_handlers; simpl;
    split_ifs; simpl; rewrite ?drop_timer_irq_if_idle_timer; simpl;
    rewrite ?arr_set_length; repeat split.
Qed.
(** ** The compare output under cycle accounting *)

Lemma tcmp_writes_app tr1 tr2 : tcmp_writes (tr1 ++ tr2) = tcmp_writes tr1 ++ tcmp_writes tr2.
Proof. apply omap_app. Qed.

Lemma timer_stage_compare count dev :
  trace (timer_stage count dev)
    = trace dev ++ (if compare_hit count (timer dev)
                    then [TcmpWrite (if tcr_olvl (timer dev) then 1 else 0)] else [])
  /\ BIT (m_tsr (timer (timer_stage count dev))) 6
     = BIT (m_tsr (timer dev)) 6 || compare_hit count (timer dev)
  /\ BIT (m_tsr (timer (timer_stage count dev))) 7 = BIT (m_tsr (timer dev)) 7.
Proof.
  unfold timer_stage, compare_hit. cbv zeta. change (Z.shiftl 1 4 - 1) with 15.
  set (nc := u32 (m_counter (timer dev) + _)).
  unfold BIT.
  destruct ((m_counter (timer dev) <? 65536) && (65536 <=? nc));
    destruct ((m_counter (timer dev) <? m_ocr (timer dev)) && (m_ocr (timer dev) <=? nc));
    cbn [timer upd_timer m_inhibit_cmp set_tsr set_counter set_prescaler andb];
    destruct (m_inhibit_cmp (timer dev));
    cbn [negb timer upd_timer emit trace m_tsr set_tsr set_counter set_prescaler];
    rewrite ?Z.lor_spec, ?app_nil_r, ?orb_false_r;
    repeat apply conj; try reflexivity;
    rewrite ?orb_false_r, ?orb_true_r; reflexivity.
Qed.

(** Cycle accounting changes the prescaler, the counter and the status
    flags of the timer, and nothing else of it. *)
Lemma timer_stage_latches count dev :
  let t := timer dev in
  let t' := timer (timer_stage count dev) in
  m_tcap_state t' = m_tcap_state t /\ m_tcr t' = m_tcr t /\ m_tsr_seen t' = m_tsr_seen t
  /\ m_icr t' = m_icr t /\ m_ocr t' = m_ocr t
  /\ m_inhibit_cap t' = m_inhibit_cap t /\ m_inhibit_cmp t' = m_inhibit_cmp t
  /\ m_trl_buf t' = m_trl_buf t /\ m_trl_latched t' = m_trl_latched t.
Proof.
  unfold timer_stage. cbv zeta.
  destruct ((m_counter (timer dev) <? 65536) && _);
    destruct ((m_counter (timer dev) <? m_ocr (timer dev)) && _); cbn [timer upd_timer];
    try destruct (negb (m_inhibit_cmp _)); repeat split.
Qed.

Lemma run_cop_tcmp count dev :
  tcmp_writes (trace (run_ncop count (run_pcop count dev))) = tcmp_writes (trace dev).
Proof.
  unfold run_ncop, run_pcop. cbv zeta.
  destruct (copcr_pcope (cop dev) && _); cbn [cop upd_cop emit trace];
    destruct (Z.shiftl 1 17 <=? _); cbn [cop upd_cop emit trace];
    rewrite ?tcmp_writes_app, ?app_nil_r; reflexivity.
Qed.

Lemma burn_cycles_compare count dev :
  tcmp_writes (trace (burn_cycles count dev))
    = tcmp_writes (trace dev)
      ++ (if compare_hit count (timer dev)
          then [if tcr_olvl (timer dev) then 1 else 0] else [])
  /\ flag_set OCF (burn_cycles count dev) = flag_set OCF dev || compare_hit count (timer dev)
  /\ flag_set ICF (burn_cycles count dev) = flag_set ICF dev.
Proof.
  destruct (timer_stage_compare count dev) as (Ht & H6 & H7).
  unfold flag_set. rewrite burn_cycles_timer_stage. cbn [flag_bit].
  repeat apply conj; try assumption.
  rewrite burn_cycles_parts, run_cop_tcmp. unfold run_timer, raise_timer_irq_if_enabled.
  destruct (timer_irq_enabled _); cbn [trace upd_base]; rewrite Ht, tcmp_writes_app;
    destruct (compare_hit count (timer dev)); reflexivity.
Qed.

Lemma burn_cycles_latches count dev :
  let t := timer dev in
  let t' := timer (burn_cycles count dev) in
  m_tcap_state t' = m_tcap_state t /\ m_tcr t' = m_tcr t /\ m_tsr_seen t' = m_tsr_seen t
  /\ m_icr t' = m_icr t /\ m_ocr t' = m_ocr t
  /\ m_inhibit_cap t' = m_inhibit_cap t /\ m_inhibit_cmp t' = m_inhibit_cmp t
  /\ m_trl_buf t' = m_trl_buf t /\ m_trl_latched t' = m_trl_latched t.
Proof. cbv zeta. rewrite burn_cycles_timer_stage. apply timer_stage_latches. Qed.
(** ** Input lines and interrupt service, on the timer *)

(** An edge on the capture line is taken when the level changes to the one
    selected by IEDG while capture is not inhibited. *)
Lemma execute_set_input_capture state dev :
  let level := negb (state =? 0) in
  let taken := negb (eqb level (m_tcap_state (timer dev)))
               && eqb level (tcr_iedg (timer dev))
               && negb (m_inhibit_cap (timer dev)) in
  let t' := timer (execute_set_input M68HC05_TCAP_LINE state dev) in
  m_tcap_state t' = level
  /\ m_icr t' = (if taken then m_counter (timer dev) else m_icr (timer dev))
  /\ m_tsr t' = (if taken then Z.lor (m_tsr (timer dev)) 0x80 else m_tsr (timer dev)).
Proof.
  cbv zeta. unfold execute_set_input, raise_timer_irq_if_enabled.
  rewrite Z.eqb_refl.
  destruct (negb (eqb _ _) && _); cbn [andb]; [ | repeat split].
  destruct (negb (m_inhibit_cap (timer dev))); [ | repeat split].
  cbn [timer upd_timer]. destruct (timer_irq_enabled _); repeat split.
Qed.

Lemma execute_set_input_latches inputnum state dev :
  let t := timer dev in
  let t' := timer (execute_set_input inputnum state dev) in
  (m_tcr t' = m_tcr t /\ m_tsr_seen t' = m_tsr_seen t
   /\ m_prescaler t' = m_prescaler t /\ m_counter t' = m_counter t /\ m_ocr t' = m_ocr t
   /\ m_inhibit_cap t' = m_inhibit_cap t /\ m_inhibit_cmp t' = m_inhibit_cmp t
   /\ m_trl_buf t' = m_trl_buf t /\ m_trl_latched t' = m_trl_latched t)
  /\ (m_inhibit_cap t = true -> m_icr t' = m_icr t)
  /\ BIT (m_tsr t') 6 = BIT (m_tsr t) 6
  /\ trace (execute_set_input inputnum state dev) = trace dev
  /\ cop (execute_set_input inputnum state dev) = cop dev
  /\ ports (execute_set_input inputnum state dev) = ports dev.
Proof.
  cbv zeta. unfold execute_set_input, raise_timer_irq_if_enabled.
  destruct (inputnum =? M68HC05_TCAP_LINE).
  - destruct (negb (eqb _ _) && _); [ | repeat split].
    destruct (m_inhibit_cap (timer dev)) eqn:Hinh; cbn [negb];
      [repeat split; exact Hinh | ].
    cbn [timer upd_timer].
    destruct (timer_irq_enabled _); cbn [timer upd_timer upd_base trace cop ports];
      repeat apply conj; try reflexivity; try assumption; try discriminate;
      unfold BIT; cbn [m_tsr set_tsr set_icr set_tcap_state];
      rewrite Z.lor_spec; apply orb_false_r.
  - destruct (negb (_ =? state)); [ | repeat split].
    destruct (negb (state =? CLEAR_LINE)); repeat split.
Qed.

Lemma burn_cycles_timer_cong count d1 d2 :
  timer d1 = timer d2 -> timer (burn_cycles count d1) = timer (burn_cycles count d2).
Proof.
  intros H. rewrite !burn_cycles_timer_stage. unfold timer_stage. cbv zeta.
  rewrite H.
  destruct ((m_counter (timer d2) <? 65536) && _);
    destruct ((m_counter (timer d2) <? m_ocr (timer d2)) && _); cbn [timer upd_timer];
    rewrite ?H; try reflexivity;
    destruct (negb (m_inhibit_cmp _)); cbn [timer upd_timer emit]; rewrite ?H; reflexivity.
Qed.

Lemma burn_cycles_cop_cong count d1 d2 :
  cop d1 = cop d2 -> cop (burn_cycles count d1) = cop (burn_cycles count d2).
Proof.
  intros H. rewrite !burn_cycles_parts.
  pose proof (run_cop_cop count (run_timer count d1)) as H1.
  pose proof (run_cop_cop count (run_timer count d2)) as H2.
  cbv zeta in H1, H2. destruct H1 as [H1 _], H2 as [H2 _].
  rewrite H1, H2, (proj1 (run_timer_frame count d1)), (proj1 (run_timer_frame count d2)), H.
  reflexivity.
Qed.

(** Interrupt service either leaves timer and watchdogs alone or accounts
    ten cycles to them. *)
Lemma interrupt_shape dev :
  let dev' := final (interrupt dev) in
  ports dev' = ports dev
  /\ ((timer dev' = timer dev /\ cop dev' = cop dev
       /\ tcmp_writes (trace dev') = tcmp_writes (trace dev))
      \/ (timer dev' = timer (burn_cycles 10 dev) /\ cop dev' = cop (burn_cycles 10 dev)
          /\ tcmp_writes (trace dev') = tcmp_writes (trace (burn_cycles 10 dev)))).
Proof.
  cbv zeta. rewrite interrupt_cases.
  destruct (_ || _); cbn [final]; [split; [reflexivity | left; repeat split] | ].
  destruct (BIT _ M68HC05_TCAP_LINE); cbn [final].
  - pose proof (serviced_base dev) as HS. cbv zeta in HS.
    destruct HS as (_ & _ & _ & _ & _ & HT & HC & HTr).
    split.
    + rewrite burn_cycles_parts, (proj2 (proj2 (run_cop_frame _ _))).
      unfold run_timer, raise_timer_irq_if_enabled.
      destruct (timer_irq_enabled _); cbn [ports upd_base];
        rewrite (proj2 (proj2 (timer_stage_frame _ _))); reflexivity.
    + right. rewrite HT, HC, HTr. repeat apply conj.
      * apply burn_cycles_timer_cong. reflexivity.
      * apply burn_cycles_cop_cong. reflexivity.
      * rewrite (proj1 (burn_cycles_compare 10 (emit (IrqAck 0) dev))),
          (proj1 (burn_cycles_compare 10 dev)).
        cbn [trace emit timer]. rewrite tcmp_writes_app. cbn. rewrite app_nil_r. reflexivity.
  - split; [reflexivity | left]. destruct (entered_parts dev) as (_ & ET & EC & EE).
    rewrite ET, EC, EE, tcmp_writes_app. cbn. rewrite app_nil_r. repeat split.
Qed.

Lemma perform_tcmp dbg a dev :
  tcmp_writes (trace (snd (perform dbg a dev))) = tcmp_writes (trace dev).
Proof.
  destruct a; simpl; unfold_handlers; unfold drop_timer_irq_if_idle; simpl;
    split_ifs; simpl; rewrite ?tcmp_writes_app, ?app_nil_r; reflexivity.
Qed.
(** ** Register pairs read and written in two halves *)

Lemma byte_halves x :
  0 <= x < 2 ^ 16 -> u8 (Z.shiftr x 8) * 256 + u8 (Z.shiftr x 0) = x.
Proof.
  intros Hx. unfold u8. rewrite Z.shiftr_0_r, Z.shiftr_div_pow2 by lia.
  change (2 ^ 8) with 256. change (2 ^ 16) with 65536 in Hx.
  Z.div_mod_to_equations. lia.
Qed.

Lemma arr_get_set_default {A} (dflt : A) l i : arr_get dflt (arr_set l i dflt) i = dflt.
Proof.
  unfold arr_get, arr_set.
  destruct (decide (Z.to_nat i < length l)%nat) as [Hlt | Hge].
  - rewrite list_lookup_insert_eq by exact Hlt. reflexivity.
  - rewrite list_insert_ge by lia.
    rewrite (proj2 (lookup_ge_None l (Z.to_nat i))) by lia. reflexivity.
Qed.

Lemma step_capture_inhibited s dev :
  leaves_capture_latch s = true -> m_inhibit_cap (timer dev) = true ->
  m_icr (timer (step_apply s dev)) = m_icr (timer dev)
  /\ m_inhibit_cap (timer (step_apply s dev)) = true.
Proof.
  intros Hs Hinh. destruct s; cbn [step_apply].
  - destruct (perform_timer_values debugger_access a dev) as (_ & Hi & _).
    rewrite Hi, (perform_inhibit_cap _ _ _ Hs). split; [reflexivity | exact Hinh].
  - destruct (burn_cycles_latches count dev) as (_ & _ & _ & Hi & _ & Hc & _).
    cbv zeta in Hi, Hc. rewrite Hi, Hc. split; [reflexivity | exact Hinh].
  - destruct (execute_set_input_latches inputnum state dev)
      as ((_ & _ & _ & _ & _ & Hc & _) & Hi & _).
    cbv zeta in Hi, Hc. rewrite Hc, (Hi Hinh). split; [reflexivity | exact Hinh].
  - destruct (interrupt_shape dev) as (_ & [(Ht & _) | (Ht & _)]); cbv zeta in Ht; rewrite Ht.
    + split; [reflexivity | exact Hinh].
    + destruct (burn_cycles_latches 10 dev) as (_ & _ & _ & Hi & _ & Hc & _).
      cbv zeta in Hi, Hc. rewrite Hi, Hc. split; [reflexivity | exact Hinh].
  - discriminate Hs.
Qed.

Lemma run_steps_capture_inhibited ss : forall dev,
  Forall (fun s => leaves_capture_latch s = true) ss ->
  m_inhibit_cap (timer dev) = true ->
  m_icr (timer (run_steps ss dev)) = m_icr (timer dev)
  /\ m_inhibit_cap (timer (run_steps ss dev)) = true.
Proof.
  induction ss as [ | s ss IH]; intros dev Hall Hinh; [split; [reflexivity | exact Hinh] | ].
  inversion Hall as [ | ? ? Hs Hrest]; subst.
  destruct (step_capture_inhibited s dev Hs Hinh) as [Hi Hc].
  destruct (IH (step_apply s dev) Hrest Hc) as [Hi' Hc'].
  change (run_steps (s :: ss) dev) with (run_steps ss (step_apply s dev)).
  rewrite Hi', Hi. split; [reflexivity | exact Hc'].
Qed.

(** X1.  The capture register is read in two halves.  A program read of
    ICRH inhibits capture until ICRL is read: whatever happens in between
    (cycles accounted, edges on the capture line, interrupt service, any
    other register access, debugger reads of ICR included), the two bytes
    read are the two halves of the capture register as it was at the read
    of ICRH, and the read of ICRL lifts the inhibit. *)
Theorem icr_read_not_torn (ss : list step) (dev : device) :
  Forall (fun s => leaves_capture_latch s = true) ss ->
  0 <= m_icr (timer dev) < 2 ^ 16 ->
  let d1 := snd (icr_r false 0 dev) in
  let d2 := run_steps ss d1 in
  fst (icr_r false 0 dev) * 256 + fst (icr_r false 1 d2) = m_icr (timer dev)
  /\ m_icr (timer d2) = m_icr (timer dev)
  /\ m_inhibit_cap (timer d2) = true
  /\ m_inhibit_cap (timer (snd (icr_r false 1 d2))) = false.
Proof.
  intros Hall Hx d1 d2.
  assert (H1 : m_inhibit_cap (timer d1) = true /\ m_icr (timer d1) = m_icr (timer dev)
               /\ fst (icr_r false 0 dev) = u8 (Z.shiftr (m_icr (timer dev)) 8))
    by (repeat split).
  destruct H1 as (Hinh & Hicr & Hhi).
  destruct (run_steps_capture_inhibited ss d1 Hall Hinh) as [Hi Hc]. fold d2 in Hi, Hc.
  assert (H2 : fst (icr_r false 1 d2) = u8 (Z.shiftr (m_icr (timer d2)) 0)
               /\ m_inhibit_cap (timer (snd (icr_r false 1 d2))) = false).
  { destruct (perform_timer_values false (Rd_icr 1) d2) as (_ & Hi2 & _).
    cbn [perform] in Hi2. rewrite <- Hi2. clearbody d2. clear.
    unfold icr_r. change (BIT 1 0) with true. cbn [negb].
    destruct (BIT (m_tsr_seen (timer d2)) 7); repeat split. }
  destruct H2 as [Hlo Hlift].
  rewrite Hhi, Hlo, Hi, Hicr.
  repeat apply conj; try assumption; try reflexivity.
  apply byte_halves, Hx.
Qed.

Lemma step_counter_latch (alt : bool) s dev :
  leaves_counter_latch alt s = true ->
  let i := if alt then 1 else 0 in
  arr_get 0 (m_trl_buf (timer (step_apply s dev))) i = arr_get 0 (m_trl_buf (timer dev)) i
  /\ arr_get false (m_trl_latched (timer (step_apply s dev))) i
     = arr_get false (m_trl_latched (timer dev)) i.
Proof.
  intros Hs i. destruct s; cbn [step_apply].
  - apply perform_counter_latch, Hs.
  - destruct (burn_cycles_latches count dev) as (_ & _ & _ & _ & _ & _ & _ & Hb & Hl).
    cbv zeta in Hb, Hl. rewrite Hb, Hl. split; reflexivity.
  - destruct (execute_set_input_latches inputnum state dev)
      as ((_ & _ & _ & _ & _ & _ & _ & Hb & Hl) & _).
    cbv zeta in Hb, Hl. rewrite Hb, Hl. split; reflexivity.
  - destruct (interrupt_shape dev) as (_ & [(Ht & _) | (Ht & _)]); cbv zeta in Ht; rewrite Ht.
    + split; reflexivity.
    + destruct (burn_cycles_latches 10 dev) as (_ & _ & _ & _ & _ & _ & _ & Hb & Hl).
      cbv zeta in Hb, Hl. rewrite Hb, Hl. split; reflexivity.
  - discriminate Hs.
Qed.

Lemma run_steps_counter_latch (alt : bool) ss : forall dev,
  Forall (fun s => leaves_counter_latch alt s = true) ss ->
  let i := if alt then 1 else 0 in
  arr_get 0 (m_trl_buf (timer (run_steps ss dev))) i = arr_get 0 (m_trl_buf (timer dev)) i
  /\ arr_get false (m_trl_latched (timer (run_steps ss dev))) i
     = arr_get false (m_trl_latched (timer dev)) i.
Proof.
  induction ss as [ | s ss IH]; intros dev Hall i; [split; reflexivity | ].
  inversion Hall as [ | ? ? Hs Hrest]; subst.
  destruct (step_counter_latch alt s dev Hs) as [Hb Hl].
  destruct (IH (step_apply s dev) Hrest) as [Hb' Hl'].
  change (run_steps (s :: ss) dev) with (run_steps ss (step_apply s dev)).
  fold i in Hb, Hl, Hb', Hl'. rewrite Hb', Hl', Hb, Hl. split; reflexivity.
Qed.

(** X2.  The counter is read in two halves, through TRH/TRL or through
    the alternate pair ATRH/ATRL.  A program read of the high byte returns
    the counter's high byte and, unless a low byte is already latched for
    the pair, latches the counter's low byte; either way a low byte is
    latched afterwards.  Whatever happens before the low byte is read
    (cycles accounted, any access that is not a program read of the same
    pair, the other pair included; a reset reloads the buffers and is
    excluded), the read of the low byte returns the latched byte and
    releases the latch.  So with no latch pending at the read of the high
    byte the two bytes read are the two halves of the counter as it was at
    that read; with a latch pending (the high byte read twice with no read
    of the low byte between) the low byte is the one latched earlier, and
    the pair can be torn. *)
Theorem timer_read_not_torn (alt : bool) (ss : list step) (dev : device) :
  let i := if alt then 1 else 0 in
  let high := if alt then 2 else 0 in
  let low := if alt then 3 else 1 in
  Forall (fun s => leaves_counter_latch alt s = true) ss ->
  length (m_trl_buf (timer dev)) = 2%nat ->
  length (m_trl_latched (timer dev)) = 2%nat ->
  let pending := arr_get false (m_trl_latched (timer dev)) i in
  let d1 := snd (timer_r false high dev) in
  let d2 := run_steps ss d1 in
  fst (timer_r false high dev) = u8 (Z.shiftr (m_counter (timer dev)) 8)
  /\ fst (timer_r false low d2)
     = (if pending then arr_get 0 (m_trl_buf (timer dev)) i else u8 (m_counter (timer dev)))
  /\ (pending = false -> 0 <= m_counter (timer dev) < 2 ^ 16 ->
      fst (timer_r false high dev) * 256 + fst (timer_r false low d2) = m_counter (timer dev))
  /\ arr_get false (m_trl_latched (timer d2)) i = true
  /\ arr_get false (m_trl_latched (timer (snd (timer_r false low d2)))) i = false.
Proof.
  intros i high low Hall Hlb Hll pending d1 d2.
  assert (H1 : fst (timer_r false high dev) = u8 (Z.shiftr (m_counter (timer dev)) 8)
               /\ arr_get 0 (m_trl_buf (timer d1)) i
                  = (if pending then arr_get 0 (m_trl_buf (timer dev)) i
                     else u8 (m_counter (timer dev)))
               /\ arr_get false (m_trl_latched (timer d1)) i = true).
  { subst d1. unfold timer_r.
    assert (Hb : BIT high 0 = false /\ (if BIT high 1 then 1 else 0) = i)
      by (subst high i; destruct alt; split; reflexivity).
    destruct Hb as [Hb0 Hb1]. rewrite Hb0, Hb1. fold pending.
    destruct pending eqn:Hpending.
    - cbn [negb andb fst snd]. repeat apply conj; [reflexivity | reflexivity | exact Hpending].
    - cbn [negb andb fst snd timer upd_timer
        m_trl_buf m_trl_latched m_counter set_trl_buf set_trl_latched].
      repeat apply conj; [reflexivity | | ]; apply arr_get_set;
        rewrite ?Hlb, ?Hll; subst i; destruct alt; simpl; lia. }
  destruct H1 as (Hhi & Hbuf & Hlat).
  destruct (run_steps_counter_latch alt ss d1 Hall) as [Hb Hl].
  fold i in Hb, Hl. fold d2 in Hb, Hl.
  assert (H2 : fst (timer_r false low d2) = arr_get 0 (m_trl_buf (timer d2)) i
               /\ arr_get false (m_trl_latched (timer (snd (timer_r false low d2)))) i = false).
  { clearbody d2. clear - i low. unfold timer_r.
    assert (Hb : BIT low 0 = true /\ (if BIT low 1 then 1 else 0) = i)
      by (subst low i; destruct alt; split; reflexivity).
    destruct Hb as [Hb0 Hb1]. rewrite Hb0, Hb1. cbn [negb].
    destruct (negb (BIT low 1) && _); cbn [fst snd];
      rewrite ?drop_timer_irq_if_idle_timer; cbn [timer upd_timer m_trl_buf m_trl_latched
        set_tsr set_tsr_seen set_trl_latched];
      (split; [reflexivity | apply arr_get_set_default]). }
  destruct H2 as [Hlo Hrel].
  rewrite Hhi, Hlo, Hb, Hbuf, Hl, Hlat.
  repeat apply conj; try reflexivity; try assumption.
  intros Hfree Hx. rewrite Hfree.
  rewrite <- (Z.shiftr_0_r (m_counter (timer dev))) at 2. apply byte_halves, Hx.
Qed.
(** ** The compare register *)

Lemma compare_hit_inhibited count t : m_inhibit_cmp t = true -> compare_hit count t = false.
Proof. intros H. unfold compare_hit. rewrite H. apply andb_false_r. Qed.

Lemma burn_cycles_compare_inhibited count dev :
  m_inhibit_cmp (timer dev) = true ->
  tcmp_writes (trace (burn_cycles count dev)) = tcmp_writes (trace dev)
  /\ flag_set OCF (burn_cycles count dev) = flag_set OCF dev
  /\ m_inhibit_cmp (timer (burn_cycles count dev)) = true.
Proof.
  intros Hinh. destruct (burn_cycles_compare count dev) as (Ht & Ho & _).
  destruct (burn_cycles_latches count dev) as (_ & _ & _ & _ & _ & _ & Hc & _).
  cbv zeta in Hc.
  rewrite Ht, Ho, Hc, (compare_hit_inhibited count _ Hinh), app_nil_r, orb_false_r.
  repeat split. exact Hinh.
Qed.

Lemma step_compare_inhibited s dev :
  leaves_compare_latch s = true -> m_inhibit_cmp (timer dev) = true ->
  tcmp_writes (trace (step_apply s dev)) = tcmp_writes (trace dev)
  /\ (flag_set OCF (step_apply s dev) = true -> flag_set OCF dev = true)
  /\ m_inhibit_cmp (timer (step_apply s dev)) = true.
Proof.
  intros Hs Hinh. destruct s; cbn [step_apply].
  - rewrite perform_tcmp, (perform_inhibit_cmp _ _ _ Hs).
    repeat apply conj; [reflexivity | | exact Hinh].
    unfold flag_set. rewrite perform_tsr. apply tsr_after_monotone.
  - destruct (burn_cycles_compare_inhibited count dev Hinh) as (Ht & Ho & Hc).
    rewrite Ht, Ho, Hc. repeat split. intros H; exact H.
  - destruct (execute_set_input_latches inputnum state dev)
      as ((_ & _ & _ & _ & _ & _ & Hc & _) & _ & Ho & Ht & _).
    cbv zeta in Hc, Ho. unfold flag_set. cbn [flag_bit].
    rewrite Ht, Ho, Hc. repeat split; [intros H; exact H | exact Hinh].
  - destruct (burn_cycles_compare_inhibited 10 dev Hinh) as (Ht & Ho & Hc).
    unfold flag_set in *.
    destruct (interrupt_shape dev) as (_ & [(HT & _ & HE) | (HT & _ & HE)]);
      cbv zeta in HT, HE; rewrite HT, HE.
    + repeat split; [intros H; exact H | exact Hinh].
    + rewrite Ht, Ho, Hc. repeat split. intros H; exact H.
  - discriminate Hs.
Qed.

Lemma run_steps_compare_inhibited ss : forall dev,
  Forall (fun s => leaves_compare_latch s = true) ss ->
  m_inhibit_cmp (timer dev) = true ->
  tcmp_writes (trace (run_steps ss dev)) = tcmp_writes (trace dev)
  /\ (flag_set OCF (run_steps ss dev) = true -> flag_set OCF dev = true)
  /\ m_inhibit_cmp (timer (run_steps ss dev)) = true.
Proof.
  induction ss as [ | s ss IH]; intros dev Hall Hinh;
    [repeat split; [intros H; exact H | exact Hinh] | ].
  inversion Hall as [ | ? ? Hs Hrest]; subst.
  destruct (step_compare_inhibited s dev Hs Hinh) as (Ht & Ho & Hc).
  destruct (IH (step_apply s dev) Hrest Hc) as (Ht' & Ho' & Hc').
  change (run_steps (s :: ss) dev) with (run_steps ss (step_apply s dev)).
  rewrite Ht', Ht. repeat split; [ | exact Hc']. intros H. apply Ho, Ho', H.
Qed.

(** X3.  The compare register is written in two halves.  A program write
    of OCRH inhibits compare until OCRL is written: whatever happens in
    between (cycles accounted, however many, input lines, interrupt service,
    any register access that is not a program write of OCR), the compare
    output is not driven and the compare flag is not raised, and the write
    of OCRL lifts the inhibit. *)
Theorem compare_inhibited_between_halves (hi lo : Z) (ss : list step) (dev : device) :
  Forall (fun s => leaves_compare_latch s = true) ss ->
  let d1 := ocr_w false 0 hi dev in
  let d2 := run_steps ss d1 in
  tcmp_writes (trace d2) = tcmp_writes (trace dev)
  /\ (flag_set OCF d2 = true -> flag_set OCF dev = true)
  /\ m_inhibit_cmp (timer d2) = true
  /\ m_inhibit_cmp (timer (ocr_w false 1 lo d2)) = false.
Proof.
  intros Hall d1 d2.
  assert (H1 : m_inhibit_cmp (timer d1) = true /\ trace d1 = trace dev
               /\ m_tsr (timer d1) = m_tsr (timer dev)) by (repeat split).
  destruct H1 as (Hinh & Htr & Htsr).
  destruct (run_steps_compare_inhibited ss d1 Hall Hinh) as (Ht & Ho & Hc).
  fold d2 in Ht, Ho, Hc. rewrite Ht, Htr.
  repeat apply conj; reflexivity || assumption.
Qed.

Lemma ocr_halves hi lo x :
  0 <= hi < 256 -> 0 <= lo < 256 ->
  Z.lor (Z.land (Z.lor (Z.land x 0x00ff) (Z.shiftl (u16 hi) 8)) 0xff00) (Z.shiftl (u16 lo) 0)
  = hi * 256 + lo.
Proof.
  intros Hhi Hlo. unfold u16. rewrite !Z.mod_small by lia. rewrite Z.shiftl_0_r.
  assert (E : Z.land (Z.lor (Z.land x 0xff) (Z.shiftl hi 8)) 0xff00 = Z.shiftl hi 8).
  { apply Z.bits_inj'. intros n Hn.
    rewrite Z.land_spec, Z.lor_spec, Z.land_spec.
    destruct (Z.lt_ge_cases n 8) as [Hlt | Hge].
    - rewrite Z.shiftl_spec_low by exact Hlt.
      change 0xff00 with (Z.shiftl 0xff 8). rewrite Z.shiftl_spec_low by exact Hlt.
      apply andb_false_r.
    - change 0xff with (Z.ones 8) at 1. rewrite Z.ones_spec_high by lia.
      rewrite andb_false_r. cbn [orb].
      rewrite Z.shiftl_spec by exact Hn.
      destruct (Z.lt_ge_cases n 16) as [Hlt | Hge'].
      + change 0xff00 with (Z.shiftl (Z.ones 8) 8). rewrite Z.shiftl_spec by exact Hn.
        rewrite Z.ones_spec_low by lia. apply andb_true_r.
      + replace (Z.testbit hi (n - 8)) with false; [reflexivity | ].
        symmetry. apply (Z.bits_above_log2 hi (n - 8)); [lia | ].
        destruct (Z.eq_dec hi 0) as [-> | Hnz]; [simpl; lia | ].
        apply Z.log2_lt_pow2; [lia | ].
        apply Z.lt_le_trans with (2 ^ 8); [lia | apply Z.pow_le_mono_r; lia]. }
  rewrite E, Z.shiftl_mul_pow2 by lia. change (2 ^ 8) with 256.
  assert (N : Z.land (hi * 256) lo = 0).
  { apply Z.bits_inj'. intros n Hn. rewrite Z.land_spec, Z.bits_0.
    destruct (Z.lt_ge_cases n 8) as [Hlt | Hge].
    - change 256 with (2 ^ 8). rewrite Z.mul_pow2_bits_low by exact Hlt. reflexivity.
    - rewrite (Z.bits_above_log2 lo n); [apply andb_false_r | lia | ].
      destruct (Z.eq_dec lo 0) as [-> | Hnz]; [simpl; lia | ].
      apply Z.log2_lt_pow2; [lia | ].
      apply Z.lt_le_trans with (2 ^ 8); [lia | apply Z.pow_le_mono_r; lia]. }
  rewrite <- (Z.lxor_lor _ _ N), <- (Z.add_nocarry_lxor _ _ N). reflexivity.
Qed.
Lemma ocr_halves_swapped hi lo x :
  0 <= hi < 256 -> 0 <= lo < 256 ->
  Z.lor (Z.land (Z.lor (Z.land x 0xff00) (Z.shiftl (u16 lo) 0)) 0x00ff) (Z.shiftl (u16 hi) 8)
  = hi * 256 + lo.
Proof.
  intros Hhi Hlo. rewrite <- (ocr_halves hi lo 0 Hhi Hlo).
  unfold u16. rewrite !Z.mod_small by lia. rewrite !Z.shiftl_0_r.
  assert (Hb : forall v n, 0 <= v < 256 -> 8 <= n -> Z.testbit v n = false).
  { intros v n Hv Hn. apply Z.bits_above_log2; [lia | ].
    destruct (Z.eq_dec v 0) as [-> | Hnz]; [simpl; lia | ].
    apply Z.log2_lt_pow2; [lia | ].
    apply Z.lt_le_trans with (2 ^ 8); [lia | apply Z.pow_le_mono_r; lia]. }
  apply Z.bits_inj'. intros n Hn.
  rewrite !Z.lor_spec, !Z.land_spec, !Z.lor_spec, !Z.land_spec, Z.bits_0.
  destruct (Z.lt_ge_cases n 8) as [Hlt | Hge].
  - rewrite Z.shiftl_spec_low by exact Hlt.
    change 0xff00 with (Z.shiftl 0xff 8). rewrite Z.shiftl_spec_low by exact Hlt.
    change 0xff with (Z.ones 8). rewrite Z.ones_spec_low by lia.
    cbn [andb orb]. rewrite !andb_false_r, andb_true_r, orb_false_r. reflexivity.
  - change 0xff with (Z.ones 8) at 1. rewrite Z.ones_spec_high by lia.
    rewrite (Hb lo n Hlo Hge). cbn [andb orb]. rewrite !andb_false_r, orb_false_r.
    cbn [orb]. rewrite Z.shiftl_spec by exact Hn.
    destruct (Z.lt_ge_cases n 16) as [Hlt | Hge'].
    + change 0xff00 with (Z.shiftl (Z.ones 8) 8). rewrite (Z.shiftl_spec (Z.ones 8)) by exact Hn.
      rewrite Z.ones_spec_low by lia. symmetry. apply andb_true_r.
    + rewrite (Hb hi (n - 8)) by lia. reflexivity.
Qed.

Lemma word_bytes hi lo :
  0 <= hi < 256 -> 0 <= lo < 256 ->
  u8 (Z.shiftr (hi * 256 + lo) 8) = hi /\ u8 (Z.shiftr (hi * 256 + lo) 0) = lo.
Proof.
  intros Hhi Hlo. unfold u8. rewrite Z.shiftr_0_r, Z.shiftr_div_pow2 by lia.
  change (2 ^ 8) with 256. split; Z.div_mod_to_equations; lia.
Qed.

Lemma ocr_r_value dbg offset dev :
  fst (ocr_r dbg offset dev)
  = u8 (Z.shiftr (m_ocr (timer dev)) (if BIT offset 0 then 0 else 8)).
Proof.
  unfold ocr_r. cbv zeta.
  destruct (negb dbg && BIT offset 0 && _); cbn [fst];
    rewrite ?drop_timer_irq_if_idle_timer; reflexivity.
Qed.

Lemma ocr_w_value dbg offset data dev :
  m_ocr (timer (ocr_w dbg offset data dev))
  = Z.lor (Z.land (m_ocr (timer dev)) (if BIT offset 0 then 0xff00 else 0x00ff))
          (Z.shiftl (u16 data) (if BIT offset 0 then 0 else 8)).
Proof.
  unfold ocr_w. cbv zeta. cbn [timer upd_timer m_ocr set_ocr].
  destruct (negb dbg); [ | reflexivity].
  destruct (BIT offset 0); [ | reflexivity].
  destruct (BIT (m_tsr_seen (timer dev)) 6); cbn [timer upd_timer];
    rewrite ?drop_timer_irq_if_idle_timer; reflexivity.
Qed.

(** X4.  The two halves of the compare register, written in either order
    by the program or by the debugger, make up the 16-bit compare value,
    whatever the register held before, and both halves read back as
    written, through program and debugger reads alike. *)
Theorem ocr_write_read_round_trip (dbg dbg' : bool) (hi lo : Z) (dev : device) :
  0 <= hi < 256 -> 0 <= lo < 256 ->
  let d := ocr_w dbg 1 lo (ocr_w dbg 0 hi dev) in
  let d' := ocr_w dbg 0 hi (ocr_w dbg 1 lo dev) in
  m_ocr (timer d) = hi * 256 + lo
  /\ m_ocr (timer d') = hi * 256 + lo
  /\ fst (ocr_r dbg' 0 d) = hi
  /\ fst (ocr_r dbg' 1 d) = lo.
Proof.
  intros Hhi Hlo d d'.
  assert (E : m_ocr (timer d) = hi * 256 + lo).
  { subst d. rewrite !ocr_w_value. change (BIT 1 0) with true. change (BIT 0 0) with false.
    cbv iota. apply ocr_halves; assumption. }
  assert (E' : m_ocr (timer d') = hi * 256 + lo).
  { subst d'. rewrite !ocr_w_value. change (BIT 1 0) with true. change (BIT 0 0) with false.
    cbv iota. apply ocr_halves_swapped; assumption. }
  rewrite !ocr_r_value, E, E'. change (BIT 1 0) with true. change (BIT 0 0) with false.
  cbv iota. destruct (word_bytes hi lo Hhi Hlo) as [W8 W0].
  repeat apply conj; reflexivity || assumption.
Qed.

Lemma compare_hit_ticks count t :
  0 <= count < 2 ^ 32 - 16 ->
  0 <= m_prescaler t < 16 ->
  0 <= m_counter t < 2 ^ 16 ->
  compare_hit count t
  = (m_counter t <? m_ocr t)
    && (m_ocr t <=? m_counter t + (m_prescaler t + count) / 16)
    && negb (m_inhibit_cmp t).
Proof.
  intros Hc Hp Hn. unfold compare_hit.
  change 15 with (Z.ones 4). rewrite Z.land_ones by lia.
  rewrite (Z.mod_small (m_prescaler t) (2 ^ 4)) by lia.
  rewrite Z.shiftr_div_pow2 by lia. unfold u32.
  rewrite (Z.add_comm count).
  rewrite (Z.mod_small (m_prescaler t + count) (2 ^ 32)) by lia.
  change (2 ^ 4) with 16.
  assert (Ht : 0 <= (m_prescaler t + count) / 16 < 2 ^ 28).
  { split; [apply Z.div_pos; lia | apply Z.div_lt_upper_bound; lia]. }
  rewrite (Z.mod_small (m_counter t + _) (2 ^ 32)) by lia.
  reflexivity.
Qed.

(** X5.  One call of the cycle accounting raises the compare flag and
    drives the compare output exactly when compare is not inhibited and the
    compare register lies above the counter and at or below the counter
    advanced by the ticks of this call; the level driven is the OLVL bit of
    TCR, and it is driven once.  A compare value at or below the counter is
    not matched by the call, also when the counter wraps past it. *)
Theorem compare_match_exactly (count : Z) (dev : device) :
  0 <= count < 2 ^ 32 - 16 ->
  0 <= m_prescaler (timer dev) < 16 ->
  0 <= m_counter (timer dev) < 2 ^ 16 ->
  let t := timer dev in
  let ticks := (m_prescaler t + count) / 16 in
  let hit := (m_counter t <? m_ocr t) && (m_ocr t <=? m_counter t + ticks)
             && negb (m_inhibit_cmp t) in
  flag_set OCF (burn_cycles count dev) = flag_set OCF dev || hit
  /\ tcmp_writes (trace (burn_cycles count dev))
     = tcmp_writes (trace dev) ++ (if hit then [if tcr_olvl t then 1 else 0] else [])
  /\ (m_ocr t <= m_counter t ->
      flag_set OCF (burn_cycles count dev) = flag_set OCF dev
      /\ tcmp_writes (trace (burn_cycles count dev)) = tcmp_writes (trace dev)).
Proof.
  intros Hc Hp Hn t ticks hit.
  destruct (burn_cycles_compare count dev) as (Ht & Ho & _).
  assert (Hhit : compare_hit count (timer dev) = hit)
    by (apply compare_hit_ticks; assumption).
  rewrite Ht, Ho, Hhit. repeat apply conj; try reflexivity.
  intros Hle. assert (Hno : hit = false).
  { subst hit. replace (m_counter t <? m_ocr t) with false; [reflexivity | ].
    symmetry. apply Z.ltb_ge. exact Hle. }
  rewrite Hno, orb_false_r, app_nil_r. split; reflexivity.
Qed.

(** ** The timer control register and the capture line *)

Lemma enable_mask data tsr :
  Z.land (Z.land (Z.land data 0xe3) tsr) 0xe0 = Z.land (Z.land data tsr) 0xe0.
Proof.
  apply Z.bits_inj'. intros n Hn. rewrite !Z.land_spec.
  destruct (Z.testbit 0xe0 n) eqn:E; [ | rewrite !andb_false_r; reflexivity].
  assert (E3 : Z.testbit 0xe3 n = true).
  { destruct (Z.lt_ge_cases n 8) as [Hlt | Hge].
    - assert (Hc : n = 0 \/ n = 1 \/ n = 2 \/ n = 3 \/ n = 4 \/ n = 5 \/ n = 6 \/ n = 7) by lia.
      destruct Hc as [-> | [-> | [-> | [-> | [-> | [-> | [-> | ->]]]]]]];
        first [reflexivity | discriminate E].
    - rewrite (Z.bits_above_log2 0xe0 n) in E; [discriminate E | lia | simpl; lia]. }
  rewrite E3, !andb_true_r. reflexivity.
Qed.

(** X6.  A write of TCR stores bits 7 to 5, 1 and 0 of the byte and
    settles the timer interrupt at once: the timer bit of the pending mask
    is afterwards set exactly when some status flag that is up has its
    enable bit set in the byte written, and the other pending bits stay as
    they are. *)
Theorem tcr_w_effect (data : Z) (dev : device) :
  0 <= M68HC05_TCAP_LINE < 16 ->
  let dev' := tcr_w data dev in
  tcr_r dev' = Z.land data 0xe3
  /\ m_tsr (timer dev') = m_tsr (timer dev)
  /\ BIT (m_pending_interrupts (base dev')) M68HC05_TCAP_LINE
     = negb (Z.land (Z.land data (m_tsr (timer dev))) 0xe0 =? 0)
  /\ (forall n, 0 <= n < 16 -> n <> M68HC05_TCAP_LINE ->
        BIT (m_pending_interrupts (base dev')) n = BIT (m_pending_interrupts (base dev)) n).
Proof.
  intros HL dev'. subst dev'. unfold tcr_w, tcr_r. cbv zeta.
  assert (He : timer_irq_enabled (timer (upd_timer (set_tcr (Z.land data 0xe3)) dev))
               = negb (Z.land (Z.land data (m_tsr (timer dev))) 0xe0 =? 0)).
  { unfold timer_irq_enabled. cbn [timer upd_timer m_tcr m_tsr set_tcr].
    rewrite enable_mask. reflexivity. }
  rewrite He.
  destruct (negb (Z.land (Z.land data (m_tsr (timer dev))) 0xe0 =? 0));
    cbn [timer upd_timer upd_base base m_tcr m_tsr set_tcr];
    repeat apply conj; try reflexivity.
  - rewrite pending_set_bit by lia. rewrite Z.eqb_refl, orb_true_r, andb_true_r.
    apply Z.ltb_lt. lia.
  - intros n Hn Hne. rewrite pending_set_bit by lia.
    destruct (Z.eqb_spec n M68HC05_TCAP_LINE); [contradiction | ].
    rewrite orb_false_r. replace (n <? 16) with true; [reflexivity | ].
    symmetry. apply Z.ltb_lt. lia.
  - apply pending_clear_own_bit.
  - intros n Hn Hne. rewrite pending_clear_bit by lia.
    destruct (Z.eqb_spec n M68HC05_TCAP_LINE); [contradiction | ].
    rewrite andb_true_r. replace (n <? 16) with true; [reflexivity | ].
    symmetry. apply Z.ltb_lt. lia.
Qed.

(** X7.  A level delivered on the capture line is a capture exactly when
    it differs from the level recorded last, is the level selected by the
    IEDG bit of TCR, and capture is not inhibited.  A capture copies the
    counter into the capture register and raises the capture flag; without
    one both stay as they are.  Either way the level is recorded, the
    counter and the other two flags are untouched, and with the capture
    interrupt enabled a capture requests the timer interrupt. *)
Theorem input_capture_on_selected_edge (state : Z) (dev : device) :
  0 <= M68HC05_TCAP_LINE < 16 ->
  let t := timer dev in
  let dev' := execute_set_input M68HC05_TCAP_LINE state dev in
  let taken := capture_taken state t in
  m_tcap_state (timer dev') = negb (state =? 0)
  /\ m_icr (timer dev') = (if taken then m_counter t else m_icr t)
  /\ flag_set ICF dev' = flag_set ICF dev || taken
  /\ flag_set OCF dev' = flag_set OCF dev
  /\ flag_set TOF dev' = flag_set TOF dev
  /\ m_counter (timer dev') = m_counter t
  /\ (taken = true -> BIT (m_tcr t) 7 = true ->
      BIT (m_pending_interrupts (base dev')) M68HC05_TCAP_LINE = true).
Proof.
  intros HL t dev' taken.
  destruct (execute_set_input_capture state dev) as (Hs & Hi & Ht).
  destruct (execute_set_input_latches M68HC05_TCAP_LINE state dev)
    as ((_ & _ & _ & Hc & _) & _).
  cbv zeta in Hs, Hi, Ht, Hc. fold dev' in Hs, Hi, Ht, Hc.
  change (negb (eqb (negb (state =? 0)) (m_tcap_state (timer dev)))
          && eqb (negb (state =? 0)) (tcr_iedg (timer dev))
          && negb (m_inhibit_cap (timer dev))) with taken in Hi, Ht.
  unfold flag_set. cbn [flag_bit]. rewrite Hs, Hi, Ht, Hc. unfold BIT.
  repeat apply conj; try reflexivity.
  - destruct taken; [ | rewrite orb_false_r; reflexivity].
    rewrite Z.lor_spec. change (Z.testbit 128 7) with true. rewrite !orb_true_r. reflexivity.
  - destruct taken; [ | reflexivity]. rewrite Z.lor_spec. apply orb_false_r.
  - destruct taken; [ | reflexivity]. rewrite Z.lor_spec. apply orb_false_r.
  - intros Htaken Hicie. unfold capture_taken in taken. subst dev' taken t.
    unfold execute_set_input. rewrite Z.eqb_refl. cbv zeta in Htaken.
    apply andb_prop in Htaken. destruct Htaken as [Hedge Hinh]. rewrite Hedge, Hinh.
    unfold raise_timer_irq_if_enabled.
    assert (Hen : timer_irq_enabled
                    (timer (upd_timer (fun t0 => set_icr (m_counter t0) t0)
                              (upd_timer (fun t0 => set_tsr (Z.lor (m_tsr t0) 0x80) t0) dev)))
                  = true).
    { unfold timer_irq_enabled. cbn [timer upd_timer m_tcr m_tsr set_icr set_tsr].
      apply negb_true_iff, Z.eqb_neq. intros Hz.
      assert (Hb : Z.testbit (Z.land (Z.land (m_tcr (timer dev))
                                (Z.lor (m_tsr (timer dev)) 0x80)) 0xe0) 7 = true).
      { rewrite !Z.land_spec, Z.lor_spec. unfold BIT in Hicie. rewrite Hicie.
        change (Z.testbit 128 7) with true. rewrite orb_true_r. reflexivity. }
      rewrite Hz in Hb. rewrite Z.bits_0 in Hb. discriminate Hb. }
    rewrite Hen. cbn [base upd_timer upd_base].
    rewrite pending_set_bit by lia. rewrite Z.eqb_refl, orb_true_r, andb_true_r.
    apply Z.ltb_lt. lia.
Qed.
Lemma pending_set_twice line b : pending_set line (pending_set line b) = pending_set line b.
Proof.
  unfold pending_set. cbn [m_pending_interrupts set_pending_interrupts].
  unfold set_pending_interrupts. cbn. f_equal.
  unfold u16. rewrite <- !(Z.land_ones _ 16) by lia.
  apply Z.bits_inj'. intros n Hn.
  repeat (rewrite Z.land_spec || rewrite Z.lor_spec).
  destruct (Z.testbit (m_pending_interrupts b) n), (Z.testbit (Z.shiftl (Z.land 1 (Z.ones 16)) line) n),
    (Z.testbit (Z.ones 16) n); reflexivity.
Qed.

(** X8.  Input lines are level driven: delivering a level that a line
    already has is the same as delivering it once, for the capture line and
    for every line that has a state slot.  For the capture line no second
    capture is taken; for the other lines the pending bit is requested by
    the first delivery. *)
Theorem execute_set_input_idempotent (inputnum state : Z) (dev : device) :
  inputnum = M68HC05_TCAP_LINE
  \/ 0 <= inputnum < Z.of_nat (length (m_irq_state (base dev))) ->
  execute_set_input inputnum state (execute_set_input inputnum state dev)
  = execute_set_input inputnum state dev.
Proof.
  intros _. unfold execute_set_input at 1.
  destruct (inputnum =? M68HC05_TCAP_LINE) eqn:Hline.
  - destruct (execute_set_input_capture state dev) as (Hs & _).
    cbv zeta in Hs. apply Z.eqb_eq in Hline. subst inputnum. rewrite Hs.
    rewrite eqb_reflx. cbn [negb andb].
    unfold execute_set_input. rewrite Z.eqb_refl. reflexivity.
  - unfold execute_set_input. rewrite Hline.
    destruct (negb (arr_get 0 (m_irq_state (base dev)) inputnum =? state)) eqn:Hchg;
      [ | rewrite Hchg; reflexivity].
    assert (Hst : forall f,
              m_irq_state (base (upd_base f dev)) = m_irq_state (f (base dev)))
      by reflexivity.
    destruct (negb (state =? CLEAR_LINE)) eqn:Hclr; cbn [base upd_base m_irq_state
      pending_set set_pending_interrupts set_irq_state].
    + match goal with |- (if ?c then _ else _) = _ => destruct c end.
      * unfold upd_base. cbn. rewrite arr_set_twice. f_equal.
        match goal with
        | |- _ = pending_set _ ?b' =>
            transitivity (pending_set inputnum (pending_set inputnum b'));
              [reflexivity | apply pending_set_twice]
        end.
      * reflexivity.
    + apply negb_false_iff, Z.eqb_eq in Hclr. subst state.
      apply negb_true_iff, Z.eqb_neq in Hchg.
      assert (Hin : (Z.to_nat inputnum < length (m_irq_state (base dev)))%nat).
      { destruct (decide (Z.to_nat inputnum < length (m_irq_state (base dev)))%nat)
          as [Hlt | Hge]; [exact Hlt | exfalso]. apply Hchg. unfold arr_get.
        rewrite (proj2 (lookup_ge_None _ _)) by lia. reflexivity. }
      unfold arr_get at 1, arr_set at 1. rewrite list_lookup_insert_eq by exact Hin.
      reflexivity.
Qed.
(** ** Reading a port, and the ports beside it *)

Lemma testbit_u8 x n : Z.testbit (u8 x) n = (n <? 8) && Z.testbit x n.
Proof. unfold u8. apply Z.testbit_mod_pow2. lia. Qed.

Lemma port_offset_mask offset : 0 <= offset < 4 -> Z.land offset (PORT_COUNT - 1) = offset.
Proof.
  intros Ho. change (PORT_COUNT - 1) with (Z.ones 2). rewrite Z.land_ones by lia.
  apply Z.mod_small. lia.
Qed.

(** X9.  A port read returns, bit by bit, the output latch where the bit
    is configured as output and the pin where it is configured as input.
    With a read callback bound the pins are sampled first: the callback is
    asked for the input bits that exist, and only bits that exist are kept
    of its answer.  With none bound the value sampled last is used and the
    device is left as it was.  A read drives no output, and changes neither
    latch nor direction. *)
Theorem port_r_bits (cb : option (Z -> Z)) (offset i : Z) (dev : device) :
  0 <= offset < 4 -> wf_ports (ports dev) -> 0 <= i ->
  let p := pins_of offset (ports dev) in
  let dev' := snd (port_r cb offset dev) in
  Z.testbit (fst (port_r cb offset dev)) i
  = (if Z.testbit (pin_ddr p) i then Z.testbit (pin_latch p) i
     else match cb with
          | Some f => (i <? 8) && Z.testbit (f (Z.land (Z.lnot (pin_ddr p)) (pin_bits p))) i
                      && Z.testbit (pin_bits p) i
          | None => Z.testbit (pin_input p) i
          end)
  /\ pin_latch (pins_of offset (ports dev')) = pin_latch p
  /\ pin_ddr (pins_of offset (ports dev')) = pin_ddr p
  /\ pin_bits (pins_of offset (ports dev')) = pin_bits p
  /\ trace dev' = trace dev
  /\ (cb = None -> dev' = dev).
Proof.
  intros Ho (Hb & Hi & Hl & Hd) Hn p dev'. subst p dev'.
  unfold port_r. rewrite (port_offset_mask offset Ho). cbv zeta.
  unfold port_value, pins_of.
  destruct cb as [f | ]; cbn [fst snd ports upd_ports trace m_port_input m_port_latch
    m_port_ddr m_port_bits set_port_input pin_ddr pin_latch pin_bits pin_input].
  - rewrite arr_get_set by lia.
    rewrite Z.lor_spec, !Z.land_spec, Z.lnot_spec, testbit_u8 by exact Hn.
    repeat apply conj; try reflexivity; [ | discriminate].
    destruct (Z.testbit (arr_get 0 (m_port_ddr (ports dev)) offset) i); cbn [negb];
      rewrite ?andb_false_r, ?andb_true_r, ?orb_false_r; reflexivity.
  - rewrite Z.lor_spec, !Z.land_spec, Z.lnot_spec by exact Hn.
    repeat apply conj; try reflexivity.
    destruct (Z.testbit (arr_get 0 (m_port_ddr (ports dev)) offset) i); cbn [negb];
      rewrite ?andb_false_r, ?andb_true_r, ?orb_false_r; reflexivity.
Qed.

(** X10.  The four ports are independent.  A read, a latch write or a
    direction write of one port leaves the mask, the sampled input, the
    latch and the direction of every other port as they are, and none of
    them touches the timer, the watchdogs or the processor core. *)
Theorem port_access_isolated
    (cb : option (Z -> Z)) (offset other data : Z) (dev : device) :
  0 <= offset < 4 -> 0 <= other < 4 -> other <> offset ->
  let after := fun dev' : device =>
    pins_of other (ports dev') = pins_of other (ports dev)
    /\ timer dev' = timer dev /\ cop dev' = cop dev /\ base dev' = base dev in
  after (snd (port_r cb offset dev))
  /\ after (port_latch_w offset data dev)
  /\ after (port_ddr_w offset data dev).
Proof.
  intros Ho Hother Hne after. subst after. cbv beta.
  assert (Hi : Z.to_nat other <> Z.to_nat offset) by lia.
  unfold port_r, port_latch_w, port_ddr_w. rewrite (port_offset_mask offset Ho). cbv zeta.
  unfold pins_of.
  repeat apply conj; try reflexivity.
  - destruct cb as [f | ]; cbn [snd ports upd_ports m_port_input m_port_latch m_port_ddr
      m_port_bits set_port_input]; rewrite ?arr_get_set_other by exact Hi; reflexivity.
  - destruct cb; reflexivity.
  - destruct cb; reflexivity.
  - destruct cb; reflexivity.
  - destruct (negb _); cbn [ports upd_ports emit m_port_input m_port_latch m_port_ddr
      m_port_bits set_port_latch]; rewrite ?arr_get_set_other by exact Hi; reflexivity.
  - destruct (negb _); reflexivity.
  - destruct (negb _); reflexivity.
  - destruct (negb _); reflexivity.
  - destruct (negb _); cbn [ports upd_ports emit m_port_input m_port_latch m_port_ddr
      m_port_bits set_port_ddr]; rewrite ?arr_get_set_other by exact Hi; reflexivity.
  - destruct (negb _); reflexivity.
  - destruct (negb _); reflexivity.
  - destruct (negb _); reflexivity.
Qed.

(** ** The watchdogs *)

Lemma run_cycles_app cs1 cs2 dev :
  run_cycles (cs1 ++ cs2) dev = run_cycles cs2 (run_cycles cs1 dev).
Proof. unfold run_cycles. apply foldl_app. Qed.

Lemma pcop_fires_disabled count c : copcr_pcope c = false -> pcop_fires count c = false.
Proof. intros H. unfold pcop_fires. rewrite H. reflexivity. Qed.

(** X11.  The non-programmable watchdog is fed by a write of COPR with
    bit 0 clear, which zeroes its counter and nothing else; a write with
    bit 0 set changes nothing.  It counts every cycle accounted and pulses
    reset when its count reaches 2^17: with the programmable watchdog
    disabled, no reset is pulsed while fewer than 2^17 cycles have been
    accounted since it was fed, and the call that takes the count to 2^17
    pulses reset once.  The enable [m_ncope] is not consulted: the count of
    pulses is the same whatever it holds. *)
Theorem ncop_feed_and_fire (data count v : Z) (cs : list Z) (dev : device) :
  Forall (fun c => 0 <= c < 2 ^ 31) cs ->
  0 <= count < 2 ^ 31 ->
  0 <= m_pcop_cnt (cop dev) < 2 ^ 21 ->
  copcr_pcope (cop dev) = false ->
  total cs < 2 ^ 17 ->
  let fed := copr_w data dev in
  (if BIT data 0 then fed = dev else fed = upd_cop (set_ncop_cnt 0) dev)
  /\ (BIT data 0 = false ->
      reset_pulses (trace (run_cycles cs fed)) = reset_pulses (trace dev)
      /\ (2 ^ 17 <= total cs + count ->
          reset_pulses (trace (burn_cycles count (run_cycles cs fed)))
          = S (reset_pulses (trace dev))))
  /\ reset_pulses (trace (burn_cycles count (upd_cop (set_ncope v) dev)))
     = reset_pulses (trace (burn_cycles count dev)).
Proof.
  intros Hcs Hc Hp Hoff Htot fed.
  assert (Hfed : if BIT data 0 then fed = dev else fed = upd_cop (set_ncop_cnt 0) dev).
  { subst fed. unfold copr_w. destruct (BIT data 0); reflexivity. }
  repeat apply conj; [exact Hfed | | ].
  - intros Hbit. rewrite Hbit in Hfed. clearbody fed. subst fed.
    set (d0 := upd_cop (set_ncop_cnt 0) dev).
    assert (Hpos := total_nonneg _ cs (fun c H => proj1 H) Hcs).
    assert (Hquiet : reset_pulses (trace (run_cycles cs d0)) = reset_pulses (trace dev)).
    { apply (run_cycles_quiet cs d0); try assumption; try (cbn; lia).
      apply pcop_fires_disabled. exact Hoff. }
    split; [exact Hquiet | ]. intros Hreach.
    destruct (run_cycles_pcop cs d0 Hcs Hp) as (_ & He & _ & _ & Hn); [cbn; lia | ].
    destruct (burn_cycles_pcop count (run_cycles cs d0) Hc) as (_ & _ & _ & Hr).
    rewrite Hr, Hquiet, pcop_fires_disabled by (rewrite He; exact Hoff).
    unfold ncop_fires. rewrite Hn. cbn [cop upd_cop m_ncop_cnt set_ncop_cnt d0].
    rewrite Z.add_0_l, (Z.mod_small (total cs)) by lia.
    unfold u32. rewrite Z.mod_small by lia.
    replace (2 ^ 17 <=? total cs + count) with true by (symmetry; apply Z.leb_le; exact Hreach).
    lia.
  - destruct (burn_cycles_pcop count (upd_cop (set_ncope v) dev) Hc) as (_ & _ & _ & Hr).
    destruct (burn_cycles_pcop count dev Hc) as (_ & _ & _ & Hr').
    rewrite Hr, Hr'. reflexivity.
Qed.

Lemma burn_cycles_copcr count dev :
  m_copcr (cop (burn_cycles count dev)) = m_copcr (cop dev)
  \/ m_copcr (cop (burn_cycles count dev)) = Z.lor (m_copcr (cop dev)) 0x10.
Proof.
  rewrite burn_cycles_parts.
  destruct (run_cop_cop count (run_timer count dev)) as [Hcop _].
  cbv zeta in Hcop. rewrite Hcop, (proj1 (run_timer_frame count dev)).
  cbn [m_copcr]. destruct (copcr_pcope (cop dev) && _); [right | left]; reflexivity.
Qed.

Lemma perform_copcr dbg a dev :
  match a with
  | Rd_copcr => m_copcr (cop (snd (perform dbg a dev))) = Z.land (m_copcr (cop dev)) 0xef
  | Wr_copcr data =>
      m_copcr (cop (snd (perform dbg a dev)))
      = Z.lor (Z.land (m_copcr (cop dev)) 0xf4) (Z.land data 0x0f)
  | _ => m_copcr (cop (snd (perform dbg a dev))) = m_copcr (cop dev)
  end.
Proof.
  destruct a; simpl; unfold_handlers; unfold drop_timer_irq_if_idle; simpl;
    split_ifs; reflexivity.
Qed.

Lemma copcr_w_bits x data :
  BIT (Z.lor (Z.land x 0xf4) (Z.land data 0x0f)) 2 = BIT x 2 || BIT data 2
  /\ BIT (Z.lor (Z.land x 0xf4) (Z.land data 0x0f)) 4 = BIT x 4.
Proof.
  unfold BIT. rewrite !Z.lor_spec, !Z.land_spec.
  change (Z.testbit 0xf4 2) with true. change (Z.testbit 0x0f 2) with true.
  change (Z.testbit 0xf4 4) with true. change (Z.testbit 0x0f 4) with false.
  rewrite !andb_true_r, andb_false_r, orb_false_r. split; reflexivity.
Qed.

(** X12.  The two latched bits of COPCR.  PCOPE is set-only: a write of
    COPCR with bit 2 set sets it, and once set it stays set through every
    register access, COPCR writes included, through cycle accounting, input
    lines and interrupt service; only a reset clears it.  COPF is raised by
    cycle accounting alone (directly or as part of interrupt service) and
    cleared by a read of COPCR alone: no write can set or clear it, and it
    survives a reset. *)
Theorem copcr_latched_bits (s : step) (data : Z) (dev : device) :
  copcr_pcope (cop (copcr_w data dev)) = copcr_pcope (cop dev) || BIT data 2
  /\ (copcr_pcope (cop dev) = true -> s <> Reset ->
      copcr_pcope (cop (step_apply s dev)) = true)
  /\ copcr_pcope (cop (device_reset dev)) = false
  /\ (copcr_copf (cop dev) = true -> (forall dbg, s <> Access dbg Rd_copcr) ->
      copcr_copf (cop (step_apply s dev)) = true)
  /\ match s with
     | Cycles _ | Service => True
     | _ => copcr_copf (cop (step_apply s dev)) = true -> copcr_copf (cop dev) = true
     end.
Proof.
  unfold copcr_pcope, copcr_copf.
  assert (Hor : forall x i, BIT x i = true -> BIT (Z.lor x 0x10) i = true)
    by (intros x i H; apply lor_keeps_bit, H).
  assert (Hburn : forall count d i, BIT (m_copcr (cop d)) i = true ->
            BIT (m_copcr (cop (burn_cycles count d))) i = true).
  { intros count d i H. destruct (burn_cycles_copcr count d) as [E | E]; rewrite E;
      [exact H | apply Hor, H]. }
  assert (Hserv : forall d i, BIT (m_copcr (cop d)) i = true ->
            BIT (m_copcr (cop (final (interrupt d)))) i = true).
  { intros d i H. destruct (interrupt_shape d) as (_ & [(_ & E & _) | (_ & E & _)]);
      cbv zeta in E; rewrite E; [exact H | apply Hburn, H]. }
  repeat apply conj.
  - apply (proj1 (copcr_w_bits _ _)).
  - intros Hset Hs. destruct s; cbn [step_apply].
    + pose proof (perform_copcr debugger_access a dev) as E.
      destruct a; rewrite E; try exact Hset.
      * unfold BIT. rewrite land_keep_bit by reflexivity. exact Hset.
      * rewrite (proj1 (copcr_w_bits _ _)), Hset. reflexivity.
    + apply Hburn, Hset.
    + rewrite (proj1 (proj2 (proj2 (proj2 (proj2 (execute_set_input_latches _ _ _)))))).
      exact Hset.
    + apply Hserv, Hset.
    + contradiction.
  - unfold BIT. cbn. apply land_clear_bit. reflexivity.
  - intros Hset Hs. destruct s; cbn [step_apply].
    + pose proof (perform_copcr debugger_access a dev) as E.
      destruct a; try (rewrite E; exact Hset).
      * exfalso. apply (Hs debugger_access). reflexivity.
      * rewrite E, (proj2 (copcr_w_bits _ _)). exact Hset.
    + apply Hburn, Hset.
    + rewrite (proj1 (proj2 (proj2 (proj2 (proj2 (execute_set_input_latches _ _ _)))))).
      exact Hset.
    + apply Hserv, Hset.
    + unfold BIT. cbn. rewrite land_keep_bit by reflexivity. exact Hset.
  - destruct s; cbn [step_apply]; try exact I.
    + pose proof (perform_copcr debugger_access a dev) as E.
      destruct a; rewrite E; try (intros H; exact H).
      * unfold BIT. rewrite land_clear_bit by reflexivity. discriminate.
      * rewrite (proj2 (copcr_w_bits _ _)). intros H; exact H.
    + rewrite (proj1 (proj2 (proj2 (proj2 (proj2 (execute_set_input_latches _ _ _)))))).
      intros H; exact H.
    + unfold BIT. cbn. rewrite land_keep_bit by reflexivity. intros H; exact H.
Qed.

(** X13.  An accepted 0x55, 0xAA sequence leaves the programmable
    watchdog counter below 2^15, so that the watchdog does not fire while
    the cycles accounted after it stay within 2^N - 2^15, N = 15 + 2 x CM:
    at least three times 2^15 cycles for the timeouts other than the
    shortest, and none for the shortest. *)
Theorem pcop_clear_sequence_postpones (others cs : list Z) (dev : device) :
  Forall (fun byte => byte <> 0x55 /\ byte <> 0xaa) others ->
  Forall (fun c => 0 <= c < 2 ^ 31) cs ->
  0 <= m_pcop_cnt (cop dev) < 2 ^ 21 ->
  0 <= m_ncop_cnt (cop dev) < 2 ^ 17 ->
  total cs <= 2 ^ (15 + 2 * copcr_cm (cop dev)) - 2 ^ 15 ->
  let fed := coprst_writes ([0x55] ++ others ++ [0xaa]) dev in
  0 <= m_pcop_cnt (cop fed) < 2 ^ 15
  /\ pcop_fires (total cs) (cop fed) = false
  /\ copcr_copf (cop (run_cycles cs fed)) = copcr_copf (cop dev).
Proof.
  intros Hothers Hcs Hp Hn Htot fed.
  assert (Hfed : fed = coprst_w 0xaa (coprst_w 0x55 dev)).
  { subst fed. unfold coprst_writes. rewrite !foldl_app. cbn [foldl].
    change (foldl _ ?d others) with (coprst_writes others d).
    rewrite (coprst_writes_others others _ Hothers). reflexivity. }
  assert (Hcnt : m_pcop_cnt (cop fed) = m_pcop_cnt (cop dev) mod 2 ^ 15
                 /\ m_copcr (cop fed) = m_copcr (cop dev)
                 /\ m_ncop_cnt (cop fed) = m_ncop_cnt (cop dev)).
  { rewrite Hfed. change 0x7fff with (Z.ones 15). rewrite <- Z.land_ones by lia.
    repeat split. }
  destruct Hcnt as (Hc & Hcr & Hnc).
  assert (Hb : 0 <= m_pcop_cnt (cop fed) < 2 ^ 15)
    by (rewrite Hc; apply Z.mod_pos_bound; lia).
  assert (Hpos := total_nonneg _ cs (fun c H => proj1 H) Hcs).
  assert (Hcm : copcr_cm (cop fed) = copcr_cm (cop dev)
                /\ copcr_pcope (cop fed) = copcr_pcope (cop dev)
                /\ copcr_copf (cop fed) = copcr_copf (cop dev)).
  { unfold copcr_cm, copcr_pcope, copcr_copf. rewrite Hcr. repeat split. }
  destruct Hcm as (Hcm & Hpe & Hcf).
  assert (Hquiet : pcop_fires (total cs) (cop fed) = false).
  { unfold pcop_fires. rewrite Hcm. destruct (copcr_pcope (cop fed)); [ | reflexivity].
    cbn [andb]. apply Z.leb_gt.
    assert (H15 : 2 ^ 15 <= 2 ^ (15 + 2 * copcr_cm (cop dev))).
    { apply Z.pow_le_mono_r; [lia | ].
      destruct (cm_cases (cop dev)) as [E | [E | [E | E]]]; rewrite E; lia. }
    rewrite Z.mod_small by lia. lia. }
  repeat apply conj; try assumption; try apply Hb.
  destruct (run_cycles_pcop cs fed Hcs) as (Hf & _); [lia | lia | ].
  rewrite Hf, Hquiet, orb_false_r. exact Hcf.
Qed.

(** ** Clocks and cycles *)

(** X14.  The core runs at two clocks per machine cycle.  Cycles
    converted to clocks and back are the cycles again; clocks converted to
    cycles are rounded up, so that the cycles returned cover the clocks
    given by at most one clock more.  Both hold as long as the 64-bit
    results do not wrap. *)
Theorem cycles_clocks_round_trip (cycles clocks : Z) :
  0 <= cycles < 2 ^ 63 ->
  0 <= clocks < 2 ^ 64 - 1 ->
  execute_clocks_to_cycles (execute_cycles_to_clocks cycles) = cycles
  /\ clocks <= execute_cycles_to_clocks (execute_clocks_to_cycles clocks) <= clocks + 1
  /\ execute_cycles_to_clocks (execute_clocks_to_cycles clocks) mod 2 = 0.
Proof.
  intros Hc Hk. unfold execute_clocks_to_cycles, execute_cycles_to_clocks, u64.
  rewrite (Z.mod_small (cycles * 2)), (Z.mod_small (cycles * 2 + 1)),
    (Z.mod_small (clocks + 1)) by lia.
  assert (Hq : 0 <= (clocks + 1) / 2 < 2 ^ 63).
  { split; [apply Z.div_pos; lia | apply Z.div_lt_upper_bound; lia]. }
  rewrite (Z.mod_small ((clocks + 1) / 2 * 2)) by lia.
  repeat apply conj.
  - Z.div_mod_to_equations. lia.
  - Z.div_mod_to_equations. lia.
  - Z.div_mod_to_equations. lia.
  - apply Z.mod_mul. lia.
Qed.
(** ** Interrupt requests and service *)

Lemma no_enable_no_request t : Z.land (m_tcr t) 0xe0 = 0 -> timer_irq_enabled t = false.
Proof.
  intros H. unfold timer_irq_enabled.
  rewrite <- Z.land_assoc, (Z.land_comm (m_tsr t)), Z.land_assoc, H.
  reflexivity.
Qed.

Lemma step_keeps_tcr s dev :
  leaves_tcr s = true ->
  m_tcr (timer (step_apply s dev)) = m_tcr (timer dev)
  /\ (timer_pending_sound dev -> timer_pending_sound (step_apply s dev)).
Proof.
  intros Hs. destruct s; cbn [step_apply].
  - split; [ | apply perform_sound].
    pose proof (perform_tcr debugger_access a dev) as E.
    destruct a; try exact E. discriminate Hs.
  - split; [ | apply burn_cycles_sound].
    apply (proj1 (proj2 (burn_cycles_latches count dev))).
  - split; [ | apply execute_set_input_sound].
    apply (proj1 (proj1 (execute_set_input_latches inputnum state dev))).
  - split; [ | apply interrupt_sound].
    destruct (interrupt_shape dev) as (_ & [(E & _) | (E & _)]); cbv zeta in E; rewrite E;
      [reflexivity | apply (proj1 (proj2 (burn_cycles_latches 10 dev)))].
  - discriminate Hs.
Qed.

(** X15.  With the three interrupt enables of TCR clear, as a reset
    leaves them, the timer requests no interrupt: whatever flags the
    counter, the compare register and the capture line raise, the timer bit
    of the pending mask stays clear until TCR is written, through every
    other register access, cycle accounting, input line change and
    interrupt check. *)
Theorem timer_interrupt_needs_enable (ss : list step) (dev : device) :
  Forall (fun s => leaves_tcr s = true) ss ->
  Z.land (m_tcr (timer dev)) 0xe0 = 0 ->
  BIT (m_pending_interrupts (base dev)) M68HC05_TCAP_LINE = false ->
  BIT (m_pending_interrupts (base (run_steps ss dev))) M68HC05_TCAP_LINE = false
  /\ m_tcr (timer (run_steps ss dev)) = m_tcr (timer dev)
  /\ Z.land (m_tcr (timer (device_reset dev))) 0xe0 = 0.
Proof.
  intros Hall Hoff Hclear.
  assert (Hrun : forall ss d, Forall (fun s => leaves_tcr s = true) ss ->
            timer_pending_sound d ->
            m_tcr (timer (run_steps ss d)) = m_tcr (timer d)
            /\ timer_pending_sound (run_steps ss d)).
  { clear. induction ss as [ | s ss IH]; intros d Hall Hs; [split; [reflexivity | exact Hs] | ].
    inversion Hall as [ | ? ? H1 Hrest]; subst.
    destruct (step_keeps_tcr s d H1) as [Et Hk].
    destruct (IH (step_apply s d) Hrest (Hk Hs)) as [Et' Hs'].
    change (run_steps (s :: ss) d) with (run_steps ss (step_apply s d)).
    rewrite Et', Et. split; [reflexivity | exact Hs']. }
  assert (Hs0 : timer_pending_sound dev).
  { unfold timer_pending_sound. rewrite Hclear. discriminate. }
  destruct (Hrun ss dev Hall Hs0) as [Et Hs].
  repeat apply conj; [ | exact Et | ].
  - destruct (BIT (m_pending_interrupts (base (run_steps ss dev))) M68HC05_TCAP_LINE)
      eqn:Hbit; [ | reflexivity].
    apply Hs in Hbit. rewrite no_enable_no_request in Hbit by (rewrite Et; exact Hoff).
    discriminate Hbit.
  - cbn. rewrite <- Z.land_assoc. change (Z.land 2 224) with 0. apply Z.land_0_r.
Qed.

Lemma iflag_set x : (Z.land (Z.lor x IFLAG) IFLAG =? 0) = false.
Proof.
  apply Z.eqb_neq. intros H.
  assert (Hb : Z.testbit (Z.land (Z.lor x IFLAG) IFLAG) 3 = true).
  { rewrite Z.land_spec, Z.lor_spec. change (Z.testbit IFLAG 3) with true.
    rewrite orb_true_r. reflexivity. }
  rewrite H, Z.bits_0 in Hb. discriminate Hb.
Qed.

(** X16.  Interrupt entry masks further interrupts: a second interrupt
    check right after the first finds nothing to service and leaves the
    device as it is, whether the first one serviced the timer interrupt,
    ended in the fatal error or found nothing to do.  Pending requests
    are serviced again only after the program has cleared the
    interrupt-mask flag. *)
Theorem interrupt_masks_itself (dev : device) :
  interrupt (final (interrupt dev)) = Done (final (interrupt dev)).
Proof.
  rewrite (interrupt_cases (final (interrupt dev))).
  rewrite (interrupt_cases dev).
  destruct ((Z.land (m_pending_interrupts (base dev)) M68HC05_INT_MASK =? 0)
            || negb (Z.land (m_cc (base dev)) IFLAG =? 0)) eqn:Hgate;
    cbn [final]; [rewrite Hgate; reflexivity | ].
  assert (Hcc : m_cc (base (entered dev)) = Z.lor (m_cc (stack_frame (base dev))) IFLAG)
    by reflexivity.
  destruct (BIT (m_pending_interrupts (base dev)) M68HC05_TCAP_LINE); cbn [final].
  - pose proof (serviced_base dev) as HS. cbv zeta in HS.
    destruct HS as (_ & _ & HC & _). rewrite HC, Hcc, iflag_set.
    cbn [negb]. rewrite orb_true_r. reflexivity.
  - rewrite Hcc, iflag_set. cbn [negb]. rewrite orb_true_r. reflexivity.
Qed.

(** ** Debugger accesses to the register bank *)

(** X17.  The value an access returns does not depend on whether the
    debugger or the program makes it.  A debugger read of a direction
    register, of TCR, TSR, either half of ICR or OCR, any of the four
    counter bytes, or of a port without a read callback leaves the whole
    device as it was; a debugger write of OCR stores the same compare value
    as a program write and changes nothing else. *)
Theorem debugger_access_transparent (a : access) (offset data : Z) (dev : device) :
  fst (perform true a dev) = fst (perform false a dev)
  /\ (debugger_transparent a = true -> snd (perform true a dev) = dev)
  /\ ocr_w true offset data dev
     = upd_timer (set_ocr (m_ocr (timer (ocr_w false offset data dev)))) dev.
Proof.
  repeat apply conj.
  - destruct a; simpl; unfold_handlers; simpl; try reflexivity;
      split_ifs; simpl; rewrite ?drop_timer_irq_if_idle_timer; reflexivity.
  - destruct a; simpl; try discriminate; intros Ht; unfold_handlers; simpl;
      try reflexivity; split_ifs; try reflexivity; discriminate.
  - rewrite ocr_w_value. unfold ocr_w. cbn [negb]. reflexivity.
Qed.

(** ** Start followed by reset *)

(** X18.  Start and reset between them initialise every field of the
    peripherals.  The three variants start by [device_start] (their own
    start only adds entries to the debugger's register list) and reset by
    [variant_reset].  Whatever the ports, the timer and the watchdogs held
    before, after start and the common reset they hold what the constructor
    gives them, the port masks apart, which neither touches, and a second
    reset changes nothing of it.  After start and the variant's reset the
    same holds on the MC68HC05C4 and the MC68HC05C8; on the MC68HC705C8A it
    holds of every field but the NCOP enable, which each reset sets from
    the byte the reset core reads at 0xFFF1 and which need not be the
    constructor's 0. *)
Theorem start_then_reset_is_power_on (v : variant) (dev : device) :
  wf_ports (ports dev) ->
  length (m_trl_buf (timer dev)) = 2%nat ->
  length (m_trl_latched (timer dev)) = 2%nat ->
  let dev' := device_reset (device_start dev) in
  let devv := variant_reset v (device_start dev) in
  let enable d := ncope_of set_ncope_rule (rdmem 0xfff1 (base d)) in
  (peripherals dev'
   = (set_port_bits_arr (m_port_bits (ports dev)) (ports m68hc05_device_init),
      timer m68hc05_device_init, cop m68hc05_device_init)
   /\ peripherals (device_reset dev') = peripherals dev'
   /\ trace dev' = trace dev)
  /\ peripherals devv
     = (set_port_bits_arr (m_port_bits (ports dev)) (ports m68hc05_device_init),
        timer m68hc05_device_init,
        match v with
        | M68HC705C8A => set_ncope (enable devv) (cop m68hc05_device_init)
        | _ => cop m68hc05_device_init
        end)
  /\ peripherals (variant_reset v devv)
     = (ports devv, timer devv,
        match v with
        | M68HC705C8A => set_ncope (enable (variant_reset v devv)) (cop devv)
        | _ => cop devv
        end)
  /\ base devv = base_device_reset (base_device_start (base dev))
  /\ trace devv = trace dev.
Proof.
  intros (Hb & Hi & Hl & Hd) Hbuf Hlatched.
  destruct dev as [cf st p t c0 b0 tr].
  destruct p as [bits inp lat ddr]. destruct t.
  simpl in Hb, Hi, Hl, Hd, Hbuf, Hlatched.
  destruct inp as [ | i1 [ | i2 [ | i3 [ | i4 [ | ? ?]]]]]; try discriminate Hi.
  destruct lat as [ | a1 [ | a2 [ | a3 [ | a4 [ | ? ?]]]]]; try discriminate Hl.
  destruct ddr as [ | d1 [ | d2 [ | d3 [ | d4 [ | ? ?]]]]]; try discriminate Hd.
  destruct m_trl_buf0 as [ | t1 [ | t2 [ | ? ?]]]; try discriminate Hbuf.
  destruct m_trl_latched0 as [ | l1 [ | l2 [ | ? ?]]]; try discriminate Hlatched.
  destruct c0. clear. destruct v; vm_compute; repeat apply conj; reflexivity.
Qed.

(** ** The address maps *)

Ltac unfold_maps :=
  unfold variant_map, c4_map, c8_map, c8a_map, AM_RANGE, AM_READWRITE, AM_READ, AM_WRITE,
    AM_ROM, AM_RAM; cbn [map_read map_write].

Ltac range_facts :=
  repeat match goal with
         | H : (_ && _) = true |- _ => apply andb_prop in H; destruct H
         | H : (_ && _) = false |- _ => apply andb_false_iff in H
         | H : (_ <=? _) = true |- _ => apply Z.leb_le in H
         | H : (_ <=? _) = false |- _ => apply Z.leb_gt in H
         end.

Lemma masked_address addr : 0 <= Z.land addr GLOBAL_MASK < 0x2000.
Proof.
  change GLOBAL_MASK with (Z.ones 13). rewrite Z.land_ones by lia.
  apply Z.mod_pos_bound. lia.
Qed.

(** The only direction registers in the maps are those of ports A, B and
    C, and the only watchdog registers those of the MC68HC705C8A. *)
Lemma map_write_handlers v addr offset h :
  map_write (variant_map v) addr = Some (offset, h) ->
  match h with
  | W_port_latch => 0 <= offset <= 3
  | W_port_ddr => 0 <= offset <= 2
  | W_ocr => 0 <= offset <= 1
  | W_coprst | W_copcr | W_copr => v = M68HC705C8A
  | _ => True
  end.
Proof.
  destruct v; unfold_maps; split_ifs; intros H; inversion H; subst; range_facts;
    first [exact I | reflexivity | lia].
Qed.

Lemma map_read_handlers v addr offset h :
  map_read (variant_map v) addr = Some (offset, h) ->
  match h with
  | R_port => 0 <= offset <= 3
  | R_port_ddr => 0 <= offset <= 2
  | R_icr | R_ocr => 0 <= offset <= 1
  | R_timer => 0 <= offset <= 3
  | R_copcr => v = M68HC705C8A
  | _ => True
  end.
Proof.
  destruct v; unfold_maps; split_ifs; intros H; inversion H; subst; range_facts;
    first [exact I | reflexivity | lia].
Qed.
Lemma port_outputs_app port tr1 tr2 :
  port_outputs port (tr1 ++ tr2) = port_outputs port tr1 ++ port_outputs port tr2.
Proof. apply omap_app. Qed.

Lemma port_outputs_other port tr e :
  match e with PortWrite p _ _ => p <> port | _ => True end ->
  port_outputs port (tr ++ [e]) = port_outputs port tr.
Proof.
  intros H. rewrite port_outputs_app. destruct e; cbn; rewrite ?app_nil_r; try reflexivity.
  destruct (Z.eqb_spec port0 port); [contradiction | ]. apply app_nil_r.
Qed.

Lemma burn_cycles_port_outputs port count dev :
  port_outputs port (trace (burn_cycles count dev)) = port_outputs port (trace dev)
  /\ ports (burn_cycles count dev) = ports dev.
Proof.
  rewrite burn_cycles_parts. split.
  - unfold run_ncop, run_pcop, run_timer. cbv zeta.
    destruct (timer_stage_compare count dev) as (Ht & _).
    assert (Hr : forall d, trace (raise_timer_irq_if_enabled d) = trace d).
    { intros d. unfold raise_timer_irq_if_enabled. destruct (timer_irq_enabled _); reflexivity. }
    destruct (copcr_pcope _ && _); cbn [cop upd_cop emit trace];
      destruct (Z.shiftl 1 17 <=? _); cbn [cop upd_cop emit trace];
      rewrite ?port_outputs_other by exact I; rewrite Hr, Ht;
      destruct (compare_hit count (timer dev));
      rewrite ?port_outputs_other by exact I; rewrite ?app_nil_r; reflexivity.
  - rewrite (proj2 (proj2 (run_cop_frame _ _))).
    unfold run_timer, raise_timer_irq_if_enabled.
    destruct (timer_irq_enabled _); cbn [ports upd_base];
      apply (proj2 (proj2 (timer_stage_frame _ _))).
Qed.

Lemma interrupt_port_outputs port dev :
  port_outputs port (trace (final (interrupt dev))) = port_outputs port (trace dev).
Proof.
  rewrite interrupt_cases.
  destruct (_ || _); cbn [final]; [reflexivity | ].
  destruct (BIT _ M68HC05_TCAP_LINE); cbn [final].
  - pose proof (serviced_base dev) as HS. cbv zeta in HS.
    destruct HS as (_ & _ & _ & _ & _ & _ & _ & HTr).
    rewrite HTr, (proj1 (burn_cycles_port_outputs port 10 _)).
    cbn [trace emit]. apply port_outputs_other. exact I.
  - rewrite (proj2 (proj2 (proj2 (entered_parts dev)))). apply port_outputs_other. exact I.
Qed.

Lemma land_3_range offset : 0 <= Z.land offset 3 < 4.
Proof.
  change 3 with (Z.ones 2). rewrite Z.land_ones by lia. apply Z.mod_pos_bound. lia.
Qed.

(** A register access other than a direction write to port D keeps port D
    an input port, and drives none of its pins. *)
Lemma perform_port_d dbg a dev :
  match a with Wr_port_ddr offset _ => Z.land offset 3 <> 3 | _ => True end ->
  arr_get 0 (m_port_ddr (ports dev)) 3 = 0 ->
  arr_get 0 (m_port_ddr (ports (snd (perform dbg a dev)))) 3 = 0
  /\ port_outputs 3 (trace (snd (perform dbg a dev))) = port_outputs 3 (trace dev).
Proof.
  intros Ha Hd.
  destruct a; cbn [perform snd];
    try (unfold_handlers; unfold drop_timer_irq_if_idle; cbn [snd];
         split_ifs; split; first [exact Hd | reflexivity]; fail).
  - unfold port_latch_w. change (PORT_COUNT - 1) with 3. cbv zeta.
    pose proof (land_3_range offset) as Hr.
    cbn [ports upd_ports m_port_ddr set_port_latch].
    destruct (negb _) eqn:Hdiff; cbn [ports upd_ports emit trace m_port_ddr set_port_latch];
      (split; [exact Hd | ]); [ | reflexivity].
    apply port_outputs_other. intros Heq. rewrite Heq, Hd, Z.land_0_r in Hdiff.
    discriminate Hdiff.
  - unfold port_ddr_w. change (PORT_COUNT - 1) with 3. cbv zeta.
    pose proof (land_3_range offset) as Hr.
    destruct (negb _); cbn [ports upd_ports emit trace m_port_ddr set_port_ddr];
      [ | split; [exact Hd | reflexivity]].
    split.
    + rewrite arr_get_set_other by lia. exact Hd.
    + apply port_outputs_other. exact Ha.
Qed.

(** The reset of a variant is the common reset, but for the watchdog
    enable of the MC68HC705C8A. *)
Lemma variant_reset_parts v dev :
  ports (variant_reset v dev) = ports (device_reset dev)
  /\ timer (variant_reset v dev) = timer (device_reset dev)
  /\ base (variant_reset v dev) = base_device_reset (base dev)
  /\ trace (variant_reset v dev) = trace dev
  /\ cop (variant_reset v dev)
     = match v with
       | M68HC705C8A =>
           set_ncope (ncope_of set_ncope_rule (rdmem 0xfff1 (base_device_reset (base dev))))
             (cop (device_reset dev))
       | _ => cop (device_reset dev)
       end.
Proof.
  assert (H0 : base (device_reset dev) = base_device_reset (base dev)
               /\ trace (device_reset dev) = trace dev) by (split; reflexivity).
  destruct H0 as [Hb Ht]. unfold variant_reset, m68hc705c8a_device_reset. cbv zeta.
  rewrite <- Hb, <- Ht. generalize (device_reset dev). intros X.
  destruct v; repeat split.
Qed.

Lemma device_reset_port_d dev : arr_get 0 (m_port_ddr (ports (device_reset dev))) 3 = 0.
Proof.
  cbn. unfold fill, arr_get.
  destruct (replicate (length (m_port_ddr (ports dev))) 0 !! Z.to_nat 3) as [x | ] eqn:E;
    [ | reflexivity].
  apply lookup_replicate in E. cbn. apply E.
Qed.

Lemma machine_step_port_d v cb_r s dev :
  arr_get 0 (m_port_ddr (ports dev)) 3 = 0 ->
  arr_get 0 (m_port_ddr (ports (machine_apply v cb_r s dev))) 3 = 0
  /\ port_outputs 3 (trace (machine_apply v cb_r s dev)) = port_outputs 3 (trace dev).
Proof.
  intros Hd. destruct s; cbn [machine_apply].
  - unfold bus_read. cbv zeta.
    destruct (map_read (variant_map v) (Z.land addr GLOBAL_MASK)) as [[offset h] | ];
      [ | split; [exact Hd | reflexivity]].
    destruct h; try (apply perform_port_d; [exact I | exact Hd]).
    split; [exact Hd | reflexivity].
  - unfold bus_write. cbv zeta.
    destruct (map_write (variant_map v) (Z.land addr GLOBAL_MASK)) as [[offset h] | ] eqn:Hm;
      [ | split; [exact Hd | reflexivity]].
    apply map_write_handlers in Hm.
    destruct h; try (apply perform_port_d; [exact I | exact Hd]).
    + apply perform_port_d; [ | exact Hd]. cbv beta iota.
      change 3 with (Z.ones 2) at 1. rewrite Z.land_ones by lia.
      rewrite Z.mod_small by lia. lia.
    + split; [exact Hd | reflexivity].
  - destruct (burn_cycles_port_outputs 3 count dev) as [Ht Hp]. rewrite Ht, Hp.
    split; [exact Hd | reflexivity].
  - destruct (execute_set_input_latches inputnum state dev) as (_ & _ & _ & Ht & _ & Hp).
    rewrite Ht, Hp. split; [exact Hd | reflexivity].
  - rewrite interrupt_port_outputs, (proj1 (interrupt_shape dev)).
    split; [exact Hd | reflexivity].
  - destruct (variant_reset_parts v dev) as (Hp & _ & _ & Ht & _). rewrite Hp, Ht.
    split; [apply device_reset_port_d | reflexivity].
Qed.

(** X19.  None of the three address maps has a direction register for
    port D: the direction registers mapped are those of ports A, B and C.
    So a port D that is all inputs, as every reset leaves it, stays all
    inputs whatever the bus, the input lines, the cycle accounting, the
    interrupt logic and further resets do, and its output callback is never
    invoked: writes to the PORTD latch are stored and drive nothing. *)
Theorem port_d_is_input_only
    (v : variant) (cb_r : Z -> option (Z -> Z)) (ss : list machine_step) (dev dev0 : device) :
  arr_get 0 (m_port_ddr (ports dev)) 3 = 0 ->
  arr_get 0 (m_port_ddr (ports (run_machine v cb_r ss dev))) 3 = 0
  /\ port_outputs 3 (trace (run_machine v cb_r ss dev)) = port_outputs 3 (trace dev)
  /\ arr_get 0 (m_port_ddr (ports (device_reset dev0))) 3 = 0.
Proof.
  intros Hd. split; [ | split].
  - revert dev Hd. induction ss as [ | s ss IH]; intros dev Hd; [exact Hd | ].
    change (run_machine v cb_r (s :: ss) dev)
      with (run_machine v cb_r ss (machine_apply v cb_r s dev)).
    apply IH, (machine_step_port_d v cb_r s dev Hd).
  - revert dev Hd. induction ss as [ | s ss IH]; intros dev Hd; [reflexivity | ].
    change (run_machine v cb_r (s :: ss) dev)
      with (run_machine v cb_r ss (machine_apply v cb_r s dev)).
    destruct (machine_step_port_d v cb_r s dev Hd) as [Hd' Ht].
    rewrite (IH _ Hd'). exact Ht.
  - apply device_reset_port_d.
Qed.
Lemma perform_cop dbg a dev :
  match a with
  | Wr_coprst _ | Rd_copcr | Wr_copcr _ | Wr_copr _ => True
  | _ => cop (snd (perform dbg a dev)) = cop dev
  end.
Proof.
  destruct a; try exact I; simpl; unfold_handlers; unfold drop_timer_irq_if_idle; simpl;
    split_ifs; reflexivity.
Qed.

Lemma bus_access_cop v cb_r s dev :
  v <> M68HC705C8A -> is_bus_access s = true ->
  cop (machine_apply v cb_r s dev) = cop dev.
Proof.
  intros Hv Hs. destruct s; try discriminate Hs; cbn [machine_apply].
  - unfold bus_read. cbv zeta.
    destruct (map_read (variant_map v) (Z.land addr GLOBAL_MASK)) as [[offset h] | ] eqn:Hm;
      [ | reflexivity].
    apply map_read_handlers in Hm.
    destruct h; try contradiction; try reflexivity;
      match goal with |- cop (snd (perform ?d ?a ?x)) = _ => exact (perform_cop d a x) end.
  - unfold bus_write. cbv zeta.
    destruct (map_write (variant_map v) (Z.land addr GLOBAL_MASK)) as [[offset h] | ] eqn:Hm;
      [ | reflexivity].
    apply map_write_handlers in Hm.
    destruct h; try contradiction; try reflexivity;
      match goal with |- cop (snd (perform ?d ?a ?x)) = _ => exact (perform_cop d a x) end.
Qed.

(** X20.  The MC68HC05C4 and MC68HC05C8 maps hold no watchdog register:
    no bus access of theirs, read or write, program or debugger, changes
    the state of either watchdog.  Their counters are driven by the cycle
    accounting alone: what a call of [burn_cycles] leaves in them, and the
    reset pulses it adds, are the same after any run of bus accesses as
    without it. *)
Theorem watchdogs_unreachable_on_c4_c8
    (v : variant) (cb_r : Z -> option (Z -> Z)) (ss : list machine_step)
    (count : Z) (dev : device) :
  v <> M68HC705C8A ->
  Forall (fun s => is_bus_access s = true) ss ->
  0 <= count < 2 ^ 31 ->
  let dev' := run_machine v cb_r ss dev in
  cop dev' = cop dev
  /\ cop (burn_cycles count dev') = cop (burn_cycles count dev)
  /\ (reset_pulses (trace (burn_cycles count dev')) - reset_pulses (trace dev')
      = reset_pulses (trace (burn_cycles count dev)) - reset_pulses (trace dev))%nat.
Proof.
  intros Hv Hall Hc dev'.
  assert (Hcop : cop dev' = cop dev).
  { subst dev'. revert dev. induction Hall as [ | s ss Hs Hrest IH]; intros dev; [reflexivity | ].
    change (run_machine v cb_r (s :: ss) dev)
      with (run_machine v cb_r ss (machine_apply v cb_r s dev)).
    rewrite IH. apply bus_access_cop; assumption. }
  repeat apply conj; [exact Hcop | apply burn_cycles_cop_cong, Hcop | ].
  destruct (burn_cycles_pcop count dev' Hc) as (_ & _ & _ & Hr).
  destruct (burn_cycles_pcop count dev Hc) as (_ & _ & _ & Hr').
  rewrite Hr, Hr', Hcop. lia.
Qed.

Lemma perform_ports_shape dbg a dev :
  wf_ports (ports dev) ->
  wf_ports (ports (snd (perform dbg a dev)))
  /\ m_port_bits (ports (snd (perform dbg a dev))) = m_port_bits (ports dev).
Proof.
  intros (Hb & Hi & Hl & Hd). unfold wf_ports.
  destruct a; simpl; unfold_handlers; unfold drop_timer_irq_if_idle; simpl;
    split_ifs; simpl; unfold arr_set; rewrite ?length_insert; repeat split; assumption.
Qed.

Lemma machine_step_ports_shape v cb_r s dev :
  wf_ports (ports dev) ->
  wf_ports (ports (machine_apply v cb_r s dev))
  /\ m_port_bits (ports (machine_apply v cb_r s dev)) = m_port_bits (ports dev).
Proof.
  intros Hwf. destruct s; cbn [machine_apply].
  - unfold bus_read. cbv zeta.
    destruct (map_read (variant_map v) (Z.land addr GLOBAL_MASK)) as [[offset h] | ];
      [ | split; [exact Hwf | reflexivity]].
    destruct h; try (apply perform_ports_shape; exact Hwf).
    split; [exact Hwf | reflexivity].
  - unfold bus_write. cbv zeta.
    destruct (map_write (variant_map v) (Z.land addr GLOBAL_MASK)) as [[offset h] | ];
      [ | split; [exact Hwf | reflexivity]].
    destruct h; try (apply perform_ports_shape; exact Hwf).
    split; [exact Hwf | reflexivity].
  - rewrite (proj2 (burn_cycles_port_outputs 0 count dev)). split; [exact Hwf | reflexivity].
  - rewrite (proj2 (proj2 (proj2 (proj2 (proj2 (execute_set_input_latches _ _ dev)))))).
    split; [exact Hwf | reflexivity].
  - rewrite (proj1 (interrupt_shape dev)). split; [exact Hwf | reflexivity].
  - rewrite (proj1 (variant_reset_parts v dev)).
    destruct Hwf as (Hb & Hi & Hl & Hd). unfold wf_ports. cbn. unfold fill.
    rewrite length_replicate. repeat split; assumption.
Qed.

(** X22.  Port D as the three variants build it.  Each constructor
    declares bit 6 of port D absent, and the port has no direction register
    in any map, so it reads its pins: with a read callback bound, a read of
    PORTD after any run of bus accesses, cycles, input lines, interrupt
    checks and resets asks the callback for the seven bits that exist and
    returns its answer with bit 6 cleared, whatever was written to the port
    before. *)
Theorem port_d_reads_pins
    (v : variant) (cb_r : Z -> option (Z -> Z)) (f : Z -> Z) (dbg : bool)
    (ss : list machine_step) (dev : device) :
  wf_ports (ports dev) ->
  arr_get 0 (m_port_bits (ports dev)) 3 = 0xbf ->
  arr_get 0 (m_port_ddr (ports dev)) 3 = 0 ->
  cb_r 3 = Some f ->
  let dev' := run_machine v cb_r ss dev in
  fst (bus_read (variant_map v) cb_r dbg 0x0003 dev') = Z.land (u8 (f 0xbf)) 0xbf
  /\ Z.testbit (fst (bus_read (variant_map v) cb_r dbg 0x0003 dev')) 6 = false
  /\ variant_init v
     = Done (upd_ports (set_port_bits_arr [0xff; 0xff; 0xff; 0xbf]) m68hc05_device_init).
Proof.
  intros Hwf Hbits Hddr Hcb dev'.
  assert (Hinv : wf_ports (ports dev')
                 /\ arr_get 0 (m_port_bits (ports dev')) 3 = 0xbf
                 /\ arr_get 0 (m_port_ddr (ports dev')) 3 = 0).
  { subst dev'. revert dev Hwf Hbits Hddr.
    induction ss as [ | s ss IH]; intros dev Hwf Hbits Hddr;
      [split; [exact Hwf | split; assumption] | ].
    change (run_machine v cb_r (s :: ss) dev)
      with (run_machine v cb_r ss (machine_apply v cb_r s dev)).
    destruct (machine_step_ports_shape v cb_r s dev Hwf) as [Hwf' Hb'].
    apply IH; [exact Hwf' | rewrite Hb'; exact Hbits | ].
    apply (machine_step_port_d v cb_r s dev Hddr). }
  clearbody dev'. destruct Hinv as ((Hb & Hi & Hl & Hd) & Hbits' & Hddr').
  assert (Hval : fst (bus_read (variant_map v) cb_r dbg 0x0003 dev')
                 = Z.land (u8 (f 0xbf)) 0xbf).
  { unfold bus_read. change (Z.land 3 GLOBAL_MASK) with 3. cbv zeta.
    assert (Hm : map_read (variant_map v) 3 = Some (3, R_port)) by (destruct v; reflexivity).
    rewrite Hm. change (Z.land 3 (PORT_COUNT - 1)) with 3. rewrite Hcb.
    cbn [perform]. unfold port_r. change (Z.land 3 (PORT_COUNT - 1)) with 3. cbv zeta.
    unfold port_value. cbn [fst ports upd_ports m_port_input m_port_latch m_port_ddr
      set_port_input].
    rewrite arr_get_set by lia. rewrite Hbits', Hddr'.
    change (Z.lnot 0) with (-1). rewrite Z.land_0_r, Z.lor_0_r, Z.land_m1_r.
    change (Z.land (-1) 0xbf) with 0xbf. reflexivity. }
  rewrite Hval. repeat apply conj; [reflexivity | | reflexivity].
  rewrite Z.land_spec. change (Z.testbit 0xbf 6) with false. apply andb_false_r.
Qed.

(** ** The interrupt request of the cycle accounting *)

(** X23.  Cycle accounting requests the timer interrupt and never
    withdraws it: after a call the timer bit of the pending mask is set
    exactly when it was set before or some status flag that is up after the
    call has its enable bit set in TCR; the other pending bits, the
    processor registers and the memory are left as they are.  In
    particular an overflow with TOIE set requests the interrupt in the call
    that wraps the counter. *)
Theorem burn_cycles_requests_interrupt (count n : Z) (dev : device) :
  0 <= M68HC05_TCAP_LINE < 16 ->
  0 <= n < 16 ->
  let dev' := burn_cycles count dev in
  BIT (m_pending_interrupts (base dev')) M68HC05_TCAP_LINE
  = BIT (m_pending_interrupts (base dev)) M68HC05_TCAP_LINE || timer_irq_enabled (timer dev')
  /\ (n <> M68HC05_TCAP_LINE ->
      BIT (m_pending_interrupts (base dev')) n = BIT (m_pending_interrupts (base dev)) n)
  /\ (m_pc (base dev') = m_pc (base dev) /\ m_cc (base dev') = m_cc (base dev)
      /\ m_s (base dev') = m_s (base dev) /\ m_icount (base dev') = m_icount (base dev)
      /\ m_program (base dev') = m_program (base dev))
  /\ (BIT (m_tcr (timer dev)) 5 = true -> flag_set TOF dev' = true ->
      BIT (m_pending_interrupts (base dev')) M68HC05_TCAP_LINE = true).
Proof.
  intros HL Hn dev'. subst dev'.
  assert (Hreq : BIT (m_tcr (timer dev)) 5 = true -> flag_set TOF (burn_cycles count dev) = true ->
                 timer_irq_enabled (timer (burn_cycles count dev)) = true).
  { unfold flag_set, BIT, timer_irq_enabled. cbn [flag_bit].
    rewrite (proj1 (proj2 (burn_cycles_latches count dev))).
    intros He Hf. apply negb_true_iff, Z.eqb_neq. intros Hz.
    assert (Hb : Z.testbit (Z.land (Z.land (m_tcr (timer dev))
                              (m_tsr (timer (burn_cycles count dev)))) 0xe0) 5 = true).
    { rewrite !Z.land_spec, He, Hf. reflexivity. }
    rewrite Hz, Z.bits_0 in Hb. discriminate Hb. }
  rewrite burn_cycles_base.
  destruct (timer_irq_enabled (timer (burn_cycles count dev))).
  - rewrite !pending_set_bit by lia. rewrite Z.eqb_refl, !orb_true_r, andb_true_r.
    replace (M68HC05_TCAP_LINE <? 16) with true by (symmetry; apply Z.ltb_lt; lia).
    repeat apply conj; try reflexivity.
    intros Hne. destruct (Z.eqb_spec n M68HC05_TCAP_LINE); [contradiction | ].
    rewrite orb_false_r. replace (n <? 16) with true by (symmetry; apply Z.ltb_lt; lia).
    reflexivity.
  - rewrite orb_false_r. repeat apply conj; try reflexivity.
    intros He Hf. specialize (Hreq He Hf). discriminate Hreq.
Qed.

(** ** The seen shadow *)

(** Only a program read of TSR marks a flag as seen: after any other step
    a flag is marked seen only if it was before. *)
Lemma step_marks_nothing_seen s dev i :
  marks_nothing_seen s = true ->
  BIT (m_tsr_seen (timer (step_apply s dev))) i = true ->
  BIT (m_tsr_seen (timer dev)) i = true.
Proof.
  intros Hs. destruct s as [dbg a | count | inputnum state | | ]; cbn [step_apply].
  - destruct a, dbg; simpl in Hs; try discriminate Hs; clear Hs;
      simpl; unfold_handlers; simpl; split_ifs; simpl;
      rewrite ?drop_timer_irq_if_idle_timer; simpl; unfold BIT;
      rewrite ?Z.land_spec; intros H; try exact H;
      apply andb_prop in H; exact (proj1 H).
  - rewrite (proj1 (proj2 (proj2 (burn_cycles_latches count dev)))). intros H; exact H.
  - rewrite (proj1 (proj2 (proj1 (execute_set_input_latches inputnum state dev)))).
    intros H; exact H.
  - destruct (interrupt_shape dev) as (_ & [(E & _) | (E & _)]); cbv zeta in E; rewrite E;
      [ | rewrite (proj1 (proj2 (proj2 (burn_cycles_latches 10 dev))))]; intros H; exact H.
  - unfold BIT. cbn. rewrite Z.bits_0. discriminate.
Qed.

Lemma run_marks_nothing_seen ss : forall dev i,
  Forall (fun s => marks_nothing_seen s = true) ss ->
  BIT (m_tsr_seen (timer (run_steps ss dev))) i = true ->
  BIT (m_tsr_seen (timer dev)) i = true.
Proof.
  induction ss as [ | s ss IH]; intros dev i Hall H; [exact H | ].
  inversion Hall as [ | ? ? Hs Hrest]; subst.
  change (run_steps (s :: ss) dev) with (run_steps ss (step_apply s dev)) in H.
  apply (step_marks_nothing_seen s dev i Hs), (IH _ i Hrest), H.
Qed.

(** The access paired with a flag takes the seen mark of the flag away,
    whether or not it found the flag marked. *)
Lemma paired_access_unmarks f a dev :
  paired_low f a = true -> flag_seen f (snd (perform false a dev)) = false.
Proof.
  destruct (seen_bit_cleared (m_tsr_seen (timer dev))) as (C7 & C6 & C5).
  unfold flag_seen.
  destruct f, a; cbn [paired_low flag_bit]; try discriminate; intros Hlow;
    [ | | | apply andb_prop in Hlow; destruct Hlow as [Hlow Halt]; apply negb_true_iff in Halt ];
    simpl; unfold icr_r, ocr_r, ocr_w, timer_r; simpl; rewrite ?Hlow, ?Halt; simpl.
  all: match goal with
       | |- context [if BIT (m_tsr_seen (timer ?d)) ?n then _ else _] =>
           is_var d; destruct (BIT (m_tsr_seen (timer d)) n) eqn:Hseen
       end;
    simpl; rewrite ?drop_timer_irq_if_idle_timer; simpl;
    first [assumption | exact Hseen].
Qed.

(** C2.  A program read of TSR returns the status byte, keeps every flag
    and only copies the flags into the seen shadow.  Across any register
    access, program or debugger, a flag that was set is found clear exactly
    when the access is a program access to the low register paired with
    that flag (ICRL, OCRL, TRL) made while the flag is marked seen; after a
    status read the paired access leaves the flag clear; and repeating the
    paired access changes nothing further.  Cycle accounting, input line
    changes, interrupt service and reset clear no flag either.  The paired
    access takes the seen mark away, and nothing but a program read of TSR
    puts it back: whatever happens after the paired access, short of such a
    read, the flag is not marked seen, and a further paired access finds a
    flag raised meanwhile and leaves it set. *)
Theorem tsr_read_to_clear_protocol
    (f : status_flag) (debugger_access : bool) (a : access) (dev : device) :
  (fst (tsr_r false dev) = m_tsr (timer dev)
   /\ snd (tsr_r false dev) = upd_timer (set_tsr_seen (m_tsr (timer dev))) dev
   /\ flag_set f (snd (tsr_r false dev)) = flag_set f dev
   /\ flag_seen f (snd (tsr_r false dev)) = flag_set f dev)
  /\ ((flag_set f dev = true /\ flag_set f (snd (perform debugger_access a dev)) = false)
      <-> (flag_set f dev = true /\ debugger_access = false
           /\ paired_low f a = true /\ flag_seen f dev = true))
  /\ (paired_low f a = true ->
      flag_set f (snd (perform false a (snd (tsr_r false dev)))) = false)
  /\ (paired_low f a = true ->
      snd (perform false a (snd (perform false a dev))) = snd (perform false a dev))
  /\ (flag_set f dev = true ->
      (forall count, flag_set f (burn_cycles count dev) = true)
      /\ (forall inputnum state, flag_set f (execute_set_input inputnum state dev) = true)
      /\ flag_set f (final (interrupt dev)) = true
      /\ flag_set f (device_reset dev) = true)
  /\ (paired_low f a = true -> flag_seen f (snd (perform false a dev)) = false)
  /\ (forall ss, Forall (fun s => marks_nothing_seen s = true) ss ->
        (flag_seen f (run_steps ss dev) = true -> flag_seen f dev = true)
        /\ (paired_low f a = true ->
            let later := run_steps ss (snd (perform false a dev)) in
            flag_seen f later = false
            /\ flag_set f (snd (perform false a later)) = flag_set f later)).
Proof.
  split; [repeat split | split; [apply flag_cleared_exactly | split; [ | split; [ | split]]]];
    [ | | apply flags_survive | ].
  - intros Hlow.
    destruct (flag_set f (snd (tsr_r false dev))) eqn:Hset.
    + apply (flag_cleared_exactly f false a (snd (tsr_r false dev))).
      repeat split; try assumption.
    + apply not_true_is_false. intros Hafter. apply not_true_iff_false in Hset.
      apply Hset. revert Hafter. unfold flag_set. rewrite perform_tsr.
      apply tsr_after_monotone.
  - apply paired_access_idempotent.
  - split; [apply paired_access_unmarks | ].
    intros ss Hall. split; [apply run_marks_nothing_seen, Hall | ].
    intros Hlow later.
    assert (Hunseen : flag_seen f later = false).
    { apply not_true_is_false. intros Hseen.
      apply (run_marks_nothing_seen ss _ _ Hall) in Hseen.
      pose proof (paired_access_unmarks f a dev Hlow) as Hun. unfold flag_seen in Hun.
      rewrite Hun in Hseen. discriminate Hseen. }
    split; [exact Hunseen | ].
    destruct (flag_set f later) eqn:Hset.
    + destruct (flag_set f (snd (perform false a later))) eqn:Hafter; [reflexivity | ].
      destruct (proj1 (flag_cleared_exactly f false a later) (conj Hset Hafter))
        as (_ & _ & _ & Hseen).
      rewrite Hunseen in Hseen. discriminate Hseen.
    + apply not_true_is_false. intros Hafter.
      revert Hafter. unfold flag_set in *. rewrite perform_tsr. intros Hafter.
      apply tsr_after_monotone in Hafter. rewrite Hset in Hafter. discriminate Hafter.
Qed.

End M68HC05.

(** * Worked examples *)

Lemma tsr_read_to_clear_protocol_witness :
  let dev := upd_timer (set_tsr 0x40) m68hc05_device_init in
  (flag_set OCF (snd (tsr_r false dev)) = true
   /\ flag_set OCF (snd (perform example_tcap_line false (Rd_ocr 1) (snd (tsr_r false dev)))) = false)
  /\ (let armed := snd (tsr_r false (upd_timer (set_ocr 0xfffe) dev)) in
      let cleared := snd (perform example_tcap_line false (Rd_ocr 1) armed) in
      let later := run_steps example_tcap_line example_int_mask example_base_reset
                     [Cycles 64] cleared in
      flag_set OCF cleared = false
      /\ flag_set OCF later = true
      /\ flag_seen OCF later = false
      /\ flag_set OCF (snd (perform example_tcap_line false (Rd_ocr 1) later)) = true).
Proof.
  intros dev. split.
  - split; [reflexivity | ].
    exact (proj1 (proj2 (proj2 (tsr_read_to_clear_protocol example_tcap_line example_int_mask
             example_base_reset OCF false (Rd_ocr 1) dev))) eq_refl).
  - intros armed cleared later.
    pose proof (tsr_read_to_clear_protocol example_tcap_line example_int_mask
                  example_base_reset OCF false (Rd_ocr 1) armed) as H.
    destruct H as (_ & _ & _ & _ & _ & _ & H).
    assert (Hss : Forall (fun s => marks_nothing_seen s = true) [Cycles 64])
      by (repeat constructor).
    destruct (H [Cycles 64] Hss) as [_ H2]. specialize (H2 eq_refl). cbv zeta in H2.
    fold cleared in H2. fold later in H2. destruct H2 as [Hseen Hkeep].
    assert (Hl : flag_set OCF later = true) by (vm_compute; reflexivity).
    split; [vm_compute; reflexivity | ].
    split; [exact Hl | ]. split; [exact Hseen | ].
    rewrite Hkeep. exact Hl.
Defined.

Lemma pcop_fires_at_threshold_witness :
  let dev := upd_cop (set_copcr 0x04) m68hc05_device_init in
  let fed := run_cycles example_tcap_line [0x4000; 0x3fff] dev in
  copcr_copf (cop fed) = false
  /\ reset_pulses (trace fed) = reset_pulses (trace dev)
  /\ copcr_copf (cop (burn_cycles example_tcap_line 1 fed)) = true
  /\ reset_pulses (trace (burn_cycles example_tcap_line 1 fed)) = S (reset_pulses (trace dev)).
Proof.
  intros dev fed.
  apply (pcop_fires_at_threshold example_tcap_line [0x4000; 0x3fff] 1 dev);
    try reflexivity; try (repeat constructor; lia); simpl; lia.
Defined.

(** C4 as stated fails with timeout field 0: 2^15 - 1 cycles are
    accounted, the 0x55/0xAA sequence is written and accepted, and the very
    next cycle fires the watchdog. *)
Lemma pcop_fires_after_clear_sequence :
  let dev := upd_cop (set_copcr 0x04) m68hc05_device_init in
  let fed := coprst_w 0xaa (coprst_w 0x55 (burn_cycles example_tcap_line (2 ^ 15 - 1) dev)) in
  copcr_copf (cop fed) = false
  /\ m_coprst (cop fed) = 0xaa
  /\ copcr_copf (cop (burn_cycles example_tcap_line 1 fed)) = true
  /\ reset_pulses (trace (burn_cycles example_tcap_line 1 fed)) = 1%nat.
Proof. vm_compute. repeat split. Qed.

Lemma timer_counts_every_16_cycles_witness :
  let dev := upd_timer (set_counter 0xfffe) m68hc05_device_init in
  (m_prescaler (timer (run_cycles example_tcap_line [4] dev)) = 4
   /\ m_counter (timer (run_cycles example_tcap_line [4] dev)) = 0xfffe
   /\ flag_set TOF (run_cycles example_tcap_line [4] dev) = false)
  /\ (m_prescaler (timer (run_cycles example_tcap_line [4; 12; 10; 6] dev)) = 0
      /\ m_counter (timer (run_cycles example_tcap_line [4; 12; 10; 6] dev)) = 0x0000
      /\ flag_set TOF (run_cycles example_tcap_line [4; 12; 10; 6] dev) = true).
Proof.
  intros dev. split.
  - apply (timer_counts_every_16_cycles example_tcap_line [4] dev);
      try (repeat constructor; lia); simpl; lia.
  - apply (timer_counts_every_16_cycles example_tcap_line [4; 12; 10; 6] dev);
      try (repeat constructor; lia); simpl; lia.
Defined.


Lemma interrupt_service_witness :
  let dev := example_pending 0x03 in
  m_pc (base (final (interrupt example_tcap_line example_int_mask dev))) = 0x1234
  /\ rdmem 0xff (base (final (interrupt example_tcap_line example_int_mask dev))) = 0x23
  /\ rdmem 0xfe (base (final (interrupt example_tcap_line example_int_mask dev))) = 0x01
  /\ m_s (base (final (interrupt example_tcap_line example_int_mask dev))) = 0xfa
  /\ m_cc (base (final (interrupt example_tcap_line example_int_mask dev))) = IFLAG.
Proof.
  intros dev.
  assert (Hwin : in_stack_window (m_s (base dev))) by (vm_compute; split; discriminate).
  pose proof (interrupt_service example_tcap_line example_int_mask dev Hwin) as H.
  cbv zeta in H.
  change ((Z.land (m_pending_interrupts (base dev)) example_int_mask =? 0)
          || negb (Z.land (m_cc (base dev)) IFLAG =? 0)) with false in H.
  change (BIT (m_pending_interrupts (base dev)) example_tcap_line) with true in H.
  cbv iota in H.
  destruct H as ((R0 & R1 & _ & _ & _ & RS) & RC & _ & _ & RP & _).
  repeat split; assumption.
Defined.

(** C6 as stated fails on the priority: with the external line and the
    timer both pending and unmasked, PC is loaded from the timer vector,
    not from the external interrupt vector; and with the external line
    alone pending the service ends in the fatal error. *)
Lemma interrupt_takes_timer_vector :
  m_pc (base (final (interrupt example_tcap_line example_int_mask (example_pending 0x03))))
    = rm16 M68HC05_VECTOR_TIMER (base (example_pending 0x03))
  /\ m_pc (base (final (interrupt example_tcap_line example_int_mask (example_pending 0x03))))
     <> rm16 M68HC05_VECTOR_INT (base (example_pending 0x03))
  /\ is_fatal (interrupt example_tcap_line example_int_mask (example_pending 0x01)) = true.
Proof. vm_compute. repeat split. discriminate. Qed.

Lemma pending_bits_lifecycle_witness :
  timer_pending_sound example_tcap_line
    (final (interrupt example_tcap_line example_int_mask (example_pending 0x02)))
  /\ BIT (m_pending_interrupts
            (base (final (interrupt example_tcap_line example_int_mask (example_pending 0x02)))))
         example_tcap_line = true.
Proof.
  assert (Hs : timer_pending_sound example_tcap_line (example_pending 0x02))
    by (intros _; reflexivity).
  pose proof (pending_bits_lifecycle example_tcap_line example_int_mask
                (example_pending 0x02) Hs) as [(_ & _ & _ & Hsound) Hkeep].
  split; [exact Hsound | ].
  assert (Hn : 0 <= example_tcap_line < 16) by (split; [discriminate | reflexivity]).
  assert (Hbit : BIT (m_pending_interrupts (base (example_pending 0x02))) example_tcap_line
                 = true) by reflexivity.
  destruct (Hkeep example_tcap_line Hn Hbit) as [H _]. exact H.
Defined.

(** C7 as stated fails for external lines: the line is asserted, which
    sets its pending bit, and released again, and the bit is still set; the
    interrupt it asks for is never serviced, the attempt ends in the fatal
    error with the bit still set. *)
Lemma external_pending_bit_stays :
  let asserted := execute_set_input example_tcap_line example_irq_line ASSERT_LINE
                    m68hc05_device_init in
  let released := execute_set_input example_tcap_line example_irq_line CLEAR_LINE asserted in
  BIT (m_pending_interrupts (base asserted)) example_irq_line = true
  /\ arr_get 0 (m_irq_state (base released)) example_irq_line = CLEAR_LINE
  /\ BIT (m_pending_interrupts (base released)) example_irq_line = true
  /\ is_fatal (interrupt example_tcap_line example_int_mask released) = true
  /\ BIT (m_pending_interrupts
            (base (final (interrupt example_tcap_line example_int_mask released))))
         example_irq_line = true.
Proof. vm_compute. repeat split. Qed.

Lemma device_reset_effect_witness :
  let dev := upd_timer (fun t => set_tcr 0xe3 (set_tsr 0xe0 t))
               (upd_cop (set_copcr 0x1f)
                  (upd_ports (set_port_ddr [0x01; 0x02; 0x03; 0x04]) m68hc05_device_init)) in
  device_reset example_base_reset dev =
  mk_device false false
    (mk_ports [0xff; 0xff; 0xff; 0xff] [0xff; 0xff; 0xff; 0xff]
              [0xff; 0xff; 0xff; 0xff] [0x00; 0x00; 0x00; 0x00])
    (mk_timer false 0x02 0xe0 0x00 0 0xfffc 0x0000 0x0000 false false
              [0xfc; 0xfc] [false; false])
    (mk_cop 0 0 0x00 0x10 0)
    (base m68hc05_device_init)
    []
  /\ (let fused := upd_base (set_program (fun a => if a =? 0x1ff1 then 0x03 else 0x00)) dev in
      m_ncope (cop fused) = 0
      /\ m_ncope (cop (device_reset example_base_reset fused)) = 0
      /\ m_ncope (cop (m68hc705c8a_device_reset example_base_reset example_ncope_rule fused)) = 1).
Proof.
  intros dev. split.
  - exact (proj1 (device_reset_effect example_base_reset example_ncope_rule dev
                    eq_refl eq_refl eq_refl)).
  - intros fused.
    pose proof (device_reset_effect example_base_reset example_ncope_rule fused
                  eq_refl eq_refl eq_refl) as [H1 [H2 _]].
    rewrite H1, H2. repeat split.
Defined.

(** C10 as stated fails on the low-byte buffers, which are not in its
    list of reinitialised state: reset overwrites them with 0xFC. *)
Lemma device_reset_reloads_trl_buf :
  let dev := upd_timer (set_trl_buf [0x12; 0x34]) m68hc05_device_init in
  m_trl_buf (timer dev) = [0x12; 0x34]
  /\ m_trl_buf (timer (device_reset example_base_reset dev)) = [0xfc; 0xfc].
Proof. split; reflexivity. Qed.

(** Between the read of ICRH and the read of ICRL an edge on the capture
    line, which would capture the counter, leaves the capture register
    alone. *)
Lemma icr_read_not_torn_witness :
  let dev := upd_timer (fun t => set_tcr 0x02 (set_icr 0x1234 t)) m68hc05_device_init in
  let steps := [Cycles 100; Line example_tcap_line 1; Access true (Rd_icr 1);
                Line example_tcap_line 0] in
  fst (icr_r example_tcap_line false 0 dev) * 256
  + fst (icr_r example_tcap_line false 1
           (run_steps example_tcap_line example_int_mask example_base_reset steps
              (snd (icr_r example_tcap_line false 0 dev))))
  = 0x1234.
Proof.
  intros dev steps.
  assert (Hall : Forall (fun s => leaves_capture_latch s = true) steps)
    by (repeat constructor).
  assert (Hx : 0 <= m_icr (timer dev) < 2 ^ 16) by (split; [discriminate | reflexivity]).
  pose proof (icr_read_not_torn example_tcap_line example_int_mask example_base_reset
                steps dev Hall Hx) as H.
  cbv zeta in H. destruct H as [H _]. exact H.
Defined.

(** The counter is at 0xFFFC when TRH is read; 64 cycles later it has
    wrapped to 0x0000, the alternate pair has been read in between, and TRL
    still completes the value 0xFFFC. *)
Lemma timer_read_not_torn_witness :
  let steps := [Cycles 64; Access false (Rd_timer 2); Access false (Rd_timer 3)] in
  let run := run_steps example_tcap_line example_int_mask example_base_reset in
  let first := snd (timer_r example_tcap_line false 0 m68hc05_device_init) in
  (fst (timer_r example_tcap_line false 0 m68hc05_device_init) * 256
   + fst (timer_r example_tcap_line false 1 (run steps first)) = 0xfffc)
  /\ (m_counter (timer (run [Cycles 64] first)) = 0x0000
      /\ fst (timer_r example_tcap_line false 0 (run [Cycles 64] first)) = 0x00
      /\ fst (timer_r example_tcap_line false 1
                (run [] (snd (timer_r example_tcap_line false 0 (run [Cycles 64] first)))))
         = 0xfc).
Proof.
  intros steps run first. split.
  - assert (Hall : Forall (fun s => leaves_counter_latch false s = true) steps)
      by (repeat constructor).
    assert (Hx : 0 <= m_counter (timer m68hc05_device_init) < 2 ^ 16)
      by (split; [discriminate | reflexivity]).
    pose proof (timer_read_not_torn example_tcap_line example_int_mask example_base_reset
                  false steps m68hc05_device_init) as H.
    cbv zeta in H. cbv iota in H.
    destruct (H Hall eq_refl eq_refl) as (_ & _ & H1 & _). exact (H1 eq_refl Hx).
  - assert (Hall : Forall (fun s => leaves_counter_latch false s = true) (@nil step))
      by constructor.
    pose proof (timer_read_not_torn example_tcap_line example_int_mask example_base_reset
                  false [] (run [Cycles 64] first)) as H.
    cbv zeta in H. cbv iota in H.
    destruct (H Hall eq_refl eq_refl) as (H0 & H1 & _).
    split; [reflexivity | split].
    + etransitivity; [exact H0 | reflexivity].
    + etransitivity; [exact H1 | reflexivity].
Defined.

(** With the compare register at 0x0010 and the counter at zero, 4096
    cycles take the counter past the compare value; after a write of OCRH
    they drive nothing on the compare output. *)
Lemma compare_inhibited_between_halves_witness :
  let dev := upd_timer (fun t => set_ocr 0x0010 (set_counter 0 t)) m68hc05_device_init in
  tcmp_writes (trace (run_steps example_tcap_line example_int_mask example_base_reset
                        [Cycles 4096] (ocr_w example_tcap_line false 0 0x00 dev)))
  = tcmp_writes (trace dev).
Proof.
  intros dev.
  assert (Hall : Forall (fun s => leaves_compare_latch s = true) [Cycles 4096])
    by (repeat constructor).
  pose proof (compare_inhibited_between_halves example_tcap_line example_int_mask
                example_base_reset 0x00 0x00 [Cycles 4096] dev Hall) as H.
  cbv zeta in H. destruct H as [H _]. exact H.
Defined.

Lemma ocr_write_read_round_trip_witness :
  m_ocr (timer (ocr_w example_tcap_line false 1 0x34
                  (ocr_w example_tcap_line false 0 0x12 m68hc05_device_init))) = 0x1234.
Proof.
  assert (Hhi : 0 <= 0x12 < 256) by lia.
  assert (Hlo : 0 <= 0x34 < 256) by lia.
  pose proof (ocr_write_read_round_trip example_tcap_line false false 0x12 0x34
                m68hc05_device_init Hhi Hlo) as H.
  cbv zeta in H. destruct H as [H _]. exact H.
Defined.

(** Without the inhibit the same 4096 cycles raise OCF and drive the
    compare output once, low as OLVL is clear. *)
Lemma compare_match_exactly_witness :
  let dev := upd_timer (fun t => set_ocr 0x0010 (set_counter 0 t)) m68hc05_device_init in
  flag_set OCF (burn_cycles example_tcap_line 4096 dev) = true
  /\ tcmp_writes (trace (burn_cycles example_tcap_line 4096 dev)) = [0].
Proof.
  intros dev.
  assert (Hc : 0 <= 4096 < 2 ^ 32 - 16) by lia.
  assert (Hp : 0 <= m_prescaler (timer dev) < 16) by (split; [discriminate | reflexivity]).
  assert (Hn : 0 <= m_counter (timer dev) < 2 ^ 16) by (split; [discriminate | reflexivity]).
  pose proof (compare_match_exactly example_tcap_line 4096 dev Hc Hp Hn) as H.
  cbv zeta in H. destruct H as (H1 & H2 & _). rewrite H1, H2. split; reflexivity.
Defined.

(** Setting TOIE while the overflow flag is up requests the timer
    interrupt with the write. *)
Lemma tcr_w_effect_witness :
  let dev := upd_timer (set_tsr 0x20) m68hc05_device_init in
  BIT (m_pending_interrupts (base (tcr_w example_tcap_line 0x20 dev))) example_tcap_line
  = true.
Proof.
  intros dev.
  assert (HL : 0 <= example_tcap_line < 16) by (split; [discriminate | reflexivity]).
  pose proof (tcr_w_effect example_tcap_line 0x20 dev HL) as H.
  cbv zeta in H. destruct H as (_ & _ & H & _). rewrite H. reflexivity.
Defined.

(** A rising edge with IEDG set captures the counter. *)
Lemma input_capture_on_selected_edge_witness :
  let dev := upd_timer (set_tcr 0x82) m68hc05_device_init in
  m_icr (timer (execute_set_input example_tcap_line example_tcap_line 1 dev)) = 0xfffc
  /\ flag_set ICF (execute_set_input example_tcap_line example_tcap_line 1 dev) = true.
Proof.
  intros dev.
  assert (HL : 0 <= example_tcap_line < 16) by (split; [discriminate | reflexivity]).
  pose proof (input_capture_on_selected_edge example_tcap_line 1 dev HL) as H.
  cbv zeta in H. destruct H as (_ & H1 & H2 & _). rewrite H1, H2. split; reflexivity.
Defined.

(** Port A with the low nibble as output: a read takes bit 0 from the
    latch and bit 4 from the pins. *)
Lemma port_r_bits_witness :
  let dev := upd_ports (fun p => set_port_ddr [0x0f; 0; 0; 0]
                                   (set_port_latch [0x05; 0xff; 0xff; 0xff] p))
               m68hc05_device_init in
  Z.testbit (fst (port_r (Some (fun _ => 0xa0)) 0 dev)) 0 = true
  /\ Z.testbit (fst (port_r (Some (fun _ => 0xa0)) 0 dev)) 4 = false.
Proof.
  intros dev.
  assert (Ho : 0 <= 0 < 4) by lia.
  assert (Hwf : wf_ports (ports dev)) by (repeat split).
  assert (H0 : 0 <= 0) by lia.
  assert (H4 : 0 <= 4) by lia.
  pose proof (port_r_bits (Some (fun _ => 0xa0)) 0 0 dev Ho Hwf H0) as Ha.
  pose proof (port_r_bits (Some (fun _ => 0xa0)) 0 4 dev Ho Hwf H4) as Hb.
  cbv zeta in Ha, Hb. destruct Ha as [Ha _], Hb as [Hb _].
  rewrite Ha, Hb. split; reflexivity.
Defined.

Lemma port_access_isolated_witness :
  pins_of 1 (ports (port_ddr_w 0 0xff m68hc05_device_init))
  = pins_of 1 (ports m68hc05_device_init).
Proof.
  assert (Ho : 0 <= 0 < 4) by lia.
  assert (Hother : 0 <= 1 < 4) by lia.
  assert (Hne : 1 <> 0) by discriminate.
  pose proof (port_access_isolated None 0 1 0xff m68hc05_device_init Ho Hother Hne) as H.
  cbv zeta in H. cbv beta in H. destruct H as (_ & _ & H & _). exact H.
Defined.
(** The non-programmable watchdog, fed and then left alone: 2^17 - 1
    cycles pass without a reset, the next cycle pulses it. *)
Lemma ncop_feed_and_fire_witness :
  let dev := upd_cop (set_ncop_cnt 5) m68hc05_device_init in
  let fed := copr_w 0 dev in
  reset_pulses (trace (run_cycles example_tcap_line [2 ^ 17 - 1] fed)) = 0%nat
  /\ reset_pulses (trace (burn_cycles example_tcap_line 1
                            (run_cycles example_tcap_line [2 ^ 17 - 1] fed))) = 1%nat.
Proof.
  intros dev fed.
  assert (Hcs : Forall (fun c => 0 <= c < 2 ^ 31) [2 ^ 17 - 1]) by (repeat constructor; lia).
  assert (Hc : 0 <= 1 < 2 ^ 31) by lia.
  assert (Hp : 0 <= m_pcop_cnt (cop dev) < 2 ^ 21) by (split; [discriminate | reflexivity]).
  assert (Htot : total [2 ^ 17 - 1] < 2 ^ 17) by reflexivity.
  pose proof (ncop_feed_and_fire example_tcap_line 0 1 0 [2 ^ 17 - 1] dev
                Hcs Hc Hp eq_refl Htot) as H.
  cbv zeta in H. destruct H as (_ & H & _).
  destruct (H eq_refl) as [H1 H2]. split; [exact H1 | ].
  apply H2. discriminate.
Defined.

(** With the timeout field at 1 the watchdog fires at 2^17: after the
    sequence, 2^17 - 2^15 cycles do not fire it, from a counter that was one
    short of firing. *)
Lemma pcop_clear_sequence_postpones_witness :
  let dev := upd_cop (fun c => set_copcr 0x05 (set_pcop_cnt 0x1ffff c)) m68hc05_device_init in
  copcr_copf (cop (run_cycles example_tcap_line [2 ^ 17 - 2 ^ 15]
                     (coprst_writes ([0x55] ++ [] ++ [0xaa]) dev))) = false.
Proof.
  intros dev.
  assert (Hcs : Forall (fun c => 0 <= c < 2 ^ 31) [2 ^ 17 - 2 ^ 15])
    by (repeat constructor; lia).
  assert (Hp : 0 <= m_pcop_cnt (cop dev) < 2 ^ 21) by (split; [discriminate | reflexivity]).
  assert (Hn : 0 <= m_ncop_cnt (cop dev) < 2 ^ 17) by (split; [discriminate | reflexivity]).
  assert (Htot : total [2 ^ 17 - 2 ^ 15] <= 2 ^ (15 + 2 * copcr_cm (cop dev)) - 2 ^ 15)
    by discriminate.
  assert (Ho : Forall (fun byte => byte <> 0x55 /\ byte <> 0xaa) []) by constructor.
  pose proof (pcop_clear_sequence_postpones example_tcap_line [] [2 ^ 17 - 2 ^ 15] dev
                Ho Hcs Hp Hn Htot) as H.
  cbv zeta in H. destruct H as (_ & _ & H). exact H.
Defined.

Lemma cycles_clocks_round_trip_witness :
  execute_clocks_to_cycles (execute_cycles_to_clocks 5) = 5
  /\ 7 <= execute_cycles_to_clocks (execute_clocks_to_cycles 7) <= 8.
Proof.
  assert (Hc : 0 <= 5 < 2 ^ 63) by lia.
  assert (Hk : 0 <= 7 < 2 ^ 64 - 1) by lia.
  destruct (cycles_clocks_round_trip 5 7 Hc Hk) as (H1 & H2 & _).
  split; [exact H1 | exact H2].
Defined.

(** The counter overflows and the capture line rises, with no interrupt
    enabled: the flags go up, the timer bit of the pending mask does not. *)
Lemma timer_interrupt_needs_enable_witness :
  let steps := [Cycles 64; Line example_tcap_line 1; Access false Rd_tsr; Service] in
  BIT (m_pending_interrupts
         (base (run_steps example_tcap_line example_int_mask example_base_reset steps
                  (upd_timer (set_tcr 0x02) m68hc05_device_init))))
      example_tcap_line = false.
Proof.
  intros steps.
  assert (Hall : Forall (fun s => leaves_tcr s = true) steps) by (repeat constructor).
  pose proof (timer_interrupt_needs_enable example_tcap_line example_int_mask
                example_base_reset steps (upd_timer (set_tcr 0x02) m68hc05_device_init)
                Hall eq_refl eq_refl) as H.
  destruct H as [H _]. exact H.
Defined.

Lemma start_then_reset_is_power_on_witness :
  let dev := upd_timer (fun t => set_tsr 0xe0 (set_icr 0x1234 (set_tcr 0xe3 t)))
               (upd_cop (fun c => set_copcr 0x1f (set_pcop_cnt 77 c))
                  (upd_ports (set_port_latch [1; 2; 3; 4])
                     (upd_base (set_program (fun a => if a =? 0x1ff1 then 0x03 else 0x00))
                        m68hc05_device_init))) in
  peripherals (device_reset example_base_reset (device_start example_base_reset dev))
  = peripherals m68hc05_device_init
  /\ peripherals (variant_reset example_base_reset example_ncope_rule M68HC05C8
                    (device_start example_base_reset dev))
     = peripherals m68hc05_device_init
  /\ peripherals (variant_reset example_base_reset example_ncope_rule M68HC705C8A
                    (device_start example_base_reset dev))
     = (ports m68hc05_device_init, timer m68hc05_device_init,
        set_ncope 1 (cop m68hc05_device_init)).
Proof.
  intros dev.
  assert (Hwf : wf_ports (ports dev)) by (repeat split).
  split; [ | split].
  - pose proof (start_then_reset_is_power_on example_base_reset example_base_reset
                  example_ncope_rule M68HC05C4 dev Hwf eq_refl eq_refl) as H.
    cbv zeta in H. destruct H as [[H _] _]. exact H.
  - pose proof (start_then_reset_is_power_on example_base_reset example_base_reset
                  example_ncope_rule M68HC05C8 dev Hwf eq_refl eq_refl) as H.
    cbv zeta in H. destruct H as (_ & H & _). exact H.
  - pose proof (start_then_reset_is_power_on example_base_reset example_base_reset
                  example_ncope_rule M68HC705C8A dev Hwf eq_refl eq_refl) as H.
    cbv zeta in H. destruct H as (_ & H & _). exact H.
Defined.

(** Writes to 0x0007, where a direction register of port D would be, to
    the PORTD latch and to DDRC: nothing is driven on port D. *)
Lemma port_d_is_input_only_witness :
  let steps := [Bus_write false 0x0007 0xff; Bus_write false 0x0003 0x00;
                Bus_write false 0x0006 0xff; Bus_write false 0x0002 0x00] in
  port_outputs 3
    (trace (run_machine example_tcap_line example_int_mask example_base_reset example_ncope_rule
              M68HC05C4 (fun _ => None) steps m68hc05_device_init)) = []
  /\ port_outputs 2
       (trace (run_machine example_tcap_line example_int_mask example_base_reset example_ncope_rule
                 M68HC05C4 (fun _ => None) steps m68hc05_device_init)) = [0xff; 0x00].
Proof.
  intros steps. split; [ | reflexivity].
  pose proof (port_d_is_input_only example_tcap_line example_int_mask example_base_reset example_ncope_rule
                M68HC05C4 (fun _ => None) steps m68hc05_device_init m68hc05_device_init
                eq_refl) as H.
  destruct H as (_ & H & _). exact H.
Defined.

(** On the MC68HC05C4 the addresses of COPRST, COPCR and COPR reach no
    watchdog register. *)
Lemma watchdogs_unreachable_on_c4_c8_witness :
  let steps := [Bus_write false 0x001d 0x55; Bus_write false 0x001d 0xaa;
                Bus_write false 0x001e 0x04; Bus_write false 0x1ff0 0x00;
                Bus_read false 0x001e] in
  cop (run_machine example_tcap_line example_int_mask example_base_reset example_ncope_rule
         M68HC05C4 (fun _ => None) steps
         (upd_cop (set_ncop_cnt 100) m68hc05_device_init))
  = cop (upd_cop (set_ncop_cnt 100) m68hc05_device_init).
Proof.
  intros steps.
  assert (Hv : M68HC05C4 <> M68HC705C8A) by discriminate.
  assert (Hall : Forall (fun s => is_bus_access s = true) steps) by (repeat constructor).
  assert (Hc : 0 <= 10 < 2 ^ 31) by lia.
  pose proof (watchdogs_unreachable_on_c4_c8 example_tcap_line example_int_mask
                example_base_reset example_ncope_rule M68HC05C4 (fun _ => None) steps 10
                (upd_cop (set_ncop_cnt 100) m68hc05_device_init) Hv Hall Hc) as H.
  cbv zeta in H. destruct H as [H _]. exact H.
Defined.

(** The MC68HC705C8A as built, with all pins of port D high and 0xFF
    written to its latch: PORTD reads 0xBF. *)
Lemma port_d_reads_pins_witness :
  let dev := final (variant_init M68HC705C8A) in
  fst (bus_read example_tcap_line c8a_map (fun _ => Some (fun _ => 0xff)) false 0x0003
         (run_machine example_tcap_line example_int_mask example_base_reset example_ncope_rule
            M68HC705C8A (fun _ => Some (fun _ => 0xff)) [Bus_write false 0x0003 0xff] dev))
  = 0xbf.
Proof.
  intros dev.
  assert (Hwf : wf_ports (ports dev)) by (repeat split).
  pose proof (port_d_reads_pins example_tcap_line example_int_mask example_base_reset example_ncope_rule
                M68HC705C8A (fun _ => Some (fun _ => 0xff)) (fun _ => 0xff) false
                [Bus_write false 0x0003 0xff] dev Hwf eq_refl eq_refl eq_refl) as H.
  cbv zeta in H. destruct H as [H _]. exact H.
Defined.

(** With TOIE set, the 64 cycles that wrap the counter request the timer
    interrupt. *)
Lemma burn_cycles_requests_interrupt_witness :
  let dev := upd_timer (set_tcr 0x20) m68hc05_device_init in
  BIT (m_pending_interrupts (base (burn_cycles example_tcap_line 64 dev))) example_tcap_line
  = true.
Proof.
  intros dev.
  assert (HL : 0 <= example_tcap_line < 16) by (split; [discriminate | reflexivity]).
  assert (Hn : 0 <= 0 < 16) by lia.
  pose proof (burn_cycles_requests_interrupt example_tcap_line 64 0 dev HL Hn) as H.
  cbv zeta in H. destruct H as (_ & _ & _ & H). apply H; reflexivity.
Defined.

(** The external line asserted twice and the capture line raised twice:
    the second delivery changes nothing. *)
Lemma execute_set_input_idempotent_witness :
  execute_set_input example_tcap_line example_irq_line ASSERT_LINE
    (execute_set_input example_tcap_line example_irq_line ASSERT_LINE m68hc05_device_init)
  = execute_set_input example_tcap_line example_irq_line ASSERT_LINE m68hc05_device_init
  /\ execute_set_input example_tcap_line example_tcap_line 1
       (execute_set_input example_tcap_line example_tcap_line 1 m68hc05_device_init)
     = execute_set_input example_tcap_line example_tcap_line 1 m68hc05_device_init.
Proof.
  split.
  - apply (execute_set_input_idempotent example_tcap_line example_irq_line ASSERT_LINE
             m68hc05_device_init).
    right. split; [discriminate | reflexivity].
  - apply (execute_set_input_idempotent example_tcap_line example_tcap_line 1
             m68hc05_device_init).
    left. reflexivity.
Defined.
